(** * Airline dataset generator: a shallow embedding of
      [analysis/01_create_data.py] and the properties of the tables it builds.

    Modelling conventions.

    - Floats have two readings.  The passes of the script ([create_flights],
      [create_customers], [create_bookings], [show_summary], [main]) are
      written over exact rationals ([Q]): the decimal literals of the script
      ([1.3], [0.85], ...) denote the rationals they spell, products are not
      rounded and [round(x, n)] is round-half-to-even on the exact value.
      This reading carries the structure of a run (counts, identifiers,
      references, dates, files, output) and the lower bounds of the float
      fields.  Module [Binary64] gives the three loop bodies again in IEEE
      754 binary64 (Rocq's primitive floats), with the two roundings of the
      script: the built-in [round] of a Python float for flights and
      customers, numpy's [round] of a [float64] (scale, [rint], scale back)
      for bookings.  The values of the float fields, and the branches taken
      on them, are stated in that reading.
    - [numpy.random] is a library outside the repository.  Its global
      generator is modelled by a [RandomState]: a read-only tape of raw words
      and of standard normal deviates, and a cursor.  Every sampling routine
      is written from its numpy definition on top of the raw draws
      ([randint] through [rk_interval], [uniform] and [choice(p=...)]
      through [random_sample], [normal] through [standard_normal]); which
      values the tape holds is left arbitrary, so a property proved for every
      tape holds for every run.
    - [datetime] values are modelled by their proleptic Gregorian ordinal
      (the script only handles midnights); [timedelta(days=n)] is [n].
    - Exceptions are explicit: every routine returns a [result]. *)

From Stdlib Require Import ZArith QArith Qround List String Ascii Bool Lia Lqa.
From Stdlib Require Import DecimalString DecimalN DecimalFacts.
From Stdlib Require Import Floats Uint63.
Import ListNotations.

Open Scope Z_scope.

(** ** Exceptions and results *)

Inductive exn : Type :=
| ValueError
| IndexError
| KeyError
| OSError
| FileExistsError.

Inductive result (A : Type) : Type :=
| Ok (a : A)
| Raise (e : exn).

Arguments Ok {A} a.
Arguments Raise {A} e.

(** ** Python built-ins used by the script *)

Definition Qltb (x y : Q) : bool := negb (Qle_bool y x).

(** [max(a, b)]: the first argument is kept unless the second is strictly
    greater. *)
Definition py_max (a b : Q) : Q := if Qltb a b then b else a.

(** Round half to even of an exact rational. *)
Definition round_half_even (x : Q) : Z :=
  let f := Qfloor x in
  let d := (x - inject_Z f)%Q in
  if Qltb d (1 # 2) then f
  else if Qltb (1 # 2) d then f + 1
  else if Z.even f then f else f + 1.

Definition pow10 (n : N) : positive := N.iter n (Pos.mul 10) 1%positive.

(** [round(x, ndigits)] for [ndigits >= 0], on the exact value. *)
Definition py_round (x : Q) (ndigits : N) : Q :=
  let m := pow10 ndigits in
  Qmake (round_half_even (x * inject_Z (Z.pos m))) m.

(** [range(n)] *)
Definition range (n : Z) : list Z := map Z.of_nat (seq 0 (Z.to_nat n)).

(** [len(l)] *)
Definition len {A : Type} (l : list A) : Z := Z.of_nat (List.length l).

(** [l[i]] for a non-negative index. *)
Definition getitem {A : Type} (l : list A) (i : Z) : result A :=
  if i <? 0 then Raise IndexError
  else match nth_error l (Z.to_nat i) with
       | Some x => Ok x
       | None => Raise IndexError
       end.

(** Decimal digits of a non-negative integer. *)
Definition digits (n : Z) : string :=
  NilZero.string_of_uint (N.to_uint (Z.to_N n)).

Fixpoint zeros (k : nat) : string :=
  match k with
  | O => EmptyString
  | S k' => String "0" (zeros k')
  end.

Definition zfill (width : nat) (s : string) : string :=
  (zeros (width - String.length s) ++ s)%string.

(** The format specification [{n:0<width>d}]: sign first, then zero padding
    up to [width] characters in total. *)
Definition format_0d (width : nat) (n : Z) : string :=
  if n <? 0 then String "-" (zfill (width - 1) (digits (- n)))
  else zfill width (digits n).

(** ** datetime: proleptic Gregorian ordinals, after CPython's [datetime] *)

Definition DAYS_IN_MONTH : list Z :=
  [-1; 31; 28; 31; 30; 31; 30; 31; 31; 30; 31; 30; 31].

Definition DAYS_BEFORE_MONTH : list Z :=
  [-1; 0; 31; 59; 90; 120; 151; 181; 212; 243; 273; 304; 334].

Definition is_leap (year : Z) : bool :=
  (year mod 4 =? 0) && (negb (year mod 100 =? 0) || (year mod 400 =? 0)).

Definition days_before_year (year : Z) : Z :=
  let y := year - 1 in
  y * 365 + y / 4 - y / 100 + y / 400.

Definition days_before_month (year month : Z) : Z :=
  nth (Z.to_nat month) DAYS_BEFORE_MONTH 0
  + (if (2 <? month) && is_leap year then 1 else 0).

Definition ymd2ord (year month day : Z) : Z :=
  days_before_year year + days_before_month year month + day.

Definition ord2ymd (n0 : Z) : Z * Z * Z :=
  let n := n0 - 1 in
  let n400 := n / 146097 in
  let n := n mod 146097 in
  let year := n400 * 400 + 1 in
  let n100 := n / 36524 in
  let n := n mod 36524 in
  let n4 := n / 1461 in
  let n := n mod 1461 in
  let n1 := n / 365 in
  let n := n mod 365 in
  let year := year + n100 * 100 + n4 * 4 + n1 in
  if (n1 =? 4) || (n100 =? 4) then (year - 1, 12, 31)
  else
    let leapyear := (n1 =? 3) && (negb (n4 =? 24) || (n100 =? 3)) in
    let month := Z.shiftr (n + 50) 5 in
    let preceding :=
      nth (Z.to_nat month) DAYS_BEFORE_MONTH 0
      + (if (2 <? month) && leapyear then 1 else 0) in
    if n <? preceding then
      let month := month - 1 in
      let preceding :=
        preceding - (nth (Z.to_nat month) DAYS_IN_MONTH 0
                     + (if (month =? 2) && leapyear then 1 else 0)) in
      (year, month, n - preceding + 1)
    else (year, month, n - preceding + 1).

(** The script only builds midnights: a [datetime] is its ordinal, and a
    [timedelta(days=n)] is [n]. *)
Definition datetime (year month day : Z) : Z := ymd2ord year month day.
Definition timedelta (days : Z) : Z := days.

(** ** numpy.random: the legacy global generator *)

Record RandomState : Type := {
  cursor : nat;
  words : nat -> Z;
  normals : nat -> Q
}.

Definition advance (s : RandomState) : RandomState :=
  {| cursor := S (cursor s); words := words s; normals := normals s |}.

(** Sampling code runs in a state-and-exception monad over the generator. *)
Definition M (A : Type) : Type := RandomState -> result (A * RandomState).

Definition ret {A : Type} (a : A) : M A := fun s => Ok (a, s).

Definition bind {A B : Type} (m : M A) (k : A -> M B) : M B :=
  fun s => match m s with
           | Ok (a, s') => k a s'
           | Raise e => Raise e
           end.

Definition raise {A : Type} (e : exn) : M A := fun _ => Raise e.

Definition lift {A : Type} (r : result A) : M A :=
  fun s => match r with
           | Ok a => Ok (a, s)
           | Raise e => Raise e
           end.

Declare Scope rng_scope.
Delimit Scope rng_scope with rng.
Notation "x <- m ;; k" := (bind m (fun x => k))
  (at level 61, m at next level, right associativity) : rng_scope.
Open Scope rng_scope.

(** One raw word of the tape. *)
Definition next_word : M Z :=
  fun s => Ok (words s (cursor s), advance s).

(** [rk_interval(max)]: an integer in [[0, max]]. *)
Definition rk_interval (max : Z) : M Z :=
  w <- next_word ;; ret (w mod (max + 1)).

(** [randint(low, high)]: an integer in [[low, high)]. *)
Definition randint (low high : Z) : M Z :=
  if high <=? low then raise ValueError
  else r <- rk_interval (high - low - 1) ;; ret (low + r).

(** [random_sample()]: a 53-bit fraction in [[0, 1)]. *)
Definition random_sample : M Q :=
  w <- next_word ;; ret (Qmake (w mod 2 ^ 53) (2 ^ 53)).

(** [standard_normal()]: the next deviate of the tape. *)
Definition standard_normal : M Q :=
  fun s => Ok (normals s (cursor s), advance s).

(** [normal(loc, scale)] *)
Definition normal (loc scale : Q) : M Q :=
  if Qltb scale 0 then raise ValueError
  else z <- standard_normal ;; ret (loc + scale * z)%Q.

(** [uniform(low, high)] *)
Definition uniform (low high : Q) : M Q :=
  u <- random_sample ;; ret (low + (high - low) * u)%Q.

(** [choice(a)] with uniform weights. *)
Definition choice {A : Type} (a : list A) : M A :=
  match a with
  | [] => raise ValueError
  | _ => i <- randint 0 (len a) ;; lift (getitem a i)
  end.

Fixpoint cumsum (acc : Q) (p : list Q) : list Q :=
  match p with
  | [] => []
  | x :: p' => (acc + x)%Q :: cumsum (acc + x)%Q p'
  end.

Definition Qsum (p : list Q) : Q := fold_left Qplus p 0%Q.

(** [searchsorted(cdf, u, side='right')]: how many entries are [<= u]. *)
Fixpoint searchsorted_right (cdf : list Q) (u : Q) : Z :=
  match cdf with
  | [] => 0
  | c :: cdf' => if Qle_bool c u then 1 + searchsorted_right cdf' u else 0
  end.

(** [choice(a, p=p)]: the checks on [p], then inversion of the normalised
    cumulative weights at one uniform sample. *)
Definition choice_p {A : Type} (a : list A) (p : list Q) : M A :=
  match a with
  | [] => raise ValueError
  | _ =>
    if negb (len p =? len a) then raise ValueError
    else if existsb (fun x => Qltb x 0) p then raise ValueError
    else if negb (Qeq_bool (Qsum p) 1) then raise ValueError
    else
      let cdf := cumsum 0 p in
      let cdf := map (fun c => c / last cdf 1)%Q cdf in
      u <- random_sample ;;
      lift (getitem a (searchsorted_right cdf u))
  end.

(** [df.sample(1).iloc[0]]: one row of a non-empty frame, at a position drawn
    from the global generator.  pandas takes the first entry of a random
    permutation of the positions; the model reads that position from one
    word of the tape. *)
Definition sample1 {A : Type} (df : list A) : M A :=
  match df with
  | [] => raise ValueError
  | _ => i <- rk_interval (len df - 1) ;; lift (getitem df i)
  end.

(** ** The three tables *)

Record Flight : Type := {
  flight_id : string;
  route : string;
  date : Z;
  aircraft_type : string;
  capacity : Z;
  base_price : Q
}.

Record Customer : Type := {
  customer_id : string;
  age : Z;
  income : Q;
  is_business : Z;
  home_city : string
}.

Record Booking : Type := {
  booking_id : string;
  booking_flight_id : string;
  booking_customer_id : string;
  booking_date : Z;
  price_paid : Q;
  advance_days : Z;
  passengers : Z
}.

(** ** Record generation: the bodies of the three loops, in exact
    arithmetic *)

Open Scope string_scope.

Definition routes : list string :=
  ["NYC-LAX"; "NYC-CHI"; "LAX-SF"; "CHI-MIA"; "NYC-BOS"].
Definition aircraft : list string := ["A320"; "B737"; "A321"].
Definition capacities : list Z := [150; 180; 220].
Definition home_cities : list string := ["NYC"; "LAX"; "CHI"; "MIA"; "BOS"].

Definition n_flights : Z := 50000.
Definition n_customers : Z := 15000.
Definition n_bookings : Z := 150000.

(** Lines 32-59: one flight. *)
Definition new_flight (i : Z) : M Flight :=
  route <- choice routes ;;
  plane <- choice aircraft ;;
  capacity <- choice capacities ;;
  days_from_start <- randint 0 365 ;;
  let flight_date := datetime 2023 1 1 + timedelta days_from_start in
  base_price <-
    (if route =? "NYC-LAX" then normal 400 50
     else if route =? "NYC-CHI" then normal 300 40
     else normal 250 30) ;;
  let base_price := py_max base_price 100 in
  ret {| flight_id := "FL" ++ format_0d 5 (i + 1);
         route := route;
         date := flight_date;
         aircraft_type := plane;
         capacity := capacity;
         base_price := py_round base_price 2 |}.

(** Lines 77-94: one customer.  The threshold test reads the floored income
    before it is rounded for the record. *)
Definition new_customer (i : Z) : M Customer :=
  age <- randint 18 70 ;;
  income <- normal 60000 20000 ;;
  let income := py_max income 25000 in
  is_business <-
    (if Qltb 80000 income && (30 <? age)%Z
     then choice_p [0; 1]%Z [0.4; 0.6]%Q
     else choice_p [0; 1]%Z [0.8; 0.2]%Q) ;;
  home_city <- choice home_cities ;;
  ret {| customer_id := "CU" ++ format_0d 5 (i + 1);
         age := age;
         income := py_round income 0;
         is_business := is_business;
         home_city := home_city |}.

(** Lines 123-127: the advance-booking band. *)
Definition advance_band (days_before : Z) (price : Q) : Q :=
  if (days_before <? 7)%Z then (price * 1.3)%Q
  else if (60 <? days_before)%Z then (price * 0.85)%Q
  else price.

(** Lines 111-145: one booking, from the two completed frames. *)
Definition new_booking (flights_df : list Flight) (customers_df : list Customer)
    (i : Z) : M Booking :=
  flight <- sample1 flights_df ;;
  customer <- sample1 customers_df ;;
  days_before <- randint 1 90 ;;
  let booking_date := (date flight - timedelta days_before)%Z in
  let price := base_price flight in
  let price := advance_band days_before price in
  price <-
    (if (is_business customer =? 1)%Z
     then u <- uniform 1.0 1.4 ;; ret (price * u)%Q
     else ret price) ;;
  noise <- normal 1.0 0.1 ;;
  let price := (price * noise)%Q in
  let price := py_max price 100 in
  passengers <- choice_p [1; 2; 3]%Z [0.7; 0.2; 0.1]%Q ;;
  ret {| booking_id := "BK" ++ format_0d 6 (i + 1);
         booking_flight_id := flight_id flight;
         booking_customer_id := customer_id customer;
         booking_date := booking_date;
         price_paid := py_round price 2;
         advance_days := days_before;
         passengers := passengers |}.

(** ** The script's world: generator, module-level variables, files, output *)

Inductive cell : Type :=
| CStr (s : string)
| CInt (z : Z)
| CFloat (q : Q)
| CDate (d : Z * Z * Z).

Record csv : Type := {
  header : list string;
  rows : list (list cell)
}.

Inductive out : Type :=
| Text (s : string)
| Thousands (n : Z)
| Money (q : Q)
| DateOf (d : Z * Z * Z)
| Frame (c : csv).

Record World : Type := {
  rng : RandomState;
  flight_data : list Flight;
  flights_df : list Flight;
  customer_data : list Customer;
  customers_df : list Customer;
  booking_data : list Booking;
  bookings_df : list Booking;
  directories : list string;
  files : list (string * csv);
  stdout : list (list out)
}.

Definition set_rng (r : RandomState) (w : World) : World :=
  {| rng := r; flight_data := flight_data w; flights_df := flights_df w;
     customer_data := customer_data w; customers_df := customers_df w;
     booking_data := booking_data w; bookings_df := bookings_df w;
     directories := directories w; files := files w; stdout := stdout w |}.

Definition set_flight_data (l : list Flight) (w : World) : World :=
  {| rng := rng w; flight_data := l; flights_df := flights_df w;
     customer_data := customer_data w; customers_df := customers_df w;
     booking_data := booking_data w; bookings_df := bookings_df w;
     directories := directories w; files := files w; stdout := stdout w |}.

Definition set_flights_df (l : list Flight) (w : World) : World :=
  {| rng := rng w; flight_data := flight_data w; flights_df := l;
     customer_data := customer_data w; customers_df := customers_df w;
     booking_data := booking_data w; bookings_df := bookings_df w;
     directories := directories w; files := files w; stdout := stdout w |}.

Definition set_customer_data (l : list Customer) (w : World) : World :=
  {| rng := rng w; flight_data := flight_data w; flights_df := flights_df w;
     customer_data := l; customers_df := customers_df w;
     booking_data := booking_data w; bookings_df := bookings_df w;
     directories := directories w; files := files w; stdout := stdout w |}.

Definition set_customers_df (l : list Customer) (w : World) : World :=
  {| rng := rng w; flight_data := flight_data w; flights_df := flights_df w;
     customer_data := customer_data w; customers_df := l;
     booking_data := booking_data w; bookings_df := bookings_df w;
     directories := directories w; files := files w; stdout := stdout w |}.

Definition set_booking_data (l : list Booking) (w : World) : World :=
  {| rng := rng w; flight_data := flight_data w; flights_df := flights_df w;
     customer_data := customer_data w; customers_df := customers_df w;
     booking_data := l; bookings_df := bookings_df w;
     directories := directories w; files := files w; stdout := stdout w |}.

Definition set_bookings_df (l : list Booking) (w : World) : World :=
  {| rng := rng w; flight_data := flight_data w; flights_df := flights_df w;
     customer_data := customer_data w; customers_df := customers_df w;
     booking_data := booking_data w; bookings_df := l;
     directories := directories w; files := files w; stdout := stdout w |}.

Definition set_directories (l : list string) (w : World) : World :=
  {| rng := rng w; flight_data := flight_data w; flights_df := flights_df w;
     customer_data := customer_data w; customers_df := customers_df w;
     booking_data := booking_data w; bookings_df := bookings_df w;
     directories := l; files := files w; stdout := stdout w |}.

Definition set_files (l : list (string * csv)) (w : World) : World :=
  {| rng := rng w; flight_data := flight_data w; flights_df := flights_df w;
     customer_data := customer_data w; customers_df := customers_df w;
     booking_data := booking_data w; bookings_df := bookings_df w;
     directories := directories w; files := l; stdout := stdout w |}.

Definition set_stdout (l : list (list out)) (w : World) : World :=
  {| rng := rng w; flight_data := flight_data w; flights_df := flights_df w;
     customer_data := customer_data w; customers_df := customers_df w;
     booking_data := booking_data w; bookings_df := bookings_df w;
     directories := directories w; files := files w; stdout := l |}.

(** [print(...)]: one more line of output. *)
Definition print (line : list out) (w : World) : World :=
  set_stdout (stdout w ++ [line]) w.

(** The directories after [os.makedirs(path, exist_ok=True)] has
    returned. *)
Definition makedirs (path : string) (w : World) : World :=
  if existsb (String.eqb path) (directories w) then w
  else set_directories (path :: directories w) w.

(** Writing a file replaces what the path held. *)
Definition write_file (path : string) (c : csv) (w : World) : World :=
  set_files
    ((path, c) :: filter (fun f => negb (fst f =? path)) (files w)) w.

Definition read_file (path : string) (w : World) : option csv :=
  option_map snd (find (fun f => fst f =? path) (files w)).

(** [os.makedirs(path, exist_ok=True)]: it raises [FileExistsError] where
    a regular file stands at the path, and returns otherwise. *)
Definition os_makedirs (path : string) (w : World) : result World :=
  match read_file path w with
  | Some _ => Raise FileExistsError
  | None => Ok (makedirs path w)
  end.

Fixpoint has_slash (path : string) : bool :=
  match path with
  | EmptyString => false
  | String c rest => Ascii.eqb c "/" || has_slash rest
  end.

Fixpoint before_last_slash (path : string) : string :=
  match path with
  | EmptyString => EmptyString
  | String c rest =>
    if has_slash rest then String c (before_last_slash rest)
    else EmptyString
  end.

(** The directory a relative path lies in; a bare name lies in the working
    directory, which is there. *)
Definition parent (path : string) : option string :=
  if has_slash path then Some (before_last_slash path) else None.

(** [df.to_csv(path, index=False)]: pandas refuses to write into a directory
    that does not exist. *)
Definition to_csv (path : string) (c : csv) (w : World) : result World :=
  match parent path with
  | Some d =>
    if existsb (String.eqb d) (directories w) then Ok (write_file path c w)
    else Raise OSError
  | None => Ok (write_file path c w)
  end.

(** [pd.DataFrame(records)] keeps the records in order; its columns are the
    keys of the first record, so an empty frame has none. *)
Definition to_table {A : Type} (columns : list string) (row : A -> list cell)
    (df : list A) : csv :=
  {| header := match df with [] => [] | _ => columns end;
     rows := map row df |}.

Definition flight_row (f : Flight) : list cell :=
  [CStr (flight_id f); CStr (route f); CDate (ord2ymd (date f));
   CStr (aircraft_type f); CInt (capacity f); CFloat (base_price f)].

Definition customer_row (c : Customer) : list cell :=
  [CStr (customer_id c); CInt (age c); CFloat (income c);
   CInt (is_business c); CStr (home_city c)].

Definition booking_row (b : Booking) : list cell :=
  [CStr (booking_id b); CStr (booking_flight_id b);
   CStr (booking_customer_id b); CDate (ord2ymd (booking_date b));
   CFloat (price_paid b); CInt (advance_days b); CInt (passengers b)].

Definition flights_table : list Flight -> csv :=
  to_table ["flight_id"; "route"; "date"; "aircraft"; "capacity"; "base_price"]
           flight_row.

Definition customers_table : list Customer -> csv :=
  to_table ["customer_id"; "age"; "income"; "is_business"; "home_city"]
           customer_row.

Definition bookings_table : list Booking -> csv :=
  to_table ["booking_id"; "flight_id"; "customer_id"; "booking_date";
            "price_paid"; "advance_days"; "passengers"]
           booking_row.

(** ** The passes *)

(** [for x in l: body], stopping at the first exception. *)
Fixpoint for_each {A : Type} (l : list A) (body : A -> World -> result World)
    (w : World) : result World :=
  match l with
  | [] => Ok w
  | x :: l' =>
    match body x w with
    | Ok w' => for_each l' body w'
    | Raise e => Raise e
    end
  end.

(** Run a sampling computation on the world's generator. *)
Definition draw {A : Type} (m : M A) (k : A -> World -> World) (w : World)
    : result World :=
  match m (rng w) with
  | Ok (a, r) => Ok (k a (set_rng r w))
  | Raise e => Raise e
  end.

Definition flight_iteration (i : Z) : World -> result World :=
  draw (new_flight i)
       (fun f w => set_flight_data (flight_data w ++ [f]) w).

Definition customer_iteration (i : Z) : World -> result World :=
  draw (new_customer i)
       (fun c w => set_customer_data (customer_data w ++ [c]) w).

Definition booking_iteration (i : Z) (w : World) : result World :=
  draw (new_booking (flights_df w) (customers_df w) i)
       (fun b w => set_booking_data (booking_data w ++ [b]) w) w.

Definition and_then (r : result World) (k : World -> result World)
    : result World :=
  match r with
  | Ok w => k w
  | Raise e => Raise e
  end.

(** Lines 20-64. *)
Definition create_flights (w : World) : result World :=
  let w := print [Text "1. Creating flights..."] w in
  let w := set_flight_data [] w in
  and_then (for_each (range n_flights) flight_iteration w) (fun w =>
  let w := set_flights_df (flight_data w) w in
  and_then (to_csv "../data/flights.csv" (flights_table (flights_df w)) w)
           (fun w =>
  Ok (print [Text "   Created "; Thousands (len (flights_df w));
             Text " flights"] w))).

(** Lines 70-98. *)
Definition create_customers (w : World) : result World :=
  let w := print [Text "2. Creating customers..."] w in
  let w := set_customer_data [] w in
  and_then (for_each (range n_customers) customer_iteration w) (fun w =>
  let w := set_customers_df (customer_data w) w in
  and_then (to_csv "../data/customers.csv"
                   (customers_table (customers_df w)) w) (fun w =>
  Ok (print [Text "   Created "; Thousands (len (customers_df w));
             Text " customers"] w))).

(** Lines 104-149. *)
Definition create_bookings (w : World) : result World :=
  let w := print [Text "3. Creating bookings..."] w in
  let w := set_booking_data [] w in
  and_then (for_each (range n_bookings) booking_iteration w) (fun w =>
  let w := set_bookings_df (booking_data w) w in
  and_then (to_csv "../data/bookings.csv"
                   (bookings_table (bookings_df w)) w) (fun w =>
  Ok (print [Text "   Created "; Thousands (len (bookings_df w));
             Text " bookings"] w))).

Fixpoint minimum (x : Z) (l : list Z) : Z :=
  match l with
  | [] => x
  | y :: l' => minimum (Z.min x y) l'
  end.

Fixpoint maximum (x : Z) (l : list Z) : Z :=
  match l with
  | [] => x
  | y :: l' => maximum (Z.max x y) l'
  end.

(** Lines 155-173.  Selecting a column of a frame without columns raises.
    The printed texts are kept without their leading blank lines and
    pictographs; numbers and dates are kept as values, not as digits. *)
Definition show_summary (w : World) : result World :=
  let w := print [Text "DATASET COMPLETE!"] w in
  let w := print [Text "=============================="] w in
  let w := print [Text "Flights:  "; Thousands (len (flights_df w))] w in
  let w := print [Text "Customers: "; Thousands (len (customers_df w))] w in
  let w := print [Text "Bookings: "; Thousands (len (bookings_df w))] w in
  match bookings_df w, map date (flights_df w) with
  | [], _ => Raise KeyError
  | _, [] => Raise KeyError
  | _ :: _, d :: ds =>
    let prices := map price_paid (bookings_df w) in
    let w := print [Text "Total Revenue: $"; Money (Qsum prices)] w in
    let w := print [Text "Average Ticket: $";
                    Money (Qsum prices / inject_Z (len prices))] w in
    let w := print [Text "Date Range: "; DateOf (ord2ymd (minimum d ds));
                    Text " to "; DateOf (ord2ymd (maximum d ds))] w in
    let w := print [Text "Routes: "; Text (String.concat ", " routes)] w in
    let w := print [Text "Files saved in ../data/ folder"] w in
    let w := print [Text "SAMPLE DATA:"] w in
    let w := print [Text "Flights sample:"] w in
    let w := print [Frame (flights_table (firstn 3 (flights_df w)))] w in
    let w := print [Text "Bookings sample:"] w in
    Ok (print [Frame (bookings_table (firstn 3 (bookings_df w)))] w)
  end.

Section Script.

(** [np.random.seed(n)] replaces the generator's state by one computed from
    [n] alone; numpy's initialisation routine is not part of the
    repository. *)
Variable init_by_seed : Z -> RandomState.

Definition random_seed (n : Z) (w : World) : World :=
  set_rng (init_by_seed n) w.

(** The whole script, from any state of the process. *)
Definition main (w : World) : result World :=
  let w := print [Text "Creating airline dataset..."] w in
  let w := random_seed 42 w in
  let w := makedirs "../data" w in
  and_then (create_flights w) (fun w =>
  and_then (create_customers w) (fun w =>
  and_then (create_bookings w) show_summary)).

(** The world in which the first pass starts: after lines 8-14. *)
Definition started (w0 : World) : World :=
  makedirs "../data"
    (random_seed 42 (print [Text "Creating airline dataset..."] w0)).

End Script.

Close Scope string_scope.

(** * The loop bodies in binary64

    The same three loop bodies with the arithmetic of the script: a Python
    float and a numpy [float64] are IEEE 754 binary64 numbers, here Rocq's
    primitive floats.  The generator is the one above; a deviate of the tape
    is read as the double nearest to it, a uniform fraction as the double it
    is. *)

Set Warnings "-inexact-float".

Module Binary64.

(** The exact value of a finite double (0 for the others). *)
Definition value (x : float) : Q :=
  match Prim2SF x with
  | S754_finite s m e =>
    let n := if s then Z.neg m else Z.pos m in
    if (0 <=? e)%Z then inject_Z (n * 2 ^ e)
    else Qmake n (Z.to_pos (2 ^ (- e)))
  | _ => 0%Q
  end.

(** The double of an integer below [2 ^ 63] in absolute value. *)
Definition of_Z (n : Z) : float :=
  if (n <? 0)%Z then (- of_uint63 (Uint63.of_Z (- n)))%float
  else of_uint63 (Uint63.of_Z n).

(** The double nearest to a rational, ties to even: a significand of at
    most 53 bits at an exponent no lower than that of the subnormals. *)
Definition nearest (q : Q) : float :=
  let n := Qnum q in
  let d := Z.pos (Qden q) in
  if (n =? 0)%Z then PrimFloat.zero
  else
    let a := Z.abs n in
    let scaled (e : Z) : Q :=
      if (0 <=? e)%Z then Qmake a (Z.to_pos (d * 2 ^ e))
      else Qmake (a * 2 ^ (- e)) (Z.to_pos d) in
    let e1 := (Z.log2 a - Z.log2 d - 52)%Z in
    let f := Qfloor (scaled e1) in
    let e := if (2 ^ 53 <=? f)%Z then (e1 + 1)%Z
             else if (f <? 2 ^ 52)%Z then (e1 - 1)%Z else e1 in
    let e := Z.max e (-1074) in
    let m := round_half_even (scaled e) in
    let x := Z.ldexp (of_Z m) e in
    if (n <? 0)%Z then (- x)%float else x.

(** [x] with the sign of [y]. *)
Definition copysign (x y : float) : float :=
  if get_sign y then (- abs x)%float else abs x.

(** The built-in [round(x, ndigits)] of a Python float: the decimal
    rounding, half to even, of the exact value, as the nearest double. *)
Definition round_builtin (x : float) (ndigits : N) : float :=
  if is_finite x
  then copysign (nearest (py_round (value x) ndigits)) x
  else x.

(** C's [rint]: the nearest integer, ties to even. *)
Definition rint (x : float) : float :=
  if (abs x <? 4503599627370496)%float
  then copysign (abs x + 4503599627370496 - 4503599627370496)%float x
  else x.

(** [round(x, ndigits)] of a numpy [float64]: scale, [rint], scale back. *)
Definition round_numpy (x : float) (ndigits : N) : float :=
  match ndigits with
  | N0 => rint x
  | _ => let f := of_Z (Z.pos (pow10 ndigits)) in (rint (x * f) / f)%float
  end.

(** [max(a, b)]: the first argument is kept unless the second is strictly
    greater. *)
Definition py_max (a b : float) : float := if (a <? b)%float then b else a.

(** [standard_normal()]: the next deviate of the tape, as a double. *)
Definition standard_normal : M float :=
  fun s => Ok (nearest (normals s (cursor s)), advance s).

(** [normal(loc, scale)] *)
Definition normal (loc scale : float) : M float :=
  if (scale <? 0)%float then raise ValueError
  else z <- standard_normal ;; ret (loc + scale * z)%float.

(** [uniform(low, high)] *)
Definition uniform (low high : float) : M float :=
  u <- random_sample ;; ret (low + (high - low) * nearest u)%float.

Fixpoint cumsum (acc : float) (p : list float) : list float :=
  match p with
  | [] => []
  | x :: p' => (acc + x)%float :: cumsum (acc + x)%float p'
  end.

(** [cdf = p.cumsum(); cdf /= cdf[-1]] *)
Definition normalised_cdf (p : list float) : list float :=
  let cdf := cumsum 0 p in map (fun c => (c / last cdf 1)%float) cdf.

(** [choice(a, p=p)]: the checks on [p], then inversion of the normalised
    cumulative weights at one uniform sample; a double compares with the
    sample as its exact value does. *)
Definition choice_p {A : Type} (a : list A) (p : list float) : M A :=
  match a with
  | [] => raise ValueError
  | _ =>
    if negb (len p =? len a)%Z then raise ValueError
    else if existsb (fun x => (x <? 0)%float) p then raise ValueError
    else if (1.4901161193847656e-08
             <? abs (fold_left PrimFloat.add p 0 - 1))%float
         then raise ValueError
    else
      u <- random_sample ;;
      lift (getitem a (searchsorted_right (map value (normalised_cdf p)) u))
  end.

Record Flight : Type := {
  flight_id : string;
  route : string;
  date : Z;
  aircraft_type : string;
  capacity : Z;
  base_price : float
}.

Record Customer : Type := {
  customer_id : string;
  age : Z;
  income : float;
  is_business : Z;
  home_city : string
}.

Record Booking : Type := {
  booking_id : string;
  booking_flight_id : string;
  booking_customer_id : string;
  booking_date : Z;
  price_paid : float;
  advance_days : Z;
  passengers : Z
}.

(** Lines 32-59: one flight.  [normal] returns a Python float, whose
    [round] is the built-in one. *)
Definition new_flight (i : Z) : M Flight :=
  route <- choice routes ;;
  plane <- choice aircraft ;;
  capacity <- choice capacities ;;
  days_from_start <- randint 0 365 ;;
  let flight_date := (datetime 2023 1 1 + timedelta days_from_start)%Z in
  base_price <-
    (if (route =? "NYC-LAX")%string then normal 400 50
     else if (route =? "NYC-CHI")%string then normal 300 40
     else normal 250 30) ;;
  let base_price := py_max base_price 100 in
  ret {| flight_id := "FL" ++ format_0d 5 (i + 1);
         route := route;
         date := flight_date;
         aircraft_type := plane;
         capacity := capacity;
         base_price := round_builtin base_price 2 |}.

(** Lines 77-94: one customer.  The threshold test reads the floored income
    before it is rounded for the record. *)
Definition new_customer (i : Z) : M Customer :=
  age <- randint 18 70 ;;
  income <- normal 60000 20000 ;;
  let income := py_max income 25000 in
  is_business <-
    (if (80000 <? income)%float && (30 <? age)%Z
     then choice_p [0; 1]%Z [0.4; 0.6]%float
     else choice_p [0; 1]%Z [0.8; 0.2]%float) ;;
  home_city <- choice home_cities ;;
  ret {| customer_id := "CU" ++ format_0d 5 (i + 1);
         age := age;
         income := round_builtin income 0;
         is_business := is_business;
         home_city := home_city |}.

(** Lines 123-127: the advance-booking band. *)
Definition advance_band (days_before : Z) (price : float) : float :=
  if (days_before <? 7)%Z then (price * 1.3)%float
  else if (60 <? days_before)%Z then (price * 0.85)%float
  else price.

(** Lines 111-145: one booking.  The price read from a row of the frame is
    a numpy [float64], and so is every product; its [round] is numpy's. *)
Definition new_booking (flights_df : list Flight)
    (customers_df : list Customer) (i : Z) : M Booking :=
  flight <- sample1 flights_df ;;
  customer <- sample1 customers_df ;;
  days_before <- randint 1 90 ;;
  let booking_date := (date flight - timedelta days_before)%Z in
  let price := base_price flight in
  let price := advance_band days_before price in
  price <-
    (if (is_business customer =? 1)%Z
     then u <- uniform 1.0 1.4 ;; ret (price * u)%float
     else ret price) ;;
  noise <- normal 1.0 0.1 ;;
  let price := (price * noise)%float in
  let price := py_max price 100 in
  passengers <- choice_p [1; 2; 3]%Z [0.7; 0.2; 0.1]%float ;;
  ret {| booking_id := "BK" ++ format_0d 6 (i + 1);
         booking_flight_id := flight_id flight;
         booking_customer_id := customer_id customer;
         booking_date := booking_date;
         price_paid := round_numpy price 2;
         advance_days := days_before;
         passengers := passengers |}.

(** [data = []; for i in idx: data.append(gen(i))] *)
Fixpoint collect {A : Type} (gen : Z -> M A) (idx : list Z) : M (list A) :=
  match idx with
  | [] => ret []
  | i :: idx' => a <- gen i ;; rest <- collect gen idx' ;; ret (a :: rest)
  end.

(** The three loops, one after the other, on one generator. *)
Definition generate_tables
    : M (list Flight * list Customer * list Booking) :=
  flights_df <- collect new_flight (range n_flights) ;;
  customers_df <- collect new_customer (range n_customers) ;;
  bookings_df <-
    collect (new_booking flights_df customers_df) (range n_bookings) ;;
  ret (flights_df, customers_df, bookings_df).

End Binary64.

(** * Specification vocabulary *)

(** [wp m P s]: from state [s], [m] returns, with a value and a state that
    satisfy [P]. *)
Definition wp {A : Type} (m : M A) (P : A -> RandomState -> Prop)
    (s : RandomState) : Prop :=
  exists a s', m s = Ok (a, s') /\ P a s'.

(** The raw word and the uniform fraction read at the cursor. *)
Definition word_at (s : RandomState) : Z := words s (cursor s).
Definition fraction_at (s : RandomState) : Q :=
  Qmake (word_at s mod 2 ^ 53) (2 ^ 53).
Definition normal_at (s : RandomState) : Q := normals s (cursor s).

(** A Bernoulli draw of probability [p] as a function of the uniform
    fraction: [choice([0, 1], p=[1 - p, p])] returns 1 exactly when the
    fraction reaches [1 - p]. *)
Definition bernoulli_value (p : Q) (u : Q) : Z :=
  if Qle_bool (1 - p) u then 1 else 0.

(** Two states read the same tape. *)
Definition same_tape (s s0 : RandomState) : Prop :=
  words s = words s0 /\ normals s = normals s0.

Definition flight_mean (r : string) : Q :=
  if (r =? "NYC-LAX")%string then 400
  else if (r =? "NYC-CHI")%string then 300 else 250.

Definition flight_stdev (r : string) : Q :=
  if (r =? "NYC-LAX")%string then 50
  else if (r =? "NYC-CHI")%string then 40 else 30.

(** The flight built at index [i] from state [s]: every field in terms of
    the five draws read from the tape. *)
Definition flight_post (i : Z) (s : RandomState) (f : Flight)
    (s' : RandomState) : Prop :=
  s' = advance (advance (advance (advance (advance s)))) /\
  flight_id f = ("FL" ++ format_0d 5 (i + 1))%string /\
  nth_error routes (Z.to_nat (word_at s mod 5)) = Some (route f) /\
  nth_error aircraft (Z.to_nat (word_at (advance s) mod 3))
    = Some (aircraft_type f) /\
  nth_error capacities (Z.to_nat (word_at (advance (advance s)) mod 3))
    = Some (capacity f) /\
  date f = datetime 2023 1 1
           + word_at (advance (advance (advance s))) mod 365 /\
  base_price f =
    py_round
      (py_max (flight_mean (route f) + flight_stdev (route f)
               * normal_at (advance (advance (advance (advance s)))))%Q
              100) 2.

(** The probability of the business flag, as a function of the income and
    the age it is tested on. *)
Definition business_probability (income : Q) (age : Z) : Q :=
  if Qltb 80000 income && (30 <? age) then 0.6 else 0.2.

(** The income of the customer built from [s], floored and not yet
    rounded. *)
Definition floored_income (s : RandomState) : Q :=
  py_max (60000 + 20000 * normal_at (advance s))%Q 25000.

(** The customer built at index [i] from state [s]. *)
Definition customer_post (i : Z) (s : RandomState) (c : Customer)
    (s' : RandomState) : Prop :=
  s' = advance (advance (advance (advance s))) /\
  customer_id c = ("CU" ++ format_0d 5 (i + 1))%string /\
  age c = 18 + word_at s mod 52 /\
  income c = py_round (floored_income s) 0 /\
  is_business c =
    bernoulli_value (business_probability (floored_income s) (age c))
                    (fraction_at (advance (advance s))) /\
  nth_error home_cities
            (Z.to_nat (word_at (advance (advance (advance s))) mod 5))
    = Some (home_city c).

(** The claim's three advance-booking bands, one condition each. *)
Definition band_price (advance : Z) (base price : Q) : Prop :=
  (advance < 7 -> price = (base * 1.3)%Q) /\
  (60 < advance -> price = (base * 0.85)%Q) /\
  (7 <= advance <= 60 -> price = base).

(** The booking built at index [i] from state [s] and the two frames. *)
Definition booking_post (fl : list Flight) (cu : list Customer) (i : Z)
    (s : RandomState) (b : Booking) (s' : RandomState) : Prop :=
  same_tape s' s /\
  exists (f : Flight) (c : Customer) (u z : Q),
    nth_error fl (Z.to_nat (word_at s mod len fl)) = Some f /\
    nth_error cu (Z.to_nat (word_at (advance s) mod len cu)) = Some c /\
    booking_id b = ("BK" ++ format_0d 6 (i + 1))%string /\
    booking_flight_id b = flight_id f /\
    booking_customer_id b = customer_id c /\
    advance_days b = 1 + word_at (advance (advance s)) mod 89 /\
    booking_date b = date f - advance_days b /\
    u = fraction_at (advance (advance (advance s))) /\
    (exists p, z = normals s p) /\
    price_paid b =
      py_round
        (py_max
           ((if is_business c =? 1
             then advance_band (advance_days b) (base_price f)
                  * (1.0 + (1.4 - 1.0) * u)
             else advance_band (advance_days b) (base_price f))
            * (1.0 + 0.1 * z))%Q
           100) 2 /\
    In (passengers b) [1; 2; 3].

(** [generated tape gen idx l]: the records of [l] were produced, in order,
    by [gen] at the indices [idx], each from some position of [tape]. *)
Definition generated {A : Type} (tape : RandomState) (gen : Z -> M A)
    (idx : list Z) (l : list A) : Prop :=
  Forall2 (fun i a => exists s s', same_tape s tape /\ gen i s = Ok (a, s'))
          idx l.

(** What a pass leaves alone: the tape, the given frames, the other
    files; it only adds lines to the output. *)
Definition extends_output (w0 w : World) : Prop :=
  exists lines, stdout w = stdout w0 ++ lines.

Definition flights_pass (w0 w : World) : Prop :=
  same_tape (rng w) (rng w0) /\
  generated (rng w0) new_flight (range n_flights) (flights_df w) /\
  flight_data w = flights_df w /\
  customers_df w = customers_df w0 /\
  bookings_df w = bookings_df w0 /\
  read_file "../data/flights.csv" w = Some (flights_table (flights_df w)) /\
  (forall p, p <> "../data/flights.csv"%string ->
             read_file p w = read_file p w0) /\
  extends_output w0 w.

Definition customers_pass (w0 w : World) : Prop :=
  same_tape (rng w) (rng w0) /\
  generated (rng w0) new_customer (range n_customers) (customers_df w) /\
  customer_data w = customers_df w /\
  flights_df w = flights_df w0 /\
  bookings_df w = bookings_df w0 /\
  read_file "../data/customers.csv" w
    = Some (customers_table (customers_df w)) /\
  (forall p, p <> "../data/customers.csv"%string ->
             read_file p w = read_file p w0) /\
  extends_output w0 w.

Definition bookings_pass (w0 w : World) : Prop :=
  same_tape (rng w) (rng w0) /\
  generated (rng w0) (new_booking (flights_df w0) (customers_df w0))
            (range n_bookings) (bookings_df w) /\
  booking_data w = bookings_df w /\
  flights_df w = flights_df w0 /\
  customers_df w = customers_df w0 /\
  read_file "../data/bookings.csv" w
    = Some (bookings_table (bookings_df w)) /\
  (forall p, p <> "../data/bookings.csv"%string ->
             read_file p w = read_file p w0) /\
  extends_output w0 w.

Definition summary_pass (w0 w : World) : Prop :=
  rng w = rng w0 /\
  flights_df w = flights_df w0 /\
  customers_df w = customers_df w0 /\
  bookings_df w = bookings_df w0 /\
  files w = files w0 /\
  extends_output w0 w.

(** Reading back a decimal string, leading zeros allowed. *)
Definition parse_decimal (s : string) : option N :=
  option_map N.of_uint (NilEmpty.uint_of_string s).

(** [1; 2; ...; n] *)
Definition ordinals (n : Z) : list Z := map (fun i => i + 1) (range n).

(** A linear-time check of a predicate on [k, k + fuel). *)
Fixpoint check_from (f : Z -> bool) (k : Z) (fuel : nat) : bool :=
  match fuel with
  | O => true
  | S fuel' => f k && check_from f (k + 1) fuel'
  end.

Definition has_width (width : nat) (k : Z) : bool :=
  Nat.eqb (String.length (format_0d width k)) width.

Definition year_of (d : Z) : Z := fst (fst (ord2ymd d)).

(** What holds of every flight, for C6 and C10. *)
Definition flight_date_ok (f : Flight) : Prop :=
  exists off,
    0 <= off <= 364 /\
    date f = datetime 2023 1 1 + timedelta off /\
    datetime 2023 1 1 <= date f <= datetime 2023 12 31 /\
    year_of (date f) = 2023.

(** A tape whose every word is [c] and every deviate is [z]. *)
Definition constant_tape (c : Z) (z : Q) : RandomState :=
  {| cursor := 0; words := fun _ => c; normals := fun _ => z |}.

(** The flight, the customer of the tables that a booking names. *)
Definition references_flight (fl : list Flight) (b : Booking) (f : Flight)
    : Prop :=
  In f fl /\ flight_id f = booking_flight_id b.

Definition references_customer (cu : list Customer) (b : Booking)
    (c : Customer) : Prop :=
  In c cu /\ customer_id c = booking_customer_id b.

(** The price of a booking as the claim words it: the band, then the
    business factor, then the noise factor, then the floor, then the
    rounding. *)
Definition claimed_price (base : Q) (advance business : Z)
    (factor noise price : Q) : Prop :=
  exists p1 p2 p3 p4 : Q,
    band_price advance base p1 /\
    p2 = (if business =? 1 then (p1 * factor)%Q else p1) /\
    p3 = (p2 * noise)%Q /\
    p4 = py_max p3 100 /\
    price = py_round p4 2.

(** What the generator guarantees of every booking it returns. *)
Definition booking_ok (fl : list Flight) (cu : list Customer) (b : Booking)
    : Prop :=
  exists (f : Flight) (c : Customer) (factor z : Q),
    references_flight fl b f /\
    references_customer cu b c /\
    1 <= advance_days b <= 89 /\
    booking_date b = date f - timedelta (advance_days b) /\
    (1.0 <= factor)%Q /\ (factor <= 1.4)%Q /\
    claimed_price (base_price f) (advance_days b) (is_business c)
                  factor (1.0 + 0.1 * z)%Q (price_paid b) /\
    In (passengers b) [1; 2; 3].

(** The memory a pass does not own. *)
Definition other_than_flights (w : World) :=
  (customer_data w, customers_df w, booking_data w, bookings_df w).
Definition other_than_customers (w : World) :=
  (flight_data w, flights_df w, booking_data w, bookings_df w).
Definition other_than_bookings (w : World) :=
  (flight_data w, flights_df w, customer_data w, customers_df w).
Definition all_tables (w : World) :=
  (flight_data w, flights_df w, customer_data w, customers_df w,
   booking_data w, bookings_df w).

(** [choice([1, 2, 3], p=[0.7, 0.2, 0.1])] as a function of the uniform
    fraction. *)
Definition passengers_value (u : Q) : Z :=
  if Qle_bool 0.7 u then (if Qle_bool 0.9 u then 3 else 2) else 1.

(** The column of a table that its header names. *)
Fixpoint index_of (name : string) (header : list string) : option nat :=
  match header with
  | [] => None
  | h :: header' =>
    if (h =? name)%string then Some O
    else option_map S (index_of name header')
  end.

Definition csv_column (name : string) (c : csv) : option (list cell) :=
  match index_of name (header c) with
  | Some k => Some (map (fun r => nth k r (CStr "")) (rows c))
  | None => None
  end.

(** A process that has not run anything yet. *)
Definition blank_world : World :=
  {| rng := {| cursor := 0; words := fun _ => 0; normals := fun _ => 0%Q |};
     flight_data := []; flights_df := [];
     customer_data := []; customers_df := [];
     booking_data := []; bookings_df := [];
     directories := []; files := []; stdout := [] |}.

(** A tape whose first three words are given, for the first flight. *)
Definition three_words (a b c : Z) : RandomState :=
  {| cursor := 0;
     words := fun p => match p with
                       | O => a
                       | S O => b
                       | S (S O) => c
                       | _ => 0
                       end;
     normals := fun _ => 0%Q |}.


(** ** The binary64 records in terms of the draws *)

(** The deviate and the uniform sample read at the cursor, as doubles. *)
Definition deviate_at (s : RandomState) : float :=
  Binary64.nearest (normal_at s).
Definition sample_at (s : RandomState) : float :=
  Binary64.nearest (fraction_at s).

Definition route_mean (r : string) : float :=
  if (r =? "NYC-LAX")%string then 400
  else if (r =? "NYC-CHI")%string then 300 else 250.

Definition route_stdev (r : string) : float :=
  if (r =? "NYC-LAX")%string then 50
  else if (r =? "NYC-CHI")%string then 40 else 30.

(** The flight built at index [i] from state [s]. *)
Definition flight_post64 (i : Z) (s : RandomState) (f : Binary64.Flight)
    (s' : RandomState) : Prop :=
  s' = advance (advance (advance (advance (advance s)))) /\
  Binary64.flight_id f = ("FL" ++ format_0d 5 (i + 1))%string /\
  nth_error routes (Z.to_nat (word_at s mod 5)) = Some (Binary64.route f) /\
  nth_error aircraft (Z.to_nat (word_at (advance s) mod 3))
    = Some (Binary64.aircraft_type f) /\
  nth_error capacities (Z.to_nat (word_at (advance (advance s)) mod 3))
    = Some (Binary64.capacity f) /\
  Binary64.date f = datetime 2023 1 1
                    + word_at (advance (advance (advance s))) mod 365 /\
  Binary64.base_price f =
    Binary64.round_builtin
      (Binary64.py_max
         (route_mean (Binary64.route f)
          + route_stdev (Binary64.route f)
            * deviate_at (advance (advance (advance (advance s)))))%float
         100) 2.

(** The income of the customer built from [s], floored and not yet
    rounded. *)
Definition floored_income64 (s : RandomState) : float :=
  Binary64.py_max (60000 + 20000 * deviate_at (advance s))%float 25000.

(** The probability of the business flag, as a function of the income and
    the age it is tested on. *)
Definition business_probability64 (income : float) (age : Z) : Q :=
  if (80000 <? income)%float && (30 <? age) then 0.6 else 0.2.

(** The customer built at index [i] from state [s]. *)
Definition customer_post64 (i : Z) (s : RandomState) (c : Binary64.Customer)
    (s' : RandomState) : Prop :=
  s' = advance (advance (advance (advance s))) /\
  Binary64.customer_id c = ("CU" ++ format_0d 5 (i + 1))%string /\
  Binary64.age c = 18 + word_at s mod 52 /\
  Binary64.income c = Binary64.round_builtin (floored_income64 s) 0 /\
  Binary64.is_business c =
    bernoulli_value
      (business_probability64 (floored_income64 s) (Binary64.age c))
      (fraction_at (advance (advance s))) /\
  nth_error home_cities
            (Z.to_nat (word_at (advance (advance (advance s))) mod 5))
    = Some (Binary64.home_city c).

(** The state at which a booking reads its noise deviate: after the three
    integer draws, and after the uniform draw of a business customer. *)
Definition noise_state (c : Binary64.Customer) (s : RandomState)
    : RandomState :=
  if Binary64.is_business c =? 1
  then advance (advance (advance (advance s)))
  else advance (advance (advance s)).

(** The booking built at index [i] from state [s] and the two frames. *)
Definition booking_post64 (fl : list Binary64.Flight)
    (cu : list Binary64.Customer) (i : Z) (s : RandomState)
    (b : Binary64.Booking) (s' : RandomState) : Prop :=
  exists (f : Binary64.Flight) (c : Binary64.Customer),
    nth_error fl (Z.to_nat (word_at s mod len fl)) = Some f /\
    nth_error cu (Z.to_nat (word_at (advance s) mod len cu)) = Some c /\
    s' = advance (advance (noise_state c s)) /\
    Binary64.booking_id b = ("BK" ++ format_0d 6 (i + 1))%string /\
    Binary64.booking_flight_id b = Binary64.flight_id f /\
    Binary64.booking_customer_id b = Binary64.customer_id c /\
    Binary64.advance_days b = 1 + word_at (advance (advance s)) mod 89 /\
    Binary64.booking_date b = Binary64.date f - Binary64.advance_days b /\
    Binary64.price_paid b =
      Binary64.round_numpy
        (Binary64.py_max
           ((if (Binary64.is_business c =? 1)%Z
             then Binary64.advance_band (Binary64.advance_days b)
                                        (Binary64.base_price f)
                  * (1.0 + (1.4 - 1.0)
                           * sample_at (advance (advance (advance s))))
             else Binary64.advance_band (Binary64.advance_days b)
                                        (Binary64.base_price f))
            * (1.0 + 0.1 * deviate_at (noise_state c s)))%float
           100) 2 /\
    Binary64.passengers b
    = passengers_value (fraction_at (advance (noise_state c s))).

(** The claim as worded, on the fields of the record: the flag is the
    Bernoulli draw whose probability is selected by the recorded income. *)
Definition flag_follows_recorded_income : Prop :=
  forall i s c s',
    Binary64.new_customer i s = Ok (c, s') ->
    Binary64.is_business c =
    bernoulli_value
      (business_probability64 (Binary64.income c) (Binary64.age c))
      (fraction_at (advance (advance s))).

(** A state whose every customer is 40 years old and draws the uniform
    fraction one half, with a given deviate. *)
Definition forty_years_old (z : Q) : RandomState :=
  {| cursor := 0;
     words := fun p => match p with O => 22 | _ => 2 ^ 52 end;
     normals := fun _ => z |}.



(** * Verification *)

(** ** Rational arithmetic of the built-ins *)

Lemma Qltb_lt (x y : Q) : Qltb x y = true <-> (x < y)%Q.
Proof.
  unfold Qltb. rewrite negb_true_iff.
  split; intros H.
  - apply Qnot_le_lt. intros Hle. apply Qle_bool_iff in Hle. congruence.
  - destruct (Qle_bool y x) eqn:E; [|reflexivity].
    apply Qle_bool_iff in E. exfalso. exact (Qlt_not_le _ _ H E).
Qed.

Lemma Qltb_ge (x y : Q) : Qltb x y = false <-> (y <= x)%Q.
Proof.
  unfold Qltb. rewrite negb_false_iff. apply Qle_bool_iff.
Qed.

Lemma py_max_lower (a b : Q) : (b <= py_max a b)%Q.
Proof.
  unfold py_max. destruct (Qltb a b) eqn:E.
  - apply Qle_refl.
  - now apply Qltb_ge.
Qed.

Lemma round_half_even_floor (x : Q) : Qfloor x <= round_half_even x.
Proof.
  unfold round_half_even.
  destruct (Qltb _ _); [lia|].
  destruct (Qltb _ _); [lia|].
  destruct (Z.even _); lia.
Qed.

Lemma round_half_even_lower (x : Q) (n : Z) :
  (inject_Z n <= x)%Q -> n <= round_half_even x.
Proof.
  intros H. apply Qfloor_resp_le in H. rewrite Qfloor_Z in H.
  pose proof (round_half_even_floor x). lia.
Qed.

(** Rounding to [ndigits] decimals never goes below an integer bound. *)
Lemma py_round_lower (x : Q) (ndigits : N) (n : Z) :
  (inject_Z n <= x)%Q -> (inject_Z n <= py_round x ndigits)%Q.
Proof.
  intros H. unfold py_round.
  set (m := pow10 ndigits).
  assert (Hm : (inject_Z (n * Z.pos m) <= x * inject_Z (Z.pos m))%Q).
  { rewrite inject_Z_mult. apply Qmult_le_compat_r; [exact H|].
    unfold Qle; simpl; lia. }
  apply round_half_even_lower in Hm.
  unfold Qle; simpl. lia.
Qed.

(** ** Weakest preconditions for sampling code *)

Lemma wp_ret {A : Type} (a : A) (P : A -> RandomState -> Prop) s :
  P a s -> wp (ret a) P s.
Proof. intros H. exists a, s. split; [reflexivity | exact H]. Qed.

Lemma wp_bind {A B : Type} (m : M A) (k : A -> M B)
    (P : B -> RandomState -> Prop) s :
  wp m (fun a s' => wp (k a) P s') s -> wp (bind m k) P s.
Proof.
  intros (a & s1 & Hm & b & s2 & Hk & HP).
  exists b, s2. split; [|exact HP].
  unfold bind. rewrite Hm. exact Hk.
Qed.

Lemma wp_weaken {A : Type} (m : M A) (P P' : A -> RandomState -> Prop) s :
  wp m P s -> (forall a s', P a s' -> P' a s') -> wp m P' s.
Proof.
  intros (a & s1 & Hm & HP) Himp. exists a, s1. auto.
Qed.

Lemma wp_result {A : Type} (m : M A) (P : A -> RandomState -> Prop) s a s' :
  wp m P s -> m s = Ok (a, s') -> P a s'.
Proof.
  intros (a1 & s1 & Hm & HP) E. rewrite E in Hm.
  injection Hm as -> ->. exact HP.
Qed.

Lemma fraction_at_range s : (0 <= fraction_at s)%Q /\ (fraction_at s < 1)%Q.
Proof.
  unfold fraction_at, Qle, Qlt; simpl.
  pose proof (Z.mod_pos_bound (word_at s) (2 ^ 53) ltac:(lia)) as H.
  change (Z.pos (2 ^ 53)) with (2 ^ 53). lia.
Qed.

Lemma wp_randint (low high : Z) (P : Z -> RandomState -> Prop) s :
  low < high ->
  P (low + word_at s mod (high - low)) (advance s) ->
  wp (randint low high) P s.
Proof.
  intros Hlt HP. unfold randint.
  destruct (high <=? low) eqn:E; [apply Z.leb_le in E; lia|].
  apply wp_bind. unfold rk_interval. apply wp_bind.
  exists (word_at s), (advance s). split; [reflexivity|].
  apply wp_ret, wp_ret.
  replace (high - low - 1 + 1) with (high - low) by lia. exact HP.
Qed.

Lemma wp_random_sample (P : Q -> RandomState -> Prop) s :
  P (fraction_at s) (advance s) -> wp random_sample P s.
Proof.
  intros HP. unfold random_sample. apply wp_bind.
  exists (word_at s), (advance s). split; [reflexivity|].
  apply wp_ret. exact HP.
Qed.

Lemma wp_normal (loc scale : Q) (P : Q -> RandomState -> Prop) s :
  (0 <= scale)%Q ->
  P (loc + scale * normal_at s)%Q (advance s) ->
  wp (normal loc scale) P s.
Proof.
  intros Hs HP. unfold normal.
  apply Qltb_ge in Hs. rewrite Hs.
  apply wp_bind. exists (normal_at s), (advance s).
  split; [reflexivity|]. apply wp_ret. exact HP.
Qed.

Lemma wp_uniform (low high : Q) (P : Q -> RandomState -> Prop) s :
  P (low + (high - low) * fraction_at s)%Q (advance s) ->
  wp (uniform low high) P s.
Proof.
  intros HP. unfold uniform. apply wp_bind, wp_random_sample, wp_ret.
  exact HP.
Qed.

Lemma getitem_mod {A : Type} (l : list A) (w : Z) :
  l <> [] ->
  exists x, getitem l (w mod len l) = Ok x /\
            nth_error l (Z.to_nat (w mod len l)) = Some x.
Proof.
  intros Hl.
  assert (Hlen : 0 < len l).
  { unfold len. destruct l; [congruence | simpl; lia]. }
  pose proof (Z.mod_pos_bound w (len l) Hlen) as Hb.
  unfold getitem.
  destruct (w mod len l <? 0) eqn:E; [apply Z.ltb_lt in E; lia|].
  destruct (nth_error l (Z.to_nat (w mod len l))) as [x|] eqn:En.
  - exists x. split; reflexivity.
  - apply nth_error_None in En. unfold len in *. lia.
Qed.

Lemma wp_lift_getitem {A : Type} (l : list A) (w : Z)
    (P : A -> RandomState -> Prop) s :
  l <> [] ->
  (forall x, nth_error l (Z.to_nat (w mod len l)) = Some x -> P x s) ->
  wp (lift (getitem l (w mod len l))) P s.
Proof.
  intros Hl HP. destruct (getitem_mod l w Hl) as (x & Hg & Hn).
  exists x, s. split; [unfold lift; now rewrite Hg | auto].
Qed.

(** [choice(a)] returns the entry of [a] selected by the word at the
    cursor. *)
Lemma wp_choice {A : Type} (a : list A) (P : A -> RandomState -> Prop) s :
  a <> [] ->
  (forall x, nth_error a (Z.to_nat (word_at s mod len a)) = Some x ->
             P x (advance s)) ->
  wp (choice a) P s.
Proof.
  intros Ha HP. unfold choice. destruct a as [|a0 a']; [congruence|].
  apply wp_bind, wp_randint.
  - unfold len; simpl; lia.
  - rewrite Z.sub_0_r, Z.add_0_l.
    apply wp_lift_getitem; [congruence | exact HP].
Qed.

(** [df.sample(1).iloc[0]] returns a row of [df]. *)
Lemma wp_sample1 {A : Type} (df : list A) (P : A -> RandomState -> Prop) s :
  df <> [] ->
  (forall x, nth_error df (Z.to_nat (word_at s mod len df)) = Some x ->
             P x (advance s)) ->
  wp (sample1 df) P s.
Proof.
  intros Ha HP. unfold sample1. destruct df as [|a0 a']; [congruence|].
  apply wp_bind. unfold rk_interval. apply wp_bind.
  exists (word_at s), (advance s). split; [reflexivity|].
  apply wp_ret.
  replace (len (a0 :: a') - 1 + 1) with (len (a0 :: a')) by lia.
  apply wp_lift_getitem; [congruence | exact HP].
Qed.

Lemma Qle_bool_one_fraction (c : Q) s :
  (1 <= c)%Q -> Qle_bool c (fraction_at s) = false.
Proof.
  intros Hc. destruct (Qle_bool c (fraction_at s)) eqn:E; [|reflexivity].
  apply Qle_bool_iff in E. destruct (fraction_at_range s) as [_ Hlt].
  exfalso. apply (Qlt_not_le _ _ Hlt). eapply Qle_trans; eassumption.
Qed.

Ltac closed_Qle := unfold Qle; simpl; lia.

Lemma Qle_bool_Qeq (c c' u : Q) : (c == c')%Q -> Qle_bool c u = Qle_bool c' u.
Proof. intros H. rewrite H. reflexivity. Qed.

Lemma bernoulli_value_bit (p u : Q) :
  bernoulli_value p u = 0 \/ bernoulli_value p u = 1.
Proof. unfold bernoulli_value. destruct (Qle_bool _ _); auto. Qed.

Lemma wp_choice_business_likely (P : Z -> RandomState -> Prop) s :
  P (bernoulli_value 0.6 (fraction_at s)) (advance s) ->
  wp (choice_p [0; 1] [0.4; 0.6]%Q) P s.
Proof.
  intros HP. unfold choice_p.
  cbn -[random_sample Qle_bool bind lift getitem].
  apply wp_bind, wp_random_sample.
  unfold bernoulli_value in HP.
  rewrite (Qle_bool_one_fraction ((0 + 0.4 + 0.6) / (0 + 0.4 + 0.6)))
    by closed_Qle.
  rewrite (Qle_bool_Qeq ((0 + 0.4) / (0 + 0.4 + 0.6)) (1 - 0.6))
    by reflexivity.
  destruct (Qle_bool (1 - 0.6) (fraction_at s)); apply wp_ret; exact HP.
Qed.

Lemma wp_choice_business_unlikely (P : Z -> RandomState -> Prop) s :
  P (bernoulli_value 0.2 (fraction_at s)) (advance s) ->
  wp (choice_p [0; 1] [0.8; 0.2]%Q) P s.
Proof.
  intros HP. unfold choice_p.
  cbn -[random_sample Qle_bool bind lift getitem].
  apply wp_bind, wp_random_sample.
  unfold bernoulli_value in HP.
  rewrite (Qle_bool_one_fraction ((0 + 0.8 + 0.2) / (0 + 0.8 + 0.2)))
    by closed_Qle.
  rewrite (Qle_bool_Qeq ((0 + 0.8) / (0 + 0.8 + 0.2)) (1 - 0.2))
    by reflexivity.
  destruct (Qle_bool (1 - 0.2) (fraction_at s)); apply wp_ret; exact HP.
Qed.

Lemma wp_choice_passengers (P : Z -> RandomState -> Prop) s :
  (forall n, In n [1; 2; 3] -> P n (advance s)) ->
  wp (choice_p [1; 2; 3] [0.7; 0.2; 0.1]%Q) P s.
Proof.
  intros HP. unfold choice_p.
  cbn -[random_sample Qle_bool bind lift getitem].
  apply wp_bind, wp_random_sample.
  rewrite (Qle_bool_one_fraction
             ((0 + 0.7 + 0.2 + 0.1) / (0 + 0.7 + 0.2 + 0.1))) by closed_Qle.
  destruct (Qle_bool ((0 + 0.7) / _) (fraction_at s));
    [destruct (Qle_bool ((0 + 0.7 + 0.2) / _) (fraction_at s))|];
    apply wp_ret, HP; simpl; auto.
Qed.

(** ** What one iteration of each loop produces *)

Lemma same_tape_refl s : same_tape s s.
Proof. split; reflexivity. Qed.

Lemma same_tape_trans s1 s2 s3 :
  same_tape s1 s2 -> same_tape s2 s3 -> same_tape s1 s3.
Proof. intros [A B] [C D]. split; congruence. Qed.

Lemma In_nth_error {A : Type} (l : list A) n x :
  nth_error l n = Some x -> In x l.
Proof. apply nth_error_In. Qed.

Lemma new_flight_spec (i : Z) (s : RandomState) :
  wp (new_flight i) (flight_post i s) s.
Proof.
  unfold new_flight.
  apply wp_bind, wp_choice; [discriminate | intros r Hr].
  apply wp_bind, wp_choice; [discriminate | intros a Ha].
  apply wp_bind, wp_choice; [discriminate | intros c Hc].
  apply wp_bind, wp_randint; [lia|].
  rewrite Z.sub_0_r, Z.add_0_l.
  assert (Hpost : forall mu sigma,
             mu = flight_mean r -> sigma = flight_stdev r ->
             (0 <= sigma)%Q ->
             wp (normal mu sigma)
                (fun bp s1 =>
                   flight_post i s
                     {| flight_id := "FL" ++ format_0d 5 (i + 1);
                        route := r;
                        date := datetime 2023 1 1
                                + timedelta
                                    (word_at (advance (advance (advance s)))
                                     mod 365);
                        aircraft_type := a;
                        capacity := c;
                        base_price := py_round (py_max bp 100) 2 |} s1)
                (advance (advance (advance (advance s))))).
  { intros mu sigma -> -> Hs. apply wp_normal; [exact Hs|].
    unfold flight_post.
    cbn [flight_id route date aircraft_type capacity base_price].
    repeat split; solve [assumption | reflexivity]. }
  apply wp_bind.
  unfold flight_mean, flight_stdev in Hpost.
  destruct (r =? "NYC-LAX")%string.
  - eapply wp_weaken; [apply Hpost; try reflexivity; closed_Qle|].
    intros bp s1 H. apply wp_ret. exact H.
  - destruct (r =? "NYC-CHI")%string.
    + eapply wp_weaken; [apply Hpost; try reflexivity; closed_Qle|].
      intros bp s1 H. apply wp_ret. exact H.
    + eapply wp_weaken; [apply Hpost; try reflexivity; closed_Qle|].
      intros bp s1 H. apply wp_ret. exact H.
Qed.

Lemma new_customer_spec (i : Z) (s : RandomState) :
  wp (new_customer i) (customer_post i s) s.
Proof.
  unfold new_customer.
  apply wp_bind, wp_randint; [lia|].
  change (70 - 18) with 52.
  apply wp_bind, wp_normal; [closed_Qle|].
  fold (floored_income s).
  set (a := 18 + word_at s mod 52).
  assert (Hk : forall b,
             b = bernoulli_value (business_probability (floored_income s) a)
                                 (fraction_at (advance (advance s))) ->
             wp (h <- choice home_cities ;;
                 ret {| customer_id := "CU" ++ format_0d 5 (i + 1);
                        age := a;
                        income := py_round (floored_income s) 0;
                        is_business := b;
                        home_city := h |})
                (customer_post i s) (advance (advance (advance s)))).
  { intros b ->. apply wp_bind, wp_choice; [discriminate | intros h Hh].
    apply wp_ret. unfold customer_post.
    cbn [customer_id age income is_business home_city].
    repeat split; solve [assumption | reflexivity]. }
  apply wp_bind. unfold business_probability in Hk.
  destruct (Qltb 80000 (floored_income s) && (30 <? a)).
  - apply wp_choice_business_likely, Hk. reflexivity.
  - apply wp_choice_business_unlikely, Hk. reflexivity.
Qed.

Lemma advance_band_bands (d : Z) (base : Q) :
  band_price d base (advance_band d base).
Proof.
  unfold band_price, advance_band.
  destruct (d <? 7) eqn:E1; [apply Z.ltb_lt in E1 | apply Z.ltb_ge in E1];
    (destruct (60 <? d) eqn:E2;
     [apply Z.ltb_lt in E2 | apply Z.ltb_ge in E2]);
    repeat split; intros; solve [reflexivity | lia].
Qed.

Lemma new_booking_spec (fl : list Flight) (cu : list Customer) (i : Z)
    (s : RandomState) :
  fl <> [] -> cu <> [] ->
  wp (new_booking fl cu i) (booking_post fl cu i s) s.
Proof.
  intros Hfl Hcu. unfold new_booking.
  apply wp_bind, wp_sample1; [exact Hfl | intros f Hf].
  apply wp_bind, wp_sample1; [exact Hcu | intros c Hc].
  apply wp_bind, wp_randint; [lia|].
  change (90 - 1) with 89.
  set (d := 1 + word_at (advance (advance s)) mod 89).
  set (s3 := advance (advance (advance s))).
  assert (Hk : forall price s4 z,
             same_tape s4 s -> z = normal_at s4 ->
             price = (if is_business c =? 1
                      then advance_band d (base_price f)
                           * (1.0 + (1.4 - 1.0) * fraction_at s3)
                      else advance_band d (base_price f))%Q ->
             wp (noise <- normal 1.0 0.1 ;;
                 passengers <- choice_p [1; 2; 3] [0.7; 0.2; 0.1]%Q ;;
                 ret {| booking_id := "BK" ++ format_0d 6 (i + 1);
                        booking_flight_id := flight_id f;
                        booking_customer_id := customer_id c;
                        booking_date := date f - timedelta d;
                        price_paid :=
                          py_round (py_max (price * noise)%Q 100) 2;
                        advance_days := d;
                        passengers := passengers |})
                (booking_post fl cu i s) s4).
  { intros price s4 z Ht -> ->.
    apply wp_bind, wp_normal; [closed_Qle|].
    apply wp_bind, wp_choice_passengers. intros n Hn.
    apply wp_ret. split; [exact Ht|].
    exists f, c, (fraction_at s3), (normal_at s4).
    cbn [booking_id booking_flight_id booking_customer_id booking_date
         price_paid advance_days passengers].
    repeat split; try solve [assumption | reflexivity].
    exists (cursor s4). unfold normal_at. destruct Ht as [_ ->].
    reflexivity. }
  apply wp_bind.
  destruct (is_business c =? 1) eqn:Eb.
  - apply wp_bind, wp_uniform, wp_ret.
    eapply Hk; [split; reflexivity | reflexivity | reflexivity].
  - apply wp_ret.
    eapply Hk; [split; reflexivity | reflexivity | reflexivity].
Qed.

(** ** The loops *)

Section DrawLoop.

Context {A : Type}.
Variable gen : Z -> M A.
Variable upd : RandomState -> list A -> World.
Variable body : Z -> World -> result World.
Variable tape : RandomState.

(** One iteration draws a record and appends it. *)
Hypothesis body_draws :
  forall i r l,
    body i (upd r l) =
    match gen i r with
    | Ok (a, r') => Ok (upd r' (l ++ [a]))
    | Raise e => Raise e
    end.

(** The generator returns on every state of the tape. *)
Hypothesis gen_returns :
  forall i r, same_tape r tape ->
              exists a r', gen i r = Ok (a, r') /\ same_tape r' tape.

Lemma draw_loop (idx : list Z) :
  forall r0 l0,
    same_tape r0 tape ->
    exists r l,
      for_each idx body (upd r0 l0) = Ok (upd r (l0 ++ l)) /\
      same_tape r tape /\ generated tape gen idx l.
Proof.
  induction idx as [|i idx IH]; intros r0 l0 Ht.
  - exists r0, []. rewrite List.app_nil_r.
    split; [reflexivity | split; [exact Ht | constructor]].
  - destruct (gen_returns i r0 Ht) as (a & r1 & Hg & Ht1).
    destruct (IH r1 (l0 ++ [a]) Ht1) as (r & l & Hf & Htr & Hgen).
    exists r, (a :: l). split; [|split; [exact Htr|]].
    + cbn [for_each]. rewrite body_draws, Hg, Hf.
      rewrite <- List.app_assoc. reflexivity.
    + constructor; [|exact Hgen]. exists r0, r1. split; assumption.
Qed.

End DrawLoop.

Lemma new_flight_returns tape i r :
  same_tape r tape ->
  exists a r', new_flight i r = Ok (a, r') /\ same_tape r' tape.
Proof.
  intros Ht. destruct (new_flight_spec i r) as (a & r' & Hg & Hp & _).
  exists a, r'. split; [exact Hg|]. subst r'. exact Ht.
Qed.

Lemma new_customer_returns tape i r :
  same_tape r tape ->
  exists a r', new_customer i r = Ok (a, r') /\ same_tape r' tape.
Proof.
  intros Ht. destruct (new_customer_spec i r) as (a & r' & Hg & Hp & _).
  exists a, r'. split; [exact Hg|]. subst r'. exact Ht.
Qed.

Lemma new_booking_returns fl cu tape i r :
  fl <> [] -> cu <> [] ->
  same_tape r tape ->
  exists a r', new_booking fl cu i r = Ok (a, r') /\ same_tape r' tape.
Proof.
  intros Hf Hc Ht.
  destruct (new_booking_spec fl cu i r Hf Hc) as (a & r' & Hg & Hp & _).
  exists a, r'. split; [exact Hg|]. eapply same_tape_trans; eassumption.
Qed.

Lemma generated_length {A : Type} tape (gen : Z -> M A) idx l :
  generated tape gen idx l -> List.length l = List.length idx.
Proof. intros H. symmetry. exact (Forall2_length H). Qed.

Lemma range_length (n : Z) : List.length (range n) = Z.to_nat n.
Proof. unfold range. now rewrite length_map, length_seq. Qed.

(** Every record of a generated list satisfies what the generator
    guarantees for each of its results. *)
Lemma generated_Forall {A : Type} tape (gen : Z -> M A) idx l
    (P : A -> Prop) :
  (forall i s a s', same_tape s tape -> gen i s = Ok (a, s') -> P a) ->
  generated tape gen idx l -> Forall P l.
Proof.
  intros HP H. induction H as [|i a idx l (s & s' & Ht & Hg) _ IH].
  - constructor.
  - constructor; [eapply HP; eassumption | exact IH].
Qed.

(** ** Files *)

Lemma read_write_same (p : string) (c : csv) (w : World) :
  read_file p (write_file p c w) = Some c.
Proof.
  unfold read_file, write_file. cbn [files set_files find fst].
  rewrite String.eqb_refl. reflexivity.
Qed.

Lemma find_filter_other (p q : string) (fs : list (string * csv)) :
  p <> q ->
  find (fun f => (fst f =? p)%string)
       (filter (fun f => negb (fst f =? q)%string) fs)
  = find (fun f => (fst f =? p)%string) fs.
Proof.
  intros Hpq. induction fs as [|[n c] fs IH]; [reflexivity|].
  cbn [filter find fst].
  destruct (String.eqb_spec n q) as [->|Hnq]; cbn [negb].
  - destruct (String.eqb_spec q p) as [->|_]; [congruence | exact IH].
  - cbn [find fst]. destruct (n =? p)%string; [reflexivity | exact IH].
Qed.

Lemma read_write_other (p q : string) (c : csv) (w : World) :
  p <> q -> read_file p (write_file q c w) = read_file p w.
Proof.
  intros Hpq. unfold read_file, write_file. cbn [files set_files find fst].
  destruct (String.eqb_spec q p) as [->|_]; [congruence|].
  now rewrite find_filter_other.
Qed.

Lemma read_print (p : string) (line : list out) (w : World) :
  read_file p (print line w) = read_file p w.
Proof. reflexivity. Qed.

(** ** The passes *)

Lemma extends_output_refl w : extends_output w w.
Proof. exists []. now rewrite List.app_nil_r. Qed.

Lemma extends_output_print (line : list out) (w0 w : World) :
  extends_output w0 w -> extends_output w0 (print line w).
Proof.
  intros [l H]. exists (l ++ [line]). unfold print. cbn [stdout set_stdout].
  now rewrite H, List.app_assoc.
Qed.

Lemma to_csv_ok (path d : string) (c : csv) (w : World) :
  parent path = Some d -> In d (directories w) ->
  to_csv path c w = Ok (write_file path c w).
Proof.
  intros Hp Hd. unfold to_csv. rewrite Hp.
  destruct (existsb (String.eqb d) (directories w)) eqn:E; [reflexivity|].
  assert (X : existsb (String.eqb d) (directories w) = true).
  { apply existsb_exists. exists d. split; [exact Hd|].
    apply String.eqb_refl. }
  congruence.
Qed.

Lemma to_csv_inv (path : string) (c : csv) (w w' : World) :
  to_csv path c w = Ok w' -> w' = write_file path c w.
Proof.
  unfold to_csv. destruct (parent path) as [d|].
  - destruct (existsb _ _); [|discriminate]. now intros [= <-].
  - now intros [= <-].
Qed.

(** Open the write that ends a pass, in the goal or in a hypothesis. *)
Ltac open_to_csv :=
  match goal with
  | |- context [to_csv ?p ?c ?x] =>
    let T := fresh "T" in
    destruct (to_csv p c x) eqn:T; [|discriminate];
    apply to_csv_inv in T; subst
  end.

Ltac open_to_csv_in H :=
  match type of H with
  | context [to_csv ?p ?c ?x] =>
    let T := fresh "T" in
    destruct (to_csv p c x) eqn:T; [|discriminate];
    apply to_csv_inv in T; subst
  end.


(** The directory of the three files. *)
Lemma parent_flights : parent "../data/flights.csv" = Some "../data"%string.
Proof. reflexivity. Qed.

Lemma parent_customers :
  parent "../data/customers.csv" = Some "../data"%string.
Proof. reflexivity. Qed.

Lemma parent_bookings : parent "../data/bookings.csv" = Some "../data"%string.
Proof. reflexivity. Qed.

Lemma create_flights_spec (w0 : World) :
  In "../data"%string (directories w0) ->
  exists w, create_flights w0 = Ok w /\ flights_pass w0 w.
Proof.
  intros Hdir. unfold create_flights.
  set (wa := set_flight_data [] (print _ w0)).
  destruct (draw_loop new_flight
              (fun r l => set_flight_data l (set_rng r wa))
              flight_iteration (rng w0)) with
    (idx := range n_flights) (r0 := rng wa) (l0 := @nil Flight)
    as (r & l & Hloop & Ht & Hgen).
  - intros i r l. unfold flight_iteration, draw.
    cbn [rng set_flight_data set_rng].
    destruct (new_flight i r) as [[a r']|e]; reflexivity.
  - intros i r. apply new_flight_returns.
  - apply same_tape_refl.
  - change (set_flight_data [] (set_rng (rng wa) wa)) with wa in Hloop.
    rewrite Hloop. cbn [and_then app].
    rewrite (to_csv_ok _ _ _ _ parent_flights) by exact Hdir.
    cbn [and_then].
    eexists. split; [reflexivity|].
    unfold flights_pass.
    split; [exact Ht|]. split; [exact Hgen|].
    split; [reflexivity|]. split; [reflexivity|]. split; [reflexivity|].
    split; [apply read_write_same|].
    split; [intros p Hp;
            now rewrite read_print, read_write_other by exact Hp|].
    eexists. cbn. rewrite <- List.app_assoc. reflexivity.
Qed.

Lemma create_customers_spec (w0 : World) :
  In "../data"%string (directories w0) ->
  exists w, create_customers w0 = Ok w /\ customers_pass w0 w.
Proof.
  intros Hdir. unfold create_customers.
  set (wa := set_customer_data [] (print _ w0)).
  destruct (draw_loop new_customer
              (fun r l => set_customer_data l (set_rng r wa))
              customer_iteration (rng w0)) with
    (idx := range n_customers) (r0 := rng wa) (l0 := @nil Customer)
    as (r & l & Hloop & Ht & Hgen).
  - intros i r l. unfold customer_iteration, draw.
    cbn [rng set_customer_data set_rng].
    destruct (new_customer i r) as [[a r']|e]; reflexivity.
  - intros i r. apply new_customer_returns.
  - apply same_tape_refl.
  - change (set_customer_data [] (set_rng (rng wa) wa)) with wa in Hloop.
    rewrite Hloop. cbn [and_then app].
    rewrite (to_csv_ok _ _ _ _ parent_customers) by exact Hdir.
    cbn [and_then].
    eexists. split; [reflexivity|].
    unfold customers_pass.
    split; [exact Ht|]. split; [exact Hgen|].
    split; [reflexivity|]. split; [reflexivity|]. split; [reflexivity|].
    split; [apply read_write_same|].
    split; [intros p Hp;
            now rewrite read_print, read_write_other by exact Hp|].
    eexists. cbn. rewrite <- List.app_assoc. reflexivity.
Qed.

Lemma create_bookings_spec (w0 : World) :
  In "../data"%string (directories w0) ->
  flights_df w0 <> [] -> customers_df w0 <> [] ->
  exists w, create_bookings w0 = Ok w /\ bookings_pass w0 w.
Proof.
  intros Hdir Hfl Hcu. unfold create_bookings.
  set (wa := set_booking_data [] (print _ w0)).
  destruct (draw_loop (new_booking (flights_df w0) (customers_df w0))
              (fun r l => set_booking_data l (set_rng r wa))
              booking_iteration (rng w0)) with
    (idx := range n_bookings) (r0 := rng wa) (l0 := @nil Booking)
    as (r & l & Hloop & Ht & Hgen).
  - intros i r l. unfold booking_iteration, draw.
    cbn [rng set_booking_data set_rng flights_df customers_df].
    destruct (new_booking _ _ i r) as [[a r']|e]; reflexivity.
  - intros i r. apply new_booking_returns; assumption.
  - apply same_tape_refl.
  - change (set_booking_data [] (set_rng (rng wa) wa)) with wa in Hloop.
    rewrite Hloop. cbn [and_then app].
    rewrite (to_csv_ok _ _ _ _ parent_bookings) by exact Hdir.
    cbn [and_then].
    eexists. split; [reflexivity|].
    unfold bookings_pass.
    split; [exact Ht|]. split; [exact Hgen|].
    split; [reflexivity|]. split; [reflexivity|]. split; [reflexivity|].
    split; [apply read_write_same|].
    split; [intros p Hp;
            now rewrite read_print, read_write_other by exact Hp|].
    eexists. cbn. rewrite <- List.app_assoc. reflexivity.
Qed.

Lemma show_summary_spec (w0 : World) :
  flights_df w0 <> [] -> bookings_df w0 <> [] ->
  exists w, show_summary w0 = Ok w /\ summary_pass w0 w.
Proof.
  intros Hfl Hbk. unfold show_summary.
  cbn [bookings_df flights_df print set_stdout].
  destruct (bookings_df w0) as [|b bs] eqn:Eb; [congruence|].
  destruct (flights_df w0) as [|f fs] eqn:Ef; [congruence|].
  cbn [map]. eexists. split; [reflexivity|].
  unfold summary_pass. cbn [rng flights_df customers_df bookings_df files
                            print set_stdout stdout].
  repeat (split; [first [reflexivity | symmetry; assumption]|]).
  repeat apply extends_output_print. apply extends_output_refl.
Qed.

Lemma generated_same_tape {A : Type} t t' (gen : Z -> M A) idx l :
  same_tape t t' -> generated t gen idx l -> generated t' gen idx l.
Proof.
  intros Ht H. induction H as [|i a idx l (s & s' & Hs & Hg) _ IH].
  - constructor.
  - constructor; [|exact IH]. exists s, s'. split; [|exact Hg].
    eapply same_tape_trans; eassumption.
Qed.

Lemma generated_nonempty {A : Type} tape (gen : Z -> M A) n l :
  0 < n -> generated tape gen (range n) l -> l <> [].
Proof.
  intros Hn H. apply generated_length in H. rewrite range_length in H.
  destruct l; [simpl in H; lia | discriminate].
Qed.

Lemma n_flights_pos : 0 < n_flights.
Proof. reflexivity. Qed.

Lemma n_customers_pos : 0 < n_customers.
Proof. reflexivity. Qed.

Lemma n_bookings_pos : 0 < n_bookings.
Proof. reflexivity. Qed.

Lemma for_each_preserves {A B : Type} (field : World -> B) (idx : list A)
    (body : A -> World -> result World) :
  (forall i w w', body i w = Ok w' -> field w' = field w) ->
  forall w w', for_each idx body w = Ok w' -> field w' = field w.
Proof.
  intros Hb. induction idx as [|i idx IH]; intros w w' H.
  - injection H as <-. reflexivity.
  - cbn [for_each] in H. destruct (body i w) as [w1|e] eqn:E; [|discriminate].
    rewrite (IH _ _ H). exact (Hb _ _ _ E).
Qed.

Lemma draw_inv {A : Type} (m : M A) (k : A -> World -> World) w w' :
  draw m k w = Ok w' ->
  exists a r, m (rng w) = Ok (a, r) /\ w' = k a (set_rng r w).
Proof.
  unfold draw. destruct (m (rng w)) as [[a r]|e]; [|discriminate].
  intros H. injection H as <-. eauto.
Qed.

Lemma draw_directories {A : Type} (m : M A) (k : A -> World -> World) w w' :
  (forall a x, directories (k a x) = directories x) ->
  draw m k w = Ok w' -> directories w' = directories w.
Proof.
  intros Hk H. apply draw_inv in H. destruct H as (a & r & _ & ->).
  now rewrite Hk.
Qed.

Lemma create_flights_directories w w' :
  create_flights w = Ok w' -> directories w' = directories w.
Proof.
  unfold create_flights, and_then.
  generalize (range n_flights) as idx. intros idx.
  match goal with
  | |- context [for_each idx ?body ?x] =>
    destruct (for_each idx body x) as [w1|e] eqn:L; [|discriminate]
  end.
  open_to_csv. intros H. injection H as <-.
  apply (for_each_preserves directories) in L; [exact L|].
  intros i x x'. apply draw_directories. reflexivity.
Qed.

Lemma create_customers_directories w w' :
  create_customers w = Ok w' -> directories w' = directories w.
Proof.
  unfold create_customers, and_then.
  generalize (range n_customers) as idx. intros idx.
  match goal with
  | |- context [for_each idx ?body ?x] =>
    destruct (for_each idx body x) as [w1|e] eqn:L; [|discriminate]
  end.
  open_to_csv. intros H. injection H as <-.
  apply (for_each_preserves directories) in L; [exact L|].
  intros i x x'. apply draw_directories. reflexivity.
Qed.

Lemma create_bookings_directories w w' :
  create_bookings w = Ok w' -> directories w' = directories w.
Proof.
  unfold create_bookings, and_then.
  generalize (range n_bookings) as idx. intros idx.
  match goal with
  | |- context [for_each idx ?body ?x] =>
    destruct (for_each idx body x) as [w1|e] eqn:L; [|discriminate]
  end.
  open_to_csv. intros H. injection H as <-.
  apply (for_each_preserves directories) in L; [exact L|].
  intros i x x'. unfold booking_iteration.
  apply draw_directories. reflexivity.
Qed.

Lemma show_summary_directories w w' :
  show_summary w = Ok w' -> directories w' = directories w.
Proof.
  unfold show_summary. cbn [bookings_df flights_df print set_stdout].
  destruct (bookings_df w) as [|b bs] eqn:Eb; [discriminate|].
  destruct (map date (flights_df w)) as [|d ds] eqn:Ed; [discriminate|].
  intros H. injection H as <-. reflexivity.
Qed.

Lemma makedirs_directories (path : string) (w : World) :
  In path (directories (makedirs path w)) /\
  incl (directories w) (directories (makedirs path w)) /\
  incl (directories (makedirs path w)) (path :: directories w).
Proof.
  unfold makedirs.
  destruct (existsb (String.eqb path) (directories w)) eqn:E.
  - apply existsb_exists in E. destruct E as (d & Hd & Heq).
    apply String.eqb_eq in Heq. subst d.
    split; [exact Hd|]. split; [apply incl_refl | apply incl_tl, incl_refl].
  - cbn [directories set_directories].
    split; [now left|]. split; [apply incl_tl, incl_refl | apply incl_refl].
Qed.

Section Run.

Variable init_by_seed : Z -> RandomState.

Lemma started_rng w0 : rng (started init_by_seed w0) = init_by_seed 42.
Proof.
  unfold started, makedirs. destruct (existsb _ _); reflexivity.
Qed.

(** The script runs to completion from every state of the process, and
    each pass does what its specification says. *)
Lemma main_passes (w0 : World) :
  exists w1 w2 w3 w,
    create_flights (started init_by_seed w0) = Ok w1 /\
    create_customers w1 = Ok w2 /\
    create_bookings w2 = Ok w3 /\
    show_summary w3 = Ok w /\
    main init_by_seed w0 = Ok w /\
    flights_pass (started init_by_seed w0) w1 /\
    customers_pass w1 w2 /\
    bookings_pass w2 w3 /\
    summary_pass w3 w.
Proof.
  assert (D0 : In "../data"%string (directories (started init_by_seed w0))).
  { unfold started.
    exact (proj1 (makedirs_directories "../data" _)). }
  destruct (create_flights_spec (started init_by_seed w0) D0)
    as (w1 & E1 & P1).
  assert (D1 : In "../data"%string (directories w1))
    by (rewrite (create_flights_directories _ _ E1); exact D0).
  destruct (create_customers_spec w1 D1) as (w2 & E2 & P2).
  assert (D2 : In "../data"%string (directories w2))
    by (rewrite (create_customers_directories _ _ E2); exact D1).
  assert (Hfl1 : flights_df w1 <> []).
  { destruct P1 as (_ & G & _).
    exact (generated_nonempty _ _ _ _ n_flights_pos G). }
  assert (Hfl2 : flights_df w2 <> []).
  { destruct P2 as (_ & _ & _ & -> & _). exact Hfl1. }
  assert (Hcu2 : customers_df w2 <> []).
  { destruct P2 as (_ & G & _).
    exact (generated_nonempty _ _ _ _ n_customers_pos G). }
  destruct (create_bookings_spec w2 D2 Hfl2 Hcu2) as (w3 & E3 & P3).
  assert (Hfl3 : flights_df w3 <> []).
  { destruct P3 as (_ & _ & _ & -> & _). exact Hfl2. }
  assert (Hbk3 : bookings_df w3 <> []).
  { destruct P3 as (_ & G & _).
    exact (generated_nonempty _ _ _ _ n_bookings_pos G). }
  destruct (show_summary_spec w3 Hfl3 Hbk3) as (w & E4 & P4).
  exists w1, w2, w3, w. repeat (split; [assumption|]).
  split; [|split; [exact P1|split; [exact P2|split; [exact P3|exact P4]]]].
  unfold main. fold (started init_by_seed w0).
  rewrite E1. cbn [and_then]. rewrite E2. cbn [and_then].
  rewrite E3. exact E4.
Qed.

(** The three tables of a completed run, each generated from the tape the
    seed selects. *)
Lemma main_tables (w0 : World) :
  exists w,
    main init_by_seed w0 = Ok w /\
    generated (init_by_seed 42) new_flight (range n_flights)
              (flights_df w) /\
    generated (init_by_seed 42) new_customer (range n_customers)
              (customers_df w) /\
    generated (init_by_seed 42)
              (new_booking (flights_df w) (customers_df w))
              (range n_bookings) (bookings_df w).
Proof.
  destruct (main_passes w0)
    as (w1 & w2 & w3 & w & _ & _ & _ & _ & E & P1 & P2 & P3 & P4).
  destruct P1 as (T1 & G1 & _).
  destruct P2 as (T2 & G2 & _ & F2 & _).
  destruct P3 as (T3 & G3 & _ & F3 & C3 & _).
  destruct P4 as (_ & F4 & C4 & B4 & _).
  rewrite started_rng in T1, G1.
  assert (T2' : same_tape (rng w1) (init_by_seed 42)) by exact T1.
  assert (T3' : same_tape (rng w2) (init_by_seed 42))
    by (eapply same_tape_trans; eassumption).
  exists w. split; [exact E|].
  rewrite F4, C4, B4, F3, C3.
  split; [rewrite F2; exact G1|].
  split; [exact (generated_same_tape _ _ _ _ _ T2' G2)|].
  exact (generated_same_tape _ _ _ _ _ T3' G3).
Qed.

End Run.

(** ** Identifiers *)

Lemma parse_decimal_zeros (k : nat) (s : string) :
  parse_decimal (zeros k ++ s) = parse_decimal s.
Proof.
  unfold parse_decimal. induction k as [|k IH]; [reflexivity|].
  cbn [zeros String.append NilEmpty.uint_of_string].
  destruct (NilEmpty.uint_of_string (zeros k ++ s)) as [d|] eqn:E;
    destruct (NilEmpty.uint_of_string s) as [d'|] eqn:E';
    cbn [option_map uint_of_char] in *; try discriminate; try reflexivity.
  rewrite <- IH. reflexivity.
Qed.

Lemma parse_decimal_digits (n : Z) :
  parse_decimal (digits n) = Some (Z.to_N n).
Proof.
  unfold parse_decimal, digits.
  rewrite <- (DecimalN.Unsigned.of_to (Z.to_N n)) at 2.
  destruct (N.to_uint (Z.to_N n)) eqn:E;
    try (cbn [NilZero.string_of_uint]; rewrite NilEmpty.usu; reflexivity).
  reflexivity.
Qed.

Lemma parse_format_0d (width : nat) (n : Z) :
  0 <= n -> parse_decimal (format_0d width n) = Some (Z.to_N n).
Proof.
  intros Hn. unfold format_0d, zfill.
  destruct (n <? 0) eqn:E; [apply Z.ltb_lt in E; lia|].
  rewrite parse_decimal_zeros. apply parse_decimal_digits.
Qed.

Lemma format_0d_inj (width : nat) (a b : Z) :
  0 <= a -> 0 <= b -> format_0d width a = format_0d width b -> a = b.
Proof.
  intros Ha Hb E.
  pose proof (parse_format_0d width a Ha) as Pa.
  pose proof (parse_format_0d width b Hb) as Pb.
  rewrite E in Pa. rewrite Pa in Pb. injection Pb as Pb. lia.
Qed.

Lemma NoDup_map_on {A B : Type} (f : A -> B) (l : list A) :
  (forall a b, In a l -> In b l -> f a = f b -> a = b) ->
  NoDup l -> NoDup (map f l).
Proof.
  intros Hinj H. induction H as [|a l Hna _ IH]; [constructor|].
  cbn [map]. constructor.
  - rewrite in_map_iff. intros (b & Hb & Hin).
    apply Hna. rewrite (Hinj a b); [exact Hin | now left | now right | auto].
  - apply IH. intros x y Hx Hy. apply Hinj; now right.
Qed.

Lemma ordinals_positive (n k : Z) : In k (ordinals n) -> 1 <= k <= n.
Proof.
  unfold ordinals, range. rewrite map_map, in_map_iff.
  intros (j & <- & Hj). apply in_seq in Hj. lia.
Qed.

Lemma ordinals_NoDup (n : Z) : NoDup (ordinals n).
Proof.
  unfold ordinals, range. rewrite map_map.
  apply NoDup_map_on; [|apply seq_NoDup].
  intros a b _ _ H. lia.
Qed.

(** Identifiers built from a prefix and the positive ordinals are pairwise
    distinct. *)
Lemma identifiers_NoDup (prefix : string) (width : nat) (n : Z) :
  NoDup (map (fun k => (prefix ++ format_0d width k)%string) (ordinals n)).
Proof.
  apply NoDup_map_on; [|apply ordinals_NoDup].
  intros a b Ha Hb E.
  apply ordinals_positive in Ha, Hb.
  apply (format_0d_inj width); [lia | lia |].
  induction prefix as [|c p IH]; [exact E|].
  apply IH. now injection E.
Qed.

Lemma new_flight_result i s f s' :
  new_flight i s = Ok (f, s') -> flight_post i s f s'.
Proof. apply wp_result, new_flight_spec. Qed.

Lemma new_customer_result i s c s' :
  new_customer i s = Ok (c, s') -> customer_post i s c s'.
Proof. apply wp_result, new_customer_spec. Qed.

Lemma new_booking_result fl cu i s b s' :
  new_booking fl cu i s = Ok (b, s') -> booking_post fl cu i s b s'.
Proof.
  intros H.
  destruct fl as [|f0 fl]; [discriminate|].
  destruct cu as [|c0 cu].
  - unfold new_booking, bind in H.
    destruct (sample1 (f0 :: fl) s) as [[f s1]|e]; discriminate.
  - revert H. apply wp_result, new_booking_spec; discriminate.
Qed.

Lemma generated_map {A B : Type} tape (gen : Z -> M A) idx l
    (field : A -> B) (value : Z -> B) :
  (forall i s a s', gen i s = Ok (a, s') -> field a = value i) ->
  generated tape gen idx l -> map field l = map value idx.
Proof.
  intros Hf H. induction H as [|i a idx l (s & s' & _ & Hg) _ IH].
  - reflexivity.
  - cbn [map]. f_equal; [eapply Hf; eassumption | exact IH].
Qed.

Lemma len_generated {A : Type} tape (gen : Z -> M A) n l :
  0 <= n -> generated tape gen (range n) l -> len l = n.
Proof.
  intros Hn H. apply generated_length in H. rewrite range_length in H.
  unfold len. lia.
Qed.

Lemma map_ordinals {B : Type} (value : Z -> B) (n : Z) :
  map (fun i => value (i + 1)) (range n) = map value (ordinals n).
Proof. unfold ordinals. now rewrite map_map. Qed.

Lemma length_append (s t : string) :
  String.length (s ++ t) = (String.length s + String.length t)%nat.
Proof.
  induction s as [|c s IH]; [reflexivity|].
  cbn [String.append String.length]. now rewrite IH.
Qed.

Lemma check_from_sound (f : Z -> bool) (fuel : nat) :
  forall k, check_from f k fuel = true ->
            forall j, k <= j < k + Z.of_nat fuel -> f j = true.
Proof.
  induction fuel as [|fuel IH]; intros k H j Hj; [lia|].
  cbn [check_from] in H. apply andb_true_iff in H. destruct H as [Hk Hrest].
  destruct (Z.eq_dec j k) as [->|Hne]; [exact Hk|].
  apply (IH (k + 1) Hrest). lia.
Qed.

Lemma five_digit_ordinals (k : Z) :
  1 <= k <= 99999 -> String.length (format_0d 5 k) = 5%nat.
Proof.
  intros Hk. apply Nat.eqb_eq.
  assert (E : check_from (has_width 5) 1 (Z.to_nat 99999) = true)
    by (vm_compute; reflexivity).
  apply (check_from_sound _ _ _ E). lia.
Qed.

Lemma six_digit_ordinals (k : Z) :
  1 <= k <= 150000 -> String.length (format_0d 6 k) = 6%nat.
Proof.
  intros Hk. apply Nat.eqb_eq.
  assert (E : check_from (has_width 6) 1 (Z.to_nat 150000) = true)
    by (vm_compute; reflexivity).
  apply (check_from_sound _ _ _ E). lia.
Qed.

Lemma identifiers_width (prefix : string) (width : nat) (n : Z) :
  (forall k, 1 <= k <= n -> String.length (format_0d width k) = width) ->
  Forall (fun id => String.length id = (String.length prefix + width)%nat)
         (map (fun k => (prefix ++ format_0d width k)%string) (ordinals n)).
Proof.
  intros H. apply Forall_forall. intros id Hid.
  apply in_map_iff in Hid. destruct Hid as (k & <- & Hk).
  apply ordinals_positive in Hk.
  rewrite length_append. now rewrite (H k Hk).
Qed.

(** * The claims *)

Lemma base_price_floor i s f s' :
  new_flight i s = Ok (f, s') -> (100 <= base_price f)%Q.
Proof.
  intros H. apply new_flight_result in H.
  destruct H as (_ & _ & _ & _ & _ & _ & ->).
  apply (py_round_lower _ 2 100), py_max_lower.
Qed.

Lemma price_paid_floor fl cu i s b s' :
  new_booking fl cu i s = Ok (b, s') -> (100 <= price_paid b)%Q.
Proof.
  intros H. apply new_booking_result in H.
  destruct H as (_ & f & c & u & z & H).
  destruct H as (_ & _ & _ & _ & _ & _ & _ & _ & _ & -> & _).
  apply (py_round_lower _ 2 100), py_max_lower.
Qed.

(** C2: in every run, whatever the tape holds (deviates of any sign and
    size), every flight of the flights table has [base_price >= 100] and
    every booking of the bookings table has [price_paid >= 100]; the floor
    is taken before the rounding to 2 decimals and the rounding keeps it. *)
Theorem prices_at_least_100 (init_by_seed : Z -> RandomState) (w0 : World) :
  exists w,
    main init_by_seed w0 = Ok w /\
    Forall (fun f => (100 <= base_price f)%Q) (flights_df w) /\
    Forall (fun b => (100 <= price_paid b)%Q) (bookings_df w) /\
    (forall x : Q, (100 <= py_round (py_max x 100) 2)%Q).
Proof.
  destruct (main_tables init_by_seed w0) as (w & E & Gf & _ & Gb).
  exists w. split; [exact E|]. split; [|split].
  - eapply generated_Forall; [|exact Gf].
    intros i s a s' _. apply base_price_floor.
  - eapply generated_Forall; [|exact Gb].
    intros i s a s' _. apply price_paid_floor.
  - intros x. apply (py_round_lower _ 2 100), py_max_lower.
Qed.

Lemma flight_ids tape idx l :
  generated tape new_flight idx l ->
  map flight_id l = map (fun i => ("FL" ++ format_0d 5 (i + 1))%string) idx.
Proof.
  apply generated_map. intros i s a s' H.
  apply new_flight_result in H. apply H.
Qed.

Lemma customer_ids tape idx l :
  generated tape new_customer idx l ->
  map customer_id l
  = map (fun i => ("CU" ++ format_0d 5 (i + 1))%string) idx.
Proof.
  apply generated_map. intros i s a s' H.
  apply new_customer_result in H. apply H.
Qed.

Lemma booking_ids tape fl cu idx l :
  generated tape (new_booking fl cu) idx l ->
  map booking_id l
  = map (fun i => ("BK" ++ format_0d 6 (i + 1))%string) idx.
Proof.
  apply generated_map. intros i s a s' H.
  apply new_booking_result in H.
  destruct H as (_ & f & c & u & z & H). apply H.
Qed.

(** C5: a run builds exactly 50,000 flights, 15,000 customers and 150,000
    bookings; the identifiers of each table are, in order, the prefix
    followed by 1, 2, 3, ... zero-padded to 5 (flights, customers) or 6
    (bookings) digits, so they have 7, 7 and 8 characters and are pairwise
    distinct. *)
Theorem row_counts_and_sequential_ids (init_by_seed : Z -> RandomState)
    (w0 : World) :
  exists w,
    main init_by_seed w0 = Ok w /\
    (len (flights_df w) = 50000 /\
     len (customers_df w) = 15000 /\
     len (bookings_df w) = 150000) /\
    (map flight_id (flights_df w)
     = map (fun k => ("FL" ++ format_0d 5 k)%string) (ordinals 50000) /\
     map customer_id (customers_df w)
     = map (fun k => ("CU" ++ format_0d 5 k)%string) (ordinals 15000) /\
     map booking_id (bookings_df w)
     = map (fun k => ("BK" ++ format_0d 6 k)%string) (ordinals 150000)) /\
    (Forall (fun id => String.length id = 7%nat)
            (map flight_id (flights_df w)) /\
     Forall (fun id => String.length id = 7%nat)
            (map customer_id (customers_df w)) /\
     Forall (fun id => String.length id = 8%nat)
            (map booking_id (bookings_df w))) /\
    (NoDup (map flight_id (flights_df w)) /\
     NoDup (map customer_id (customers_df w)) /\
     NoDup (map booking_id (bookings_df w))).
Proof.
  destruct (main_tables init_by_seed w0) as (w & E & Gf & Gc & Gb).
  exists w. split; [exact E|].
  pose proof (flight_ids _ _ _ Gf) as If.
  pose proof (customer_ids _ _ _ Gc) as Ic.
  pose proof (booking_ids _ _ _ _ _ Gb) as Ib.
  rewrite (map_ordinals (fun k => ("FL" ++ format_0d 5 k)%string)) in If.
  rewrite (map_ordinals (fun k => ("CU" ++ format_0d 5 k)%string)) in Ic.
  rewrite (map_ordinals (fun k => ("BK" ++ format_0d 6 k)%string)) in Ib.
  split; [|split; [|split]].
  - split; [|split].
    + exact (len_generated _ _ _ _ (Z.lt_le_incl _ _ n_flights_pos) Gf).
    + exact (len_generated _ _ _ _ (Z.lt_le_incl _ _ n_customers_pos) Gc).
    + exact (len_generated _ _ _ _ (Z.lt_le_incl _ _ n_bookings_pos) Gb).
  - split; [exact If | split; [exact Ic | exact Ib]].
  - rewrite If, Ic, Ib. split; [|split].
    + apply (identifiers_width "FL" 5). intros k Hk.
      apply five_digit_ordinals. unfold n_flights in Hk. lia.
    + apply (identifiers_width "CU" 5). intros k Hk.
      apply five_digit_ordinals. unfold n_customers in Hk. lia.
    + apply (identifiers_width "BK" 6). intros k Hk.
      apply six_digit_ordinals. unfold n_bookings in Hk. lia.
  - rewrite If, Ic, Ib.
    split; [|split]; apply identifiers_NoDup.
Qed.

(** ** Flights: dates *)

Lemma offsets_stay_in_2023 (off : Z) :
  0 <= off <= 364 ->
  datetime 2023 1 1 <= datetime 2023 1 1 + timedelta off
                    <= datetime 2023 12 31 /\
  year_of (datetime 2023 1 1 + timedelta off) = 2023.
Proof.
  intros H. split.
  - change (datetime 2023 1 1) with 738521.
    change (datetime 2023 12 31) with 738885.
    unfold timedelta. lia.
  - apply Z.eqb_eq.
    assert (E : check_from
                  (fun o => year_of (datetime 2023 1 1 + timedelta o)
                            =? 2023) 0 365 = true)
      by (vm_compute; reflexivity).
    apply (check_from_sound _ _ _ E). lia.
Qed.

Lemma new_flight_date i s f s' :
  new_flight i s = Ok (f, s') -> flight_date_ok f.
Proof.
  intros H. apply new_flight_result in H.
  destruct H as (_ & _ & _ & _ & _ & Hd & _).
  exists (word_at (advance (advance (advance s))) mod 365).
  assert (Hoff : 0 <= word_at (advance (advance (advance s))) mod 365 <= 364).
  { pose proof (Z.mod_pos_bound (word_at (advance (advance (advance s))))
                                365 ltac:(lia)). lia. }
  split; [exact Hoff|]. split; [exact Hd|].
  rewrite Hd. apply offsets_stay_in_2023. exact Hoff.
Qed.

Lemma constant_tape_word c z s :
  same_tape s (constant_tape c z) -> word_at s = c.
Proof. intros [Hw _]. unfold word_at. now rewrite Hw. Qed.

Lemma constant_tape_flight_date c z i s f s' :
  same_tape s (constant_tape c z) ->
  new_flight i s = Ok (f, s') ->
  date f = datetime 2023 1 1 + timedelta (c mod 365).
Proof.
  intros Ht H. apply new_flight_result in H.
  destruct H as (_ & _ & _ & _ & _ & Hd & _).
  rewrite Hd. unfold timedelta.
  now rewrite (constant_tape_word c z) by exact Ht.
Qed.

Lemma Forall_nonempty_Exists {A : Type} (P : A -> Prop) (l : list A) :
  l <> [] -> Forall P l -> Exists P l.
Proof.
  intros Hl H. destruct H as [|a l Ha _]; [congruence|].
  now constructor.
Qed.

(** C6: every flight date is January 1, 2023 plus an offset of 0 to 364
    days, hence lies in 2023-01-01 .. 2023-12-31 (calendar year 2023); and
    there are runs with a flight on 2023-01-01 and runs with a flight on
    2023-12-31. *)
Theorem flight_dates_within_2023 :
  (forall (init_by_seed : Z -> RandomState) (w0 : World),
     exists w,
       main init_by_seed w0 = Ok w /\
       Forall (fun f =>
                 exists off,
                   0 <= off <= 364 /\
                   date f = datetime 2023 1 1 + timedelta off /\
                   datetime 2023 1 1 <= date f <= datetime 2023 12 31 /\
                   year_of (date f) = 2023)
              (flights_df w)) /\
  (forall w0 : World,
     exists init_by_seed w,
       main init_by_seed w0 = Ok w /\
       Exists (fun f => date f = datetime 2023 1 1) (flights_df w)) /\
  (forall w0 : World,
     exists init_by_seed w,
       main init_by_seed w0 = Ok w /\
       Exists (fun f => date f = datetime 2023 12 31) (flights_df w)).
Proof.
  split; [|split].
  - intros init_by_seed w0.
    destruct (main_tables init_by_seed w0) as (w & E & Gf & _).
    exists w. split; [exact E|].
    eapply generated_Forall; [|exact Gf].
    intros i s a s' _. apply new_flight_date.
  - intros w0.
    destruct (main_tables (fun _ => constant_tape 0 0) w0)
      as (w & E & Gf & _).
    exists (fun _ => constant_tape 0 0), w. split; [exact E|].
    apply Forall_nonempty_Exists.
    + exact (generated_nonempty _ _ _ _ n_flights_pos Gf).
    + eapply generated_Forall; [|exact Gf].
      intros i s a s' Ht H.
      exact (constant_tape_flight_date 0 0 i s a s' Ht H).
  - intros w0.
    destruct (main_tables (fun _ => constant_tape 364 0) w0)
      as (w & E & Gf & _).
    exists (fun _ => constant_tape 364 0), w. split; [exact E|].
    apply Forall_nonempty_Exists.
    + exact (generated_nonempty _ _ _ _ n_flights_pos Gf).
    + eapply generated_Forall; [|exact Gf].
      intros i s a s' Ht H.
      exact (constant_tape_flight_date 364 0 i s a s' Ht H).
Qed.

(** ** Bookings *)

Lemma uniform_factor_range (u : Q) :
  (0 <= u)%Q -> (u < 1)%Q ->
  (1.0 <= 1.0 + (1.4 - 1.0) * u)%Q /\ (1.0 + (1.4 - 1.0) * u <= 1.4)%Q.
Proof. intros H0 H1. split; lra. Qed.

Lemma new_booking_ok fl cu i s b s' :
  new_booking fl cu i s = Ok (b, s') -> booking_ok fl cu b.
Proof.
  intros H. apply new_booking_result in H.
  destruct H as (_ & f & c & u & z & Hf & Hc & _ & Hfid & Hcid & Hadv & Hdate
                 & Hu & _ & Hprice & Hpas).
  assert (Hrange : 1 <= advance_days b <= 89).
  { rewrite Hadv.
    pose proof (Z.mod_pos_bound (word_at (advance (advance s))) 89
                                ltac:(lia)). lia. }
  destruct (fraction_at_range (advance (advance (advance s)))) as [U0 U1].
  rewrite <- Hu in U0, U1.
  destruct (uniform_factor_range u U0 U1) as [F0 F1].
  exists f, c, (1.0 + (1.4 - 1.0) * u)%Q, z.
  split; [split; [eapply In_nth_error; exact Hf | now symmetry]|].
  split; [split; [eapply In_nth_error; exact Hc | now symmetry]|].
  split; [exact Hrange|]. split; [exact Hdate|].
  split; [exact F0|]. split; [exact F1|]. split; [|exact Hpas].
  exists (advance_band (advance_days b) (base_price f)).
  eexists. eexists. eexists.
  split; [apply advance_band_bands|].
  split; [reflexivity|]. split; [reflexivity|]. split; [reflexivity|].
  rewrite Hprice. destruct (is_business c =? 1); reflexivity.
Qed.

Lemma bookings_ok tape fl cu idx l :
  generated tape (new_booking fl cu) idx l -> Forall (booking_ok fl cu) l.
Proof.
  apply generated_Forall. intros i s a s' _. apply new_booking_ok.
Qed.

(** Distinct identifiers: a flight identifier names one row. *)
Lemma unique_by_key {A : Type} (key : A -> string) (l : list A) (a b : A) :
  NoDup (map key l) -> In a l -> In b l -> key a = key b -> a = b.
Proof.
  induction l as [|x l IH]; intros Hnd Ha Hb E; [contradiction|].
  cbn [map] in Hnd. apply NoDup_cons_iff in Hnd. destruct Hnd as [Hx Hnd].
  destruct Ha as [->|Ha], Hb as [->|Hb].
  - reflexivity.
  - exfalso. apply Hx. rewrite E. now apply in_map.
  - exfalso. apply Hx. rewrite <- E. now apply in_map.
  - now apply IH.
Qed.

Lemma flights_NoDup tape l :
  generated tape new_flight (range n_flights) l -> NoDup (map flight_id l).
Proof.
  intros G. rewrite (flight_ids _ _ _ G).
  rewrite (map_ordinals (fun k => ("FL" ++ format_0d 5 k)%string)).
  apply identifiers_NoDup.
Qed.

Lemma customers_NoDup tape l :
  generated tape new_customer (range n_customers) l ->
  NoDup (map customer_id l).
Proof.
  intros G. rewrite (customer_ids _ _ _ G).
  rewrite (map_ordinals (fun k => ("CU" ++ format_0d 5 k)%string)).
  apply identifiers_NoDup.
Qed.

(** On a constant tape every booking samples the same row of each frame
    and the same lead time. *)
Lemma constant_tape_booking c z fl cu i s b s' :
  same_tape s (constant_tape c z) ->
  new_booking fl cu i s = Ok (b, s') ->
  exists f k,
    nth_error fl (Z.to_nat (c mod len fl)) = Some f /\
    nth_error cu (Z.to_nat (c mod len cu)) = Some k /\
    booking_flight_id b = flight_id f /\
    booking_customer_id b = customer_id k /\
    advance_days b = 1 + c mod 89 /\
    booking_date b = date f - timedelta (1 + c mod 89).
Proof.
  intros Ht H. apply new_booking_result in H.
  destruct H as (_ & f & k & u & y & Hf & Hk & _ & Hfid & Hkid & Hadv & Hdate
                 & _).
  rewrite (constant_tape_word c z) in Hf by exact Ht.
  rewrite (constant_tape_word c z) in Hk by exact Ht.
  rewrite (constant_tape_word c z) in Hadv by exact Ht.
  exists f, k. rewrite Hdate, Hadv. repeat split; assumption.
Qed.

(** C3: every booking has [1 <= advance_days <= 89] (both ends occur in
    some run), names exactly one flight of the flights table, and its
    [booking_date] is that flight's date minus [advance_days] days, hence
    strictly earlier. *)
Theorem booking_date_before_flight :
  (forall (init_by_seed : Z -> RandomState) (w0 : World),
     exists w,
       main init_by_seed w0 = Ok w /\
       Forall (fun b =>
                 1 <= advance_days b <= 89 /\
                 exists f,
                   references_flight (flights_df w) b f /\
                   (forall f', references_flight (flights_df w) b f' ->
                               f' = f) /\
                   booking_date b = date f - timedelta (advance_days b) /\
                   booking_date b < date f)
              (bookings_df w)) /\
  (forall w0 : World,
     exists init_by_seed w,
       main init_by_seed w0 = Ok w /\
       Exists (fun b => advance_days b = 1) (bookings_df w)) /\
  (forall w0 : World,
     exists init_by_seed w,
       main init_by_seed w0 = Ok w /\
       Exists (fun b => advance_days b = 89) (bookings_df w)).
Proof.
  split; [|split].
  - intros init_by_seed w0.
    destruct (main_tables init_by_seed w0) as (w & E & Gf & _ & Gb).
    exists w. split; [exact E|].
    apply bookings_ok in Gb. revert Gb. apply Forall_impl.
    intros b (f & c & factor & z & Rf & _ & Hadv & Hdate & _).
    split; [exact Hadv|]. exists f. split; [exact Rf|].
    split; [|split; [exact Hdate | rewrite Hdate; unfold timedelta; lia]].
    intros f' [Hin' Hid']. destruct Rf as [Hin Hid].
    apply (unique_by_key flight_id (flights_df w));
      [exact (flights_NoDup _ _ Gf) | assumption | assumption | congruence].
  - intros w0.
    destruct (main_tables (fun _ => constant_tape 0 0) w0)
      as (w & E & _ & _ & Gb).
    exists (fun _ => constant_tape 0 0), w. split; [exact E|].
    apply Forall_nonempty_Exists.
    + exact (generated_nonempty _ _ _ _ n_bookings_pos Gb).
    + eapply generated_Forall; [|exact Gb].
      intros i s a s' Ht H.
      destruct (constant_tape_booking 0 0 _ _ i s a s' Ht H)
        as (f & k & _ & _ & _ & _ & Hadv & _).
      exact Hadv.
  - intros w0.
    destruct (main_tables (fun _ => constant_tape 88 0) w0)
      as (w & E & _ & _ & Gb).
    exists (fun _ => constant_tape 88 0), w. split; [exact E|].
    apply Forall_nonempty_Exists.
    + exact (generated_nonempty _ _ _ _ n_bookings_pos Gb).
    + eapply generated_Forall; [|exact Gb].
      intros i s a s' Ht H.
      destruct (constant_tape_booking 88 0 _ _ i s a s' Ht H)
        as (f & k & _ & _ & _ & _ & Hadv & _).
      exact Hadv.
Qed.

(** C4: in every run each booking's [flight_id] is the identifier of a row
    of the flights table and its [customer_id] the identifier of a row of
    the customers table, both tables being complete when the bookings are
    drawn; rows are drawn with replacement: in some run all 150,000
    bookings name one and the same flight and customer. *)
Theorem bookings_reference_existing_rows :
  (forall (init_by_seed : Z -> RandomState) (w0 : World),
     exists w,
       main init_by_seed w0 = Ok w /\
       len (flights_df w) = 50000 /\
       len (customers_df w) = 15000 /\
       Forall (fun b =>
                 In (booking_flight_id b) (map flight_id (flights_df w)) /\
                 In (booking_customer_id b)
                    (map customer_id (customers_df w)))
              (bookings_df w)) /\
  (forall w0 : World,
     exists init_by_seed w f c,
       main init_by_seed w0 = Ok w /\
       len (bookings_df w) = 150000 /\
       In f (flights_df w) /\ In c (customers_df w) /\
       Forall (fun b =>
                 booking_flight_id b = flight_id f /\
                 booking_customer_id b = customer_id c)
              (bookings_df w)).
Proof.
  split.
  - intros init_by_seed w0.
    destruct (main_tables init_by_seed w0) as (w & E & Gf & Gc & Gb).
    exists w. split; [exact E|].
    split; [exact (len_generated _ _ _ _ (Z.lt_le_incl _ _ n_flights_pos) Gf)|].
    split;
      [exact (len_generated _ _ _ _ (Z.lt_le_incl _ _ n_customers_pos) Gc)|].
    apply bookings_ok in Gb. revert Gb. apply Forall_impl.
    intros b (f & c & factor & z & [Hf Hfid] & [Hc Hcid] & _).
    split; [rewrite <- Hfid | rewrite <- Hcid]; now apply in_map.
  - intros w0.
    destruct (main_tables (fun _ => constant_tape 0 0) w0)
      as (w & E & Gf & Gc & Gb).
    pose proof (generated_nonempty _ _ _ _ n_flights_pos Gf) as Hfl.
    pose proof (generated_nonempty _ _ _ _ n_customers_pos Gc) as Hcu.
    destruct (getitem_mod (flights_df w) 0 Hfl) as (f & _ & Hf).
    destruct (getitem_mod (customers_df w) 0 Hcu) as (c & _ & Hc).
    exists (fun _ => constant_tape 0 0), w, f, c. split; [exact E|].
    split;
      [exact (len_generated _ _ _ _ (Z.lt_le_incl _ _ n_bookings_pos) Gb)|].
    split; [eapply In_nth_error; exact Hf|].
    split; [eapply In_nth_error; exact Hc|].
    eapply generated_Forall; [|exact Gb].
    intros i s a s' Ht H.
    destruct (constant_tape_booking 0 0 _ _ i s a s' Ht H)
      as (f' & c' & Hf' & Hc' & Hfid & Hcid & _).
    rewrite Hf in Hf'. rewrite Hc in Hc'.
    injection Hf' as <-. injection Hc' as <-. split; assumption.
Qed.

Lemma constant_tape_booking_date c z tape fl cu idx l :
  same_tape tape (constant_tape c z) ->
  generated tape new_flight (range n_flights) fl ->
  generated tape (new_booking fl cu) idx l ->
  Forall (fun b => booking_date b
                   = datetime 2023 1 1 + timedelta (c mod 365)
                     - timedelta (1 + c mod 89)) l.
Proof.
  intros Ht Gf Gb.
  assert (Hfl : Forall (fun f => date f
                                 = datetime 2023 1 1 + timedelta (c mod 365))
                       fl).
  { eapply generated_Forall; [|exact Gf]. intros i s a s' Hs H.
    apply (constant_tape_flight_date c z i s a s'); [|exact H].
    eapply same_tape_trans; eassumption. }
  rewrite Forall_forall in Hfl.
  eapply generated_Forall; [|exact Gb]. intros i s a s' Hs H.
  destruct (constant_tape_booking c z fl cu i s a s') as
    (f & k & Hf & _ & _ & _ & _ & Hdate);
    [eapply same_tape_trans; eassumption | exact H |].
  rewrite Hdate, (Hfl f); [reflexivity|]. eapply In_nth_error. exact Hf.
Qed.

(** C10: every [booking_date] lies between 2022-10-04 and 2023-12-30
    inclusive, and both ends occur: in some run a booking is dated
    2022-10-04, before 2023-01-01, although every flight of that run is in
    2023; in some run a booking is dated 2023-12-30. *)
Theorem booking_date_range :
  (forall (init_by_seed : Z -> RandomState) (w0 : World),
     exists w,
       main init_by_seed w0 = Ok w /\
       Forall (fun b => datetime 2022 10 4 <= booking_date b
                        <= datetime 2023 12 30)
              (bookings_df w)) /\
  (forall w0 : World,
     exists init_by_seed w,
       main init_by_seed w0 = Ok w /\
       Forall (fun f => datetime 2023 1 1 <= date f <= datetime 2023 12 31)
              (flights_df w) /\
       Exists (fun b => booking_date b = datetime 2022 10 4 /\
                        booking_date b < datetime 2023 1 1)
              (bookings_df w)) /\
  (forall w0 : World,
     exists init_by_seed w,
       main init_by_seed w0 = Ok w /\
       Exists (fun b => booking_date b = datetime 2023 12 30)
              (bookings_df w)).
Proof.
  split; [|split].
  - intros init_by_seed w0.
    destruct (main_tables init_by_seed w0) as (w & E & Gf & _ & Gb).
    exists w. split; [exact E|].
    assert (Hfl : Forall flight_date_ok (flights_df w)).
    { eapply generated_Forall; [|exact Gf].
      intros i s a s' _. apply new_flight_date. }
    rewrite Forall_forall in Hfl.
    apply bookings_ok in Gb. revert Gb. apply Forall_impl.
    intros b (f & c & factor & z & [Hin _] & _ & Hadv & Hdate & _).
    destruct (Hfl f Hin) as (off & _ & _ & Hrange & _).
    rewrite Hdate.
    change (datetime 2023 1 1) with 738521 in Hrange.
    change (datetime 2023 12 31) with 738885 in Hrange.
    change (datetime 2022 10 4) with 738432.
    change (datetime 2023 12 30) with 738884.
    unfold timedelta. lia.
  - intros w0.
    destruct (main_tables (fun _ => constant_tape 28835 0) w0)
      as (w & E & Gf & _ & Gb).
    exists (fun _ => constant_tape 28835 0), w. split; [exact E|].
    split.
    + eapply generated_Forall; [|exact Gf].
      intros i s a s' _ H. apply new_flight_date in H.
      destruct H as (off & _ & _ & Hrange & _). exact Hrange.
    + apply Forall_nonempty_Exists.
      * exact (generated_nonempty _ _ _ _ n_bookings_pos Gb).
      * pose proof (constant_tape_booking_date 28835 0 _ _ _ _ _
                      (same_tape_refl _) Gf Gb) as H.
        revert H. apply Forall_impl. intros b ->.
        split; reflexivity.
  - intros w0.
    destruct (main_tables (fun _ => constant_tape 3649 0) w0)
      as (w & E & Gf & _ & Gb).
    exists (fun _ => constant_tape 3649 0), w. split; [exact E|].
    apply Forall_nonempty_Exists.
    + exact (generated_nonempty _ _ _ _ n_bookings_pos Gb).
    + pose proof (constant_tape_booking_date 3649 0 _ _ _ _ _
                    (same_tape_refl _) Gf Gb) as H.
      revert H. apply Forall_impl. intros b ->. reflexivity.
Qed.

(** ** The loop bodies in binary64 *)

Lemma wp_eq {A : Type} (m : M A) (P : A -> RandomState -> Prop) s a s' :
  m s = Ok (a, s') -> P a s' -> wp m P s.
Proof. intros E HP. exists a, s'. split; assumption. Qed.

Lemma wp_normal64 (loc scale : float) (P : float -> RandomState -> Prop) s :
  (scale <? 0)%float = false ->
  P (loc + scale * deviate_at s)%float (advance s) ->
  wp (Binary64.normal loc scale) P s.
Proof.
  intros Hs HP. unfold Binary64.normal. rewrite Hs.
  apply wp_bind. exists (deviate_at s), (advance s).
  split; [reflexivity|]. apply wp_ret. exact HP.
Qed.

Lemma wp_uniform64 (low high : float) (P : float -> RandomState -> Prop) s :
  P (low + (high - low) * sample_at s)%float (advance s) ->
  wp (Binary64.uniform low high) P s.
Proof.
  intros HP. unfold Binary64.uniform.
  apply wp_bind, wp_random_sample, wp_ret. exact HP.
Qed.

(** Two cut points that separate the 53-bit fractions at the same place
    compare alike with every sample. *)
Lemma same_threshold (c c' : Q) (t : Z) s :
  (forall k, 0 <= k < 2 ^ 53 -> (c <= Qmake k (2 ^ 53))%Q <-> t <= k) ->
  (forall k, 0 <= k < 2 ^ 53 -> (c' <= Qmake k (2 ^ 53))%Q <-> t <= k) ->
  Qle_bool c (fraction_at s) = Qle_bool c' (fraction_at s).
Proof.
  intros H H'. unfold fraction_at.
  pose proof (Z.mod_pos_bound (word_at s) (2 ^ 53) ltac:(lia)) as Hk.
  apply eq_true_iff_eq. rewrite !Qle_bool_iff, (H _ Hk), (H' _ Hk).
  reflexivity.
Qed.

Ltac fraction_cut :=
  let k := fresh "k" in
  let Hk := fresh "Hk" in
  intros k Hk;
  match goal with
  | |- (?c <= _)%Q <-> _ =>
    let c' := eval vm_compute in c in change c with c'
  end;
  unfold Qle; cbn [Qnum Qden];
  change (Z.pos (2 ^ 53)) with 9007199254740992;
  change (2 ^ 53) with 9007199254740992 in Hk; lia.

Lemma cdf_business_likely :
  map Binary64.value (Binary64.normalised_cdf [0.4; 0.6]%float)
  = [Qmake 7205759403792794 18014398509481984;
     Qmake 4503599627370496 4503599627370496].
Proof. vm_compute. reflexivity. Qed.

Lemma cdf_business_unlikely :
  map Binary64.value (Binary64.normalised_cdf [0.8; 0.2]%float)
  = [Qmake 7205759403792794 9007199254740992;
     Qmake 4503599627370496 4503599627370496].
Proof. vm_compute. reflexivity. Qed.

Lemma cdf_passengers :
  map Binary64.value (Binary64.normalised_cdf [0.7; 0.2; 0.1]%float)
  = [Qmake 6305039478318695 9007199254740992;
     Qmake 8106479329266893 9007199254740992;
     Qmake 4503599627370496 4503599627370496].
Proof. vm_compute. reflexivity. Qed.

(** The double 0.4 and the rational 2/5 cut the 53-bit fractions at the
    same place; so do 0.8 and 4/5. *)
Lemma choice_business_likely64 s :
  Binary64.choice_p [0; 1] [0.4; 0.6]%float s
  = Ok (bernoulli_value 0.6 (fraction_at s), advance s).
Proof.
  unfold Binary64.choice_p.
  change (negb (len [0.4; 0.6]%float =? len [0; 1])) with false.
  change (existsb (fun x => (x <? 0)%float) [0.4; 0.6]%float) with false.
  change (1.4901161193847656e-08
          <? abs (fold_left PrimFloat.add [0.4; 0.6] 0 - 1))%float
    with false.
  cbv iota. rewrite cdf_business_likely.
  cbv beta iota delta [bind random_sample next_word ret].
  fold (word_at s). fold (fraction_at s). cbn [searchsorted_right].
  rewrite (Qle_bool_one_fraction (Qmake 4503599627370496 4503599627370496))
    by closed_Qle.
  rewrite (same_threshold (Qmake 7205759403792794 18014398509481984)
                          (1 - 0.6) 3602879701896397)
    by fraction_cut.
  unfold bernoulli_value.
  destruct (Qle_bool (1 - 0.6) (fraction_at s)); reflexivity.
Qed.

Lemma choice_business_unlikely64 s :
  Binary64.choice_p [0; 1] [0.8; 0.2]%float s
  = Ok (bernoulli_value 0.2 (fraction_at s), advance s).
Proof.
  unfold Binary64.choice_p.
  change (negb (len [0.8; 0.2]%float =? len [0; 1])) with false.
  change (existsb (fun x => (x <? 0)%float) [0.8; 0.2]%float) with false.
  change (1.4901161193847656e-08
          <? abs (fold_left PrimFloat.add [0.8; 0.2] 0 - 1))%float
    with false.
  cbv iota. rewrite cdf_business_unlikely.
  cbv beta iota delta [bind random_sample next_word ret].
  fold (word_at s). fold (fraction_at s). cbn [searchsorted_right].
  rewrite (Qle_bool_one_fraction (Qmake 4503599627370496 4503599627370496))
    by closed_Qle.
  rewrite (same_threshold (Qmake 7205759403792794 9007199254740992)
                          (1 - 0.2) 7205759403792794)
    by fraction_cut.
  unfold bernoulli_value.
  destruct (Qle_bool (1 - 0.2) (fraction_at s)); reflexivity.
Qed.

Lemma choice_passengers64 s :
  Binary64.choice_p [1; 2; 3] [0.7; 0.2; 0.1]%float s
  = Ok (passengers_value (fraction_at s), advance s).
Proof.
  unfold Binary64.choice_p.
  change (negb (len [0.7; 0.2; 0.1]%float =? len [1; 2; 3])) with false.
  change (existsb (fun x => (x <? 0)%float) [0.7; 0.2; 0.1]%float)
    with false.
  change (1.4901161193847656e-08
          <? abs (fold_left PrimFloat.add [0.7; 0.2; 0.1] 0 - 1))%float
    with false.
  cbv iota. rewrite cdf_passengers.
  cbv beta iota delta [bind random_sample next_word ret].
  fold (word_at s). fold (fraction_at s). cbn [searchsorted_right].
  rewrite (Qle_bool_one_fraction (Qmake 4503599627370496 4503599627370496))
    by closed_Qle.
  rewrite (same_threshold (Qmake 6305039478318695 9007199254740992)
                          0.7 6305039478318695)
    by fraction_cut.
  rewrite (same_threshold (Qmake 8106479329266893 9007199254740992)
                          0.9 8106479329266893)
    by fraction_cut.
  unfold passengers_value.
  destruct (Qle_bool 0.7 (fraction_at s));
    [destruct (Qle_bool 0.9 (fraction_at s))|]; reflexivity.
Qed.

Lemma new_flight_spec64 (i : Z) (s : RandomState) :
  wp (Binary64.new_flight i) (flight_post64 i s) s.
Proof.
  unfold Binary64.new_flight.
  apply wp_bind, wp_choice; [discriminate | intros r Hr].
  apply wp_bind, wp_choice; [discriminate | intros a Ha].
  apply wp_bind, wp_choice; [discriminate | intros c Hc].
  apply wp_bind, wp_randint; [lia|].
  rewrite Z.sub_0_r, Z.add_0_l.
  assert (Hpost : forall mu sigma,
             mu = route_mean r -> sigma = route_stdev r ->
             (sigma <? 0)%float = false ->
             wp (Binary64.normal mu sigma)
                (fun bp s1 =>
                   flight_post64 i s
                     {| Binary64.flight_id := "FL" ++ format_0d 5 (i + 1);
                        Binary64.route := r;
                        Binary64.date :=
                          datetime 2023 1 1
                          + timedelta
                              (word_at (advance (advance (advance s)))
                               mod 365);
                        Binary64.aircraft_type := a;
                        Binary64.capacity := c;
                        Binary64.base_price :=
                          Binary64.round_builtin (Binary64.py_max bp 100) 2
                     |} s1)
                (advance (advance (advance (advance s))))).
  { intros mu sigma -> -> Hs. apply wp_normal64; [exact Hs|].
    unfold flight_post64.
    cbn [Binary64.flight_id Binary64.route Binary64.date
         Binary64.aircraft_type Binary64.capacity Binary64.base_price].
    repeat split; solve [assumption | reflexivity]. }
  apply wp_bind.
  unfold route_mean, route_stdev in Hpost.
  destruct (r =? "NYC-LAX")%string.
  - eapply wp_weaken; [apply Hpost; reflexivity|].
    intros bp s1 H. apply wp_ret. exact H.
  - destruct (r =? "NYC-CHI")%string.
    + eapply wp_weaken; [apply Hpost; reflexivity|].
      intros bp s1 H. apply wp_ret. exact H.
    + eapply wp_weaken; [apply Hpost; reflexivity|].
      intros bp s1 H. apply wp_ret. exact H.
Qed.

Lemma new_customer_spec64 (i : Z) (s : RandomState) :
  wp (Binary64.new_customer i) (customer_post64 i s) s.
Proof.
  unfold Binary64.new_customer.
  apply wp_bind, wp_randint; [lia|].
  change (70 - 18) with 52.
  apply wp_bind, wp_normal64; [reflexivity|].
  fold (floored_income64 s).
  set (a := 18 + word_at s mod 52).
  assert (Hk : forall b,
             b = bernoulli_value
                   (business_probability64 (floored_income64 s) a)
                   (fraction_at (advance (advance s))) ->
             wp (h <- choice home_cities ;;
                 ret {| Binary64.customer_id := "CU" ++ format_0d 5 (i + 1);
                        Binary64.age := a;
                        Binary64.income :=
                          Binary64.round_builtin (floored_income64 s) 0;
                        Binary64.is_business := b;
                        Binary64.home_city := h |})
                (customer_post64 i s) (advance (advance (advance s)))).
  { intros b ->. apply wp_bind, wp_choice; [discriminate | intros h Hh].
    apply wp_ret. unfold customer_post64.
    cbn [Binary64.customer_id Binary64.age Binary64.income
         Binary64.is_business Binary64.home_city].
    repeat split; solve [assumption | reflexivity]. }
  apply wp_bind. unfold business_probability64 in Hk.
  destruct ((80000 <? floored_income64 s)%float && (30 <? a)).
  - eapply wp_eq; [apply choice_business_likely64|]. apply Hk. reflexivity.
  - eapply wp_eq; [apply choice_business_unlikely64|]. apply Hk. reflexivity.
Qed.

Lemma new_booking_spec64 (fl : list Binary64.Flight)
    (cu : list Binary64.Customer) (i : Z) (s : RandomState) :
  fl <> [] -> cu <> [] ->
  wp (Binary64.new_booking fl cu i) (booking_post64 fl cu i s) s.
Proof.
  intros Hfl Hcu. unfold Binary64.new_booking.
  apply wp_bind, wp_sample1; [exact Hfl | intros f Hf].
  apply wp_bind, wp_sample1; [exact Hcu | intros c Hc].
  apply wp_bind, wp_randint; [lia|].
  change (90 - 1) with 89.
  set (d := 1 + word_at (advance (advance s)) mod 89).
  set (s3 := advance (advance (advance s))).
  assert (Hk : forall price,
             price = (if (Binary64.is_business c =? 1)%Z
                      then Binary64.advance_band d (Binary64.base_price f)
                           * (1.0 + (1.4 - 1.0) * sample_at s3)
                      else Binary64.advance_band d (Binary64.base_price f))
                     %float ->
             wp (noise <- Binary64.normal 1.0 0.1 ;;
                 passengers <-
                   Binary64.choice_p [1; 2; 3] [0.7; 0.2; 0.1]%float ;;
                 ret {| Binary64.booking_id := "BK" ++ format_0d 6 (i + 1);
                        Binary64.booking_flight_id := Binary64.flight_id f;
                        Binary64.booking_customer_id :=
                          Binary64.customer_id c;
                        Binary64.booking_date :=
                          Binary64.date f - timedelta d;
                        Binary64.price_paid :=
                          Binary64.round_numpy
                            (Binary64.py_max (price * noise)%float 100) 2;
                        Binary64.advance_days := d;
                        Binary64.passengers := passengers |})
                (booking_post64 fl cu i s) (noise_state c s)).
  { intros price ->.
    apply wp_bind, wp_normal64; [reflexivity|].
    apply wp_bind. eapply wp_eq; [apply choice_passengers64|].
    apply wp_ret. exists f, c.
    cbn [Binary64.booking_id Binary64.booking_flight_id
         Binary64.booking_customer_id Binary64.booking_date
         Binary64.price_paid Binary64.advance_days Binary64.passengers].
    repeat split; solve [assumption | reflexivity]. }
  apply wp_bind. unfold noise_state in Hk.
  destruct (Binary64.is_business c =? 1).
  - apply wp_bind, wp_uniform64, wp_ret. apply Hk. reflexivity.
  - apply wp_ret. apply Hk. reflexivity.
Qed.


Lemma new_customer_result64 i s c s' :
  Binary64.new_customer i s = Ok (c, s') -> customer_post64 i s c s'.
Proof. apply wp_result, new_customer_spec64. Qed.

Lemma new_booking_result64 fl cu i s b s' :
  Binary64.new_booking fl cu i s = Ok (b, s') ->
  booking_post64 fl cu i s b s'.
Proof.
  intros H.
  destruct fl as [|f0 fl]; [discriminate|].
  destruct cu as [|c0 cu].
  - unfold Binary64.new_booking, bind in H.
    destruct (sample1 (f0 :: fl) s) as [[f s1]|e]; discriminate.
  - revert H. apply wp_result, new_booking_spec64; discriminate.
Qed.

Lemma noise_state_same_tape c s : same_tape (noise_state c s) s.
Proof.
  unfold noise_state. destruct (Binary64.is_business c =? 1);
    split; reflexivity.
Qed.

(** ** The three loops in binary64 *)

Lemma collect_generated {A : Type} (gen : Z -> M A) (tape : RandomState) :
  (forall i s, same_tape s tape ->
               exists a s', gen i s = Ok (a, s') /\ same_tape s' tape) ->
  forall idx s,
    same_tape s tape ->
    exists l s',
      Binary64.collect gen idx s = Ok (l, s') /\
      same_tape s' tape /\ generated tape gen idx l.
Proof.
  intros Hgen. induction idx as [|i idx IH]; intros s Ht.
  - exists [], s. split; [reflexivity | split; [exact Ht | constructor]].
  - destruct (Hgen i s Ht) as (a & s1 & Hg & Ht1).
    destruct (IH s1 Ht1) as (l & s2 & Hc & Ht2 & Hl).
    exists (a :: l), s2. split; [|split; [exact Ht2|]].
    + cbn [Binary64.collect]. unfold bind. rewrite Hg, Hc. reflexivity.
    + constructor; [|exact Hl]. exists s, s1. split; assumption.
Qed.

Lemma new_flight_returns64 tape i s :
  same_tape s tape ->
  exists a s', Binary64.new_flight i s = Ok (a, s') /\ same_tape s' tape.
Proof.
  intros Ht. destruct (new_flight_spec64 i s) as (a & s' & Hg & Hp & _).
  exists a, s'. split; [exact Hg|]. subst s'. exact Ht.
Qed.

Lemma new_customer_returns64 tape i s :
  same_tape s tape ->
  exists a s', Binary64.new_customer i s = Ok (a, s') /\ same_tape s' tape.
Proof.
  intros Ht. destruct (new_customer_spec64 i s) as (a & s' & Hg & Hp & _).
  exists a, s'. split; [exact Hg|]. subst s'. exact Ht.
Qed.

Lemma new_booking_returns64 fl cu tape i s :
  fl <> [] -> cu <> [] ->
  same_tape s tape ->
  exists a s',
    Binary64.new_booking fl cu i s = Ok (a, s') /\ same_tape s' tape.
Proof.
  intros Hf Hc Ht.
  destruct (new_booking_spec64 fl cu i s Hf Hc)
    as (a & s' & Hg & f & c & _ & _ & Hs & _).
  exists a, s'. split; [exact Hg|]. subst s'.
  eapply same_tape_trans; [|exact Ht].
  destruct (noise_state_same_tape c s) as [A B]. split; assumption.
Qed.

(** The three loops return, whatever the tape holds, and every record is
    the result of its loop body at some position of the tape. *)
Lemma generate_tables_spec (s0 : RandomState) :
  exists fl cu bk s1,
    Binary64.generate_tables s0 = Ok (fl, cu, bk, s1) /\
    generated s0 Binary64.new_flight (range n_flights) fl /\
    generated s0 Binary64.new_customer (range n_customers) cu /\
    generated s0 (Binary64.new_booking fl cu) (range n_bookings) bk.
Proof.
  destruct (collect_generated Binary64.new_flight s0
              (new_flight_returns64 s0) (range n_flights) s0
              (same_tape_refl s0)) as (fl & s1 & E1 & T1 & G1).
  destruct (collect_generated Binary64.new_customer s0
              (new_customer_returns64 s0) (range n_customers) s1 T1)
    as (cu & s2 & E2 & T2 & G2).
  pose proof (generated_nonempty _ _ _ _ n_flights_pos G1) as Hfl.
  pose proof (generated_nonempty _ _ _ _ n_customers_pos G2) as Hcu.
  destruct (collect_generated (Binary64.new_booking fl cu) s0
              (fun i s => new_booking_returns64 fl cu s0 i s Hfl Hcu)
              (range n_bookings) s2 T2) as (bk & s3 & E3 & T3 & G3).
  exists fl, cu, bk, s3. split; [|split; [|split]]; try assumption.
  unfold Binary64.generate_tables, bind. rewrite E1, E2, E3. reflexivity.
Qed.







(** ** Customers *)

Lemma constant_tape_customer c z tape idx l :
  same_tape tape (constant_tape c z) ->
  generated tape Binary64.new_customer idx l ->
  Forall (fun k =>
            Binary64.age k = 18 + c mod 52 /\
            nth_error home_cities (Z.to_nat (c mod 5))
            = Some (Binary64.home_city k)) l.
Proof.
  intros Ht. apply generated_Forall. intros i s k s' Hs H.
  apply new_customer_result64 in H.
  destruct H as (_ & _ & Hage & _ & _ & Hcity).
  assert (T : forall s1, same_tape s1 s -> word_at s1 = c).
  { intros s1 H1. apply (constant_tape_word c z).
    eapply same_tape_trans; [exact H1|].
    eapply same_tape_trans; eassumption. }
  rewrite (T s (same_tape_refl s)) in Hage.
  rewrite (T (advance (advance (advance s)))) in Hcity
    by (split; reflexivity).
  split; assumption.
Qed.

Lemma income_whole_at_least_25000 tape idx l :
  generated tape new_customer idx l ->
  Forall (fun c => exists n : Z,
                     income c = inject_Z n /\ (25000 <= income c)%Q) l.
Proof.
  apply generated_Forall. intros i s c s' _ H.
  apply new_customer_result in H.
  destruct H as (_ & _ & _ & Hinc & _).
  exists (round_half_even (floored_income s * 1)).
  split; [rewrite Hinc; reflexivity|].
  rewrite Hinc. apply (py_round_lower _ 0 25000), py_max_lower.
Qed.

(** C7, as worded: refuted.  Two customers of age 40 are both recorded with
    income 80000 and both draw the uniform fraction one half, yet the first
    is flagged 1 and the second 0: the first drew the deviate 1.000015, an
    income of 80000.3 when tested (the 0.6 branch), the second the deviate
    1, an income of 80000 when tested (the 0.2 branch).  The flag is not
    drawn with the probability that the recorded income selects. *)
Lemma flag_tested_before_rounding :
  (exists c1 c2 s1 s2,
     Binary64.new_customer 0 (forty_years_old 1.000015) = Ok (c1, s1) /\
     Binary64.new_customer 0 (forty_years_old 1) = Ok (c2, s2) /\
     Binary64.age c1 = 40 /\ Binary64.age c2 = 40 /\
     Binary64.income c1 = 80000%float /\
     Binary64.income c2 = 80000%float /\
     fraction_at (advance (advance (forty_years_old 1.000015)))
     = Qmake (2 ^ 52) (2 ^ 53) /\
     fraction_at (advance (advance (forty_years_old 1)))
     = Qmake (2 ^ 52) (2 ^ 53) /\
     Binary64.is_business c1 = 1 /\
     Binary64.is_business c2 = 0) /\
  ~ flag_follows_recorded_income.
Proof.
  split.
  - do 4 eexists.
    split; [vm_compute; reflexivity|].
    split; [vm_compute; reflexivity|].
    repeat split; vm_compute; reflexivity.
  - intros H.
    assert (E : exists c s',
               Binary64.new_customer 0 (forty_years_old 1.000015)
               = Ok (c, s') /\
               Binary64.is_business c = 1 /\
               bernoulli_value
                 (business_probability64 (Binary64.income c)
                                         (Binary64.age c))
                 (fraction_at
                    (advance (advance (forty_years_old 1.000015))))
               = 0).
    { do 2 eexists. split; [vm_compute; reflexivity|].
      split; vm_compute; reflexivity. }
    destruct E as (c & s' & Hrun & H1 & H0).
    apply H in Hrun. rewrite H1, H0 in Hrun. discriminate Hrun.
Qed.

(** C7, amended: the three loops return on every tape, and every customer
    has the age [18 + w mod 52] for the word [w] drawn first, hence from 18
    to 69; its income is the
    deviate drawn second scaled to mean 60000 and deviation 20000, floored
    at 25000, then rounded to a whole number; its flag is drawn third as
    Bernoulli(0.6) (1 when the uniform fraction is at least 0.4) when the
    floored income, before it is rounded, exceeds 80000 and the age
    exceeds 30, and as Bernoulli(0.2) (1 when the fraction is at least 0.8)
    otherwise, hence 0 or 1; its home city is the entry [w mod 5] of the
    five cities for the word [w] drawn fourth; every step in binary64.  In
    exact arithmetic the recorded income is a whole number, at least 25000.
    Every age from 18 to 69 and every one of the five cities occurs in some
    run. *)
Theorem customer_fields_from_the_draws :
  (forall s0 : RandomState,
     exists fl cu bk s1,
       Binary64.generate_tables s0 = Ok (fl, cu, bk, s1) /\
       Forall
         (fun c =>
            exists (s : RandomState) (floored : float),
              same_tape s s0 /\
              Binary64.age c = 18 + word_at s mod 52 /\
              18 <= Binary64.age c <= 69 /\
              floored
              = Binary64.py_max
                  (60000 + 20000 * deviate_at (advance s))%float 25000 /\
              Binary64.income c = Binary64.round_builtin floored 0 /\
              ((80000 <? floored)%float = true -> 30 < Binary64.age c ->
               Binary64.is_business c
               = bernoulli_value 0.6 (fraction_at (advance (advance s)))) /\
              ((80000 <? floored)%float = false \/ Binary64.age c <= 30 ->
               Binary64.is_business c
               = bernoulli_value 0.2 (fraction_at (advance (advance s)))) /\
              (Binary64.is_business c = 0 \/ Binary64.is_business c = 1) /\
              nth_error ["NYC"; "LAX"; "CHI"; "MIA"; "BOS"]%string
                        (Z.to_nat
                           (word_at (advance (advance (advance s))) mod 5))
              = Some (Binary64.home_city c) /\
              In (Binary64.home_city c)
                 ["NYC"; "LAX"; "CHI"; "MIA"; "BOS"]%string)
         cu) /\
  (forall (init_by_seed : Z -> RandomState) (w0 : World),
     exists w,
       main init_by_seed w0 = Ok w /\
       Forall (fun c => exists n : Z,
                          income c = inject_Z n /\ (25000 <= income c)%Q)
              (customers_df w)) /\
  (forall a : Z,
     18 <= a <= 69 ->
     exists s0 fl cu bk s1,
       Binary64.generate_tables s0 = Ok (fl, cu, bk, s1) /\
       cu <> [] /\ Forall (fun c => Binary64.age c = a) cu) /\
  (forall city : string,
     In city ["NYC"; "LAX"; "CHI"; "MIA"; "BOS"]%string ->
     exists s0 fl cu bk s1,
       Binary64.generate_tables s0 = Ok (fl, cu, bk, s1) /\
       cu <> [] /\ Forall (fun c => Binary64.home_city c = city) cu).
Proof.
  split; [|split; [|split]].
  - intros s0.
    destruct (generate_tables_spec s0)
      as (fl & cu & bk & s1 & E & _ & Gc & _).
    exists fl, cu, bk, s1. split; [exact E|].
    eapply generated_Forall; [|exact Gc].
    intros i s c s' Ht H. apply new_customer_result64 in H.
    destruct H as (_ & _ & Hage & Hinc & Hbus & Hcity).
    exists s, (floored_income64 s).
    split; [exact Ht|]. split; [exact Hage|].
    split.
    { rewrite Hage.
      pose proof (Z.mod_pos_bound (word_at s) 52 ltac:(lia)). lia. }
    split; [reflexivity|]. split; [exact Hinc|].
    unfold business_probability64 in Hbus.
    split.
    { intros Hi Ha. apply Z.ltb_lt in Ha.
      rewrite Hi, Ha in Hbus. exact Hbus. }
    split.
    { intros [Hi|Ha].
      - rewrite Hi in Hbus. exact Hbus.
      - apply Z.ltb_ge in Ha. rewrite Ha, andb_false_r in Hbus.
        exact Hbus. }
    split; [rewrite Hbus; apply bernoulli_value_bit|].
    split; [exact Hcity|].
    eapply In_nth_error. exact Hcity.
  - intros init_by_seed w0.
    destruct (main_tables init_by_seed w0) as (w & E & _ & Gc & _).
    exists w. split; [exact E|].
    exact (income_whole_at_least_25000 _ _ _ Gc).
  - intros a Ha.
    destruct (generate_tables_spec (constant_tape (a - 18) 0))
      as (fl & cu & bk & s1 & E & _ & Gc & _).
    exists (constant_tape (a - 18) 0), fl, cu, bk, s1.
    split; [exact E|].
    split; [exact (generated_nonempty _ _ _ _ n_customers_pos Gc)|].
    pose proof (constant_tape_customer (a - 18) 0 _ _ _
                                       (same_tape_refl _) Gc) as H.
    revert H. apply Forall_impl. intros c [Hage _].
    rewrite Hage, Z.mod_small; lia.
  - intros city Hcity.
    assert (Hk : exists k, 0 <= k < 5 /\
                           nth_error home_cities (Z.to_nat k) = Some city).
    { unfold home_cities.
      destruct Hcity as [<-|[<-|[<-|[<-|[<-|[]]]]]];
        [exists 0 | exists 1 | exists 2 | exists 3 | exists 4];
        (split; [lia | reflexivity]). }
    destruct Hk as (k & Hk & Hn).
    destruct (generate_tables_spec (constant_tape k 0))
      as (fl & cu & bk & s1 & E & _ & Gc & _).
    exists (constant_tape k 0), fl, cu, bk, s1.
    split; [exact E|].
    split; [exact (generated_nonempty _ _ _ _ n_customers_pos Gc)|].
    pose proof (constant_tape_customer k 0 _ _ _ (same_tape_refl _) Gc)
      as H.
    revert H. apply Forall_impl. intros c [_ Hc].
    rewrite Z.mod_small in Hc by lia. congruence.
Qed.

(** ** Frames: what a loop and a pass leave unchanged *)

Lemma flight_iteration_appends i w w' :
  flight_iteration i w = Ok w' ->
  (exists f, flight_data w' = flight_data w ++ [f]) /\
  flights_df w' = flights_df w /\
  other_than_flights w' = other_than_flights w.
Proof.
  intros H. apply draw_inv in H. destruct H as (f & r & _ & ->).
  split; [exists f|split]; reflexivity.
Qed.

Lemma customer_iteration_appends i w w' :
  customer_iteration i w = Ok w' ->
  (exists c, customer_data w' = customer_data w ++ [c]) /\
  customers_df w' = customers_df w /\
  other_than_customers w' = other_than_customers w.
Proof.
  intros H. apply draw_inv in H. destruct H as (c & r & _ & ->).
  split; [exists c|split]; reflexivity.
Qed.

Lemma booking_iteration_appends i w w' :
  booking_iteration i w = Ok w' ->
  (exists b, booking_data w' = booking_data w ++ [b]) /\
  bookings_df w' = bookings_df w /\
  other_than_bookings w' = other_than_bookings w.
Proof.
  intros H. apply draw_inv in H. destruct H as (b & r & _ & ->).
  split; [exists b|split]; reflexivity.
Qed.

Lemma create_flights_frame w w' :
  create_flights w = Ok w' -> other_than_flights w' = other_than_flights w.
Proof.
  unfold create_flights, and_then.
  generalize (range n_flights) as idx. intros idx.
  match goal with
  | |- context [for_each idx ?body ?x] =>
    destruct (for_each idx body x) as [w1|e] eqn:L; [|discriminate]
  end.
  open_to_csv. intros H. injection H as <-.
  apply (for_each_preserves other_than_flights) in L.
  - exact L.
  - intros i x x' Hx. now apply flight_iteration_appends in Hx.
Qed.

Lemma create_customers_frame w w' :
  create_customers w = Ok w' ->
  other_than_customers w' = other_than_customers w.
Proof.
  unfold create_customers, and_then.
  generalize (range n_customers) as idx. intros idx.
  match goal with
  | |- context [for_each idx ?body ?x] =>
    destruct (for_each idx body x) as [w1|e] eqn:L; [|discriminate]
  end.
  open_to_csv. intros H. injection H as <-.
  apply (for_each_preserves other_than_customers) in L.
  - exact L.
  - intros i x x' Hx. now apply customer_iteration_appends in Hx.
Qed.

Lemma create_bookings_frame w w' :
  create_bookings w = Ok w' ->
  other_than_bookings w' = other_than_bookings w.
Proof.
  unfold create_bookings, and_then.
  generalize (range n_bookings) as idx. intros idx.
  match goal with
  | |- context [for_each idx ?body ?x] =>
    destruct (for_each idx body x) as [w1|e] eqn:L; [|discriminate]
  end.
  open_to_csv. intros H. injection H as <-.
  apply (for_each_preserves other_than_bookings) in L.
  - exact L.
  - intros i x x' Hx. now apply booking_iteration_appends in Hx.
Qed.

Lemma show_summary_frame w w' :
  show_summary w = Ok w' -> all_tables w' = all_tables w.
Proof.
  unfold show_summary. cbn [bookings_df flights_df print set_stdout].
  destruct (bookings_df w) as [|b bs] eqn:Eb; [discriminate|].
  destruct (map date (flights_df w)) as [|d ds] eqn:Ed; [discriminate|].
  intros H. injection H as <-. reflexivity.
Qed.

(** C9: the booking pass and the summary return the flights and customers
    frames they were given (and the summary the bookings frame); the
    flights pass and the customers pass touch no other table; an iteration
    only appends one record to the list of its own pass; and in a run,
    which completes, each frame has from the end of its pass to the end of
    the script the value that pass gave it. *)
Theorem tables_written_by_one_pass :
  (forall w,
     match create_bookings w with
     | Ok w' => flights_df w' = flights_df w /\
                customers_df w' = customers_df w
     | Raise _ => True
     end) /\
  (forall w,
     match show_summary w with
     | Ok w' => flights_df w' = flights_df w /\
                customers_df w' = customers_df w /\
                bookings_df w' = bookings_df w
     | Raise _ => True
     end) /\
  (forall w,
     match create_flights w with
     | Ok w' => customers_df w' = customers_df w /\
                bookings_df w' = bookings_df w
     | Raise _ => True
     end) /\
  (forall w,
     match create_customers w with
     | Ok w' => flights_df w' = flights_df w /\
                bookings_df w' = bookings_df w
     | Raise _ => True
     end) /\
  (forall i w,
     match flight_iteration i w with
     | Ok w' => exists f, flight_data w' = flight_data w ++ [f]
     | Raise _ => True
     end) /\
  (forall i w,
     match customer_iteration i w with
     | Ok w' => exists c, customer_data w' = customer_data w ++ [c]
     | Raise _ => True
     end) /\
  (forall i w,
     match booking_iteration i w with
     | Ok w' => (exists b, booking_data w' = booking_data w ++ [b]) /\
                flights_df w' = flights_df w /\
                customers_df w' = customers_df w
     | Raise _ => True
     end) /\
  (forall (init_by_seed : Z -> RandomState) (w0 : World),
     exists w1 w2 w3 w,
       create_flights (started init_by_seed w0) = Ok w1 /\
       create_customers w1 = Ok w2 /\
       create_bookings w2 = Ok w3 /\
       show_summary w3 = Ok w /\
       main init_by_seed w0 = Ok w /\
       (flights_df w2 = flights_df w1 /\
        flights_df w3 = flights_df w1 /\
        flights_df w = flights_df w1) /\
       (customers_df w3 = customers_df w2 /\
        customers_df w = customers_df w2) /\
       bookings_df w = bookings_df w3).
Proof.
  repeat match goal with |- _ /\ _ => split end.
  - intros w. destruct (create_bookings w) as [w'|e] eqn:E; [|exact I].
    apply create_bookings_frame in E. injection E as _ E1 _ E2. auto.
  - intros w. destruct (show_summary w) as [w'|e] eqn:E; [|exact I].
    apply show_summary_frame in E. injection E as _ E1 _ E2 _ E3. auto.
  - intros w. destruct (create_flights w) as [w'|e] eqn:E; [|exact I].
    apply create_flights_frame in E. injection E as _ E1 _ E2. auto.
  - intros w. destruct (create_customers w) as [w'|e] eqn:E; [|exact I].
    apply create_customers_frame in E. injection E as _ E1 _ E2. auto.
  - intros i w. destruct (flight_iteration i w) as [w'|e] eqn:E; [|exact I].
    now apply flight_iteration_appends in E.
  - intros i w.
    destruct (customer_iteration i w) as [w'|e] eqn:E; [|exact I].
    now apply customer_iteration_appends in E.
  - intros i w.
    destruct (booking_iteration i w) as [w'|e] eqn:E; [|exact I].
    apply booking_iteration_appends in E.
    destruct E as (Hb & _ & E). injection E as _ E1 _ E2. auto.
  - intros init_by_seed w0.
    destruct (main_passes init_by_seed w0)
      as (w1 & w2 & w3 & w & E1 & E2 & E3 & E4 & E & _).
    exists w1, w2, w3, w. repeat (split; [assumption|]).
    pose proof (create_customers_frame _ _ E2) as F2.
    pose proof (create_bookings_frame _ _ E3) as F3.
    pose proof (show_summary_frame _ _ E4) as F4.
    injection F2 as _ A2 _ _.
    injection F3 as _ A3 _ B3.
    injection F4 as _ A4 _ B4 _ C4.
    repeat split; congruence.
Qed.

(** ** Two runs side by side *)

Lemma for_each_related {A : Type} (R : World -> World -> Prop)
    (idx : list A) (body : A -> World -> result World) :
  (forall i w1 w2 a b,
     R w1 w2 -> body i w1 = Ok a -> body i w2 = Ok b -> R a b) ->
  forall w1 w2 a b,
    R w1 w2 -> for_each idx body w1 = Ok a -> for_each idx body w2 = Ok b ->
    R a b.
Proof.
  intros Hb. induction idx as [|i idx IH]; intros w1 w2 a b HR H1 H2.
  - injection H1 as <-. injection H2 as <-. exact HR.
  - cbn [for_each] in H1, H2.
    destruct (body i w1) as [x1|e1] eqn:E1; [|discriminate].
    destruct (body i w2) as [x2|e2] eqn:E2; [|discriminate].
    exact (IH _ _ _ _ (Hb _ _ _ _ _ HR E1 E2) H1 H2).
Qed.

Lemma draw_related {A : Type} (m : M A) (k : A -> World -> World)
    w1 w2 a b :
  rng w1 = rng w2 ->
  draw m k w1 = Ok a -> draw m k w2 = Ok b ->
  exists x r, a = k x (set_rng r w1) /\ b = k x (set_rng r w2).
Proof.
  intros Hr H1 H2.
  apply draw_inv in H1. destruct H1 as (x1 & r1 & G1 & ->).
  apply draw_inv in H2. destruct H2 as (x2 & r2 & G2 & ->).
  rewrite Hr, G2 in G1. injection G1 as <- <-. eauto.
Qed.

(** From equal generator states the flights pass builds equal frames. *)
Lemma create_flights_deterministic w1 w2 a b :
  rng w1 = rng w2 ->
  create_flights w1 = Ok a -> create_flights w2 = Ok b ->
  rng a = rng b /\ flights_df a = flights_df b.
Proof.
  intros Hr. unfold create_flights, and_then.
  generalize (range n_flights) as idx. intros idx H1 H2.
  match type of H1 with
  | context [for_each idx ?body ?x] =>
    destruct (for_each idx body x) as [y1|e1] eqn:L1; [|discriminate]
  end.
  match type of H2 with
  | context [for_each idx ?body ?x] =>
    destruct (for_each idx body x) as [y2|e2] eqn:L2; [|discriminate]
  end.
  open_to_csv_in H1. open_to_csv_in H2.
  injection H1 as <-. injection H2 as <-.
  cbn [rng flights_df print set_stdout write_file set_files set_flights_df].
  simple refine (for_each_related
            (fun x y => rng x = rng y /\ flight_data x = flight_data y)
            idx _ _ _ _ _ _ _ L1 L2).
  - intros i x y x' y' [Er Ed] Hx Hy.
    destruct (draw_related _ _ _ _ _ _ Er Hx Hy) as (f & r & -> & ->).
    cbn [rng flight_data set_flight_data set_rng]. now rewrite Ed.
  - split; [exact Hr | reflexivity].
Qed.

Lemma create_customers_deterministic w1 w2 a b :
  rng w1 = rng w2 ->
  create_customers w1 = Ok a -> create_customers w2 = Ok b ->
  rng a = rng b /\ customers_df a = customers_df b.
Proof.
  intros Hr. unfold create_customers, and_then.
  generalize (range n_customers) as idx. intros idx H1 H2.
  match type of H1 with
  | context [for_each idx ?body ?x] =>
    destruct (for_each idx body x) as [y1|e1] eqn:L1; [|discriminate]
  end.
  match type of H2 with
  | context [for_each idx ?body ?x] =>
    destruct (for_each idx body x) as [y2|e2] eqn:L2; [|discriminate]
  end.
  open_to_csv_in H1. open_to_csv_in H2.
  injection H1 as <-. injection H2 as <-.
  cbn [rng customers_df print set_stdout write_file set_files
       set_customers_df].
  simple refine (for_each_related
           (fun x y => rng x = rng y /\ customer_data x = customer_data y)
           idx _ _ _ _ _ _ _ L1 L2).
  - intros i x y x' y' [Er Ed] Hx Hy.
    destruct (draw_related _ _ _ _ _ _ Er Hx Hy) as (f & r & -> & ->).
    cbn [rng customer_data set_customer_data set_rng]. now rewrite Ed.
  - split; [exact Hr | reflexivity].
Qed.

(** From equal generator states and equal frames the booking pass builds
    equal bookings. *)
Lemma create_bookings_deterministic w1 w2 a b :
  rng w1 = rng w2 ->
  flights_df w1 = flights_df w2 -> customers_df w1 = customers_df w2 ->
  create_bookings w1 = Ok a -> create_bookings w2 = Ok b ->
  rng a = rng b /\ bookings_df a = bookings_df b.
Proof.
  intros Hr Hf Hc. unfold create_bookings, and_then.
  generalize (range n_bookings) as idx. intros idx H1 H2.
  match type of H1 with
  | context [for_each idx ?body ?x] =>
    destruct (for_each idx body x) as [y1|e1] eqn:L1; [|discriminate]
  end.
  match type of H2 with
  | context [for_each idx ?body ?x] =>
    destruct (for_each idx body x) as [y2|e2] eqn:L2; [|discriminate]
  end.
  open_to_csv_in H1. open_to_csv_in H2.
  injection H1 as <-. injection H2 as <-.
  cbn [rng bookings_df print set_stdout write_file set_files
       set_bookings_df].
  assert (HR : rng y1 = rng y2 /\ booking_data y1 = booking_data y2 /\
               flights_df y1 = flights_df y2 /\
               customers_df y1 = customers_df y2).
  { simple refine (for_each_related
             (fun x y => rng x = rng y /\ booking_data x = booking_data y /\
                         flights_df x = flights_df y /\
                         customers_df x = customers_df y)
             idx _ _ _ _ _ _ _ L1 L2).
    - intros i x y x' y' (Er & Ed & Ef & Ec) Hx Hy.
      unfold booking_iteration in Hx, Hy. rewrite Ef, Ec in Hx.
      destruct (draw_related _ _ _ _ _ _ Er Hx Hy) as (f & r & -> & ->).
      cbn [rng booking_data flights_df customers_df set_booking_data
           set_rng].
      rewrite Ed. auto.
    - repeat split; assumption. }
  destruct HR as (Er & Ed & _). split; assumption.
Qed.

(** Every file written by the script holds the table of its frame. *)
Lemma main_files (init_by_seed : Z -> RandomState) (w0 : World) :
  exists w,
    main init_by_seed w0 = Ok w /\
    read_file "../data/flights.csv" w
    = Some (flights_table (flights_df w)) /\
    read_file "../data/customers.csv" w
    = Some (customers_table (customers_df w)) /\
    read_file "../data/bookings.csv" w
    = Some (bookings_table (bookings_df w)).
Proof.
  destruct (main_passes init_by_seed w0)
    as (w1 & w2 & w3 & w & _ & _ & _ & _ & E & P1 & P2 & P3 & P4).
  exists w. split; [exact E|].
  destruct P1 as (_ & _ & _ & _ & _ & R1 & _).
  destruct P2 as (_ & _ & _ & F2 & _ & R2 & O2 & _).
  destruct P3 as (_ & _ & _ & F3 & C3 & R3 & O3 & _).
  destruct P4 as (_ & F4 & C4 & B4 & Fi4 & _).
  unfold read_file in *. rewrite Fi4, F4, C4, B4.
  split; [|split].
  - rewrite O3 by discriminate. rewrite O2 by discriminate.
    rewrite F3, F2. exact R1.
  - rewrite O3 by discriminate. rewrite C3. exact R2.
  - exact R3.
Qed.

(** C8: two runs of the script, started from any two states of the process
    (generator state, memory, files, output so far), both complete and
    build the same flights, customers and bookings tables, and each of the
    three CSV files holds in both runs the same table: everything is
    determined by the state that seeding with 42 installs. *)
Theorem seeded_runs_agree (init_by_seed : Z -> RandomState)
    (w0 w0' : World) :
  exists w w',
    main init_by_seed w0 = Ok w /\
    main init_by_seed w0' = Ok w' /\
    flights_df w = flights_df w' /\
    customers_df w = customers_df w' /\
    bookings_df w = bookings_df w' /\
    (read_file "../data/flights.csv" w
     = Some (flights_table (flights_df w)) /\
     read_file "../data/flights.csv" w'
     = read_file "../data/flights.csv" w) /\
    (read_file "../data/customers.csv" w
     = Some (customers_table (customers_df w)) /\
     read_file "../data/customers.csv" w'
     = read_file "../data/customers.csv" w) /\
    (read_file "../data/bookings.csv" w
     = Some (bookings_table (bookings_df w)) /\
     read_file "../data/bookings.csv" w'
     = read_file "../data/bookings.csv" w).
Proof.
  destruct (main_passes init_by_seed w0)
    as (a1 & a2 & a3 & a & A1 & A2 & A3 & A4 & A & _).
  destruct (main_passes init_by_seed w0')
    as (b1 & b2 & b3 & b & B1 & B2 & B3 & B4 & B & _).
  destruct (main_files init_by_seed w0) as (x & X & Xf & Xc & Xb).
  destruct (main_files init_by_seed w0') as (y & Y & Yf & Yc & Yb).
  rewrite A in X. injection X as <-.
  rewrite B in Y. injection Y as <-.
  assert (S0 : rng (started init_by_seed w0) = rng (started init_by_seed w0'))
    by now rewrite !started_rng.
  destruct (create_flights_deterministic _ _ _ _ S0 A1 B1) as [S1 F1].
  destruct (create_customers_deterministic _ _ _ _ S1 A2 B2) as [S2 C2].
  pose proof (create_customers_frame _ _ A2) as FA2.
  pose proof (create_customers_frame _ _ B2) as FB2.
  injection FA2 as _ FA2 _ _. injection FB2 as _ FB2 _ _.
  assert (F2 : flights_df a2 = flights_df b2) by congruence.
  destruct (create_bookings_deterministic _ _ _ _ S2 F2 C2 A3 B3) as [S3 K3].
  pose proof (create_bookings_frame _ _ A3) as FA3.
  pose proof (create_bookings_frame _ _ B3) as FB3.
  injection FA3 as _ FA3 _ CA3. injection FB3 as _ FB3 _ CB3.
  pose proof (show_summary_frame _ _ A4) as FA4.
  pose proof (show_summary_frame _ _ B4) as FB4.
  injection FA4 as _ FA4 _ CA4 _ KA4. injection FB4 as _ FB4 _ CB4 _ KB4.
  assert (EF : flights_df a = flights_df b) by congruence.
  assert (EC : customers_df a = customers_df b) by congruence.
  assert (EK : bookings_df a = bookings_df b) by congruence.
  exists a, b. split; [exact A|]. split; [exact B|].
  split; [exact EF|]. split; [exact EC|]. split; [exact EK|].
  split; [|split]; (split; [assumption|]).
  - rewrite Xf, Yf. now rewrite EF.
  - rewrite Xc, Yc. now rewrite EC.
  - rewrite Xb, Yb. now rewrite EK.
Qed.

(** * Further properties of the script *)

(** ** Flights *)

(** X1. Lines 33-35: in every run each flight has one of the five routes, one
    of the three aircraft and one of the three capacities. *)
Theorem flight_categories (init_by_seed : Z -> RandomState) (w0 : World) :
  exists w,
    main init_by_seed w0 = Ok w /\
    Forall (fun f =>
              In (route f)
                 ["NYC-LAX"; "NYC-CHI"; "LAX-SF"; "CHI-MIA"; "NYC-BOS"]%string
              /\ In (aircraft_type f) ["A320"; "B737"; "A321"]%string
              /\ In (capacity f) [150; 180; 220])
           (flights_df w).
Proof.
  destruct (main_tables init_by_seed w0) as (w & E & Gf & _).
  exists w. split; [exact E|].
  eapply generated_Forall; [|exact Gf].
  intros i s f s' _ H. apply new_flight_result in H.
  destruct H as (_ & _ & Hr & Ha & Hc & _).
  split; [|split]; eapply In_nth_error; eassumption.
Qed.


Lemma py_round_cents (x : Q) :
  (100 <= x)%Q ->
  exists n : Z, 10000 <= n /\ py_round x 2 = Qmake n 100.
Proof.
  intros H. exists (round_half_even (x * inject_Z 100)).
  split; [|reflexivity].
  apply round_half_even_lower.
  change (inject_Z 10000) with (100 * inject_Z 100)%Q.
  apply Qmult_le_compat_r; [exact H | closed_Qle].
Qed.

(** X3. Lines 58, 142: both price fields are whole numbers of cents, at least
    10000 of them. *)
Theorem prices_are_whole_cents (init_by_seed : Z -> RandomState)
    (w0 : World) :
  exists w,
    main init_by_seed w0 = Ok w /\
    Forall (fun f => exists n : Z, 10000 <= n /\ base_price f = Qmake n 100)
           (flights_df w) /\
    Forall (fun b => exists n : Z, 10000 <= n /\ price_paid b = Qmake n 100)
           (bookings_df w).
Proof.
  destruct (main_tables init_by_seed w0) as (w & E & Gf & _ & Gb).
  exists w. split; [exact E|]. split.
  - eapply generated_Forall; [|exact Gf].
    intros i s f s' _ H. apply new_flight_result in H.
    destruct H as (_ & _ & _ & _ & _ & _ & ->).
    apply py_round_cents, py_max_lower.
  - eapply generated_Forall; [|exact Gb].
    intros i s b s' _ H. apply new_booking_result in H.
    destruct H as (_ & f & c & u & z & H).
    destruct H as (_ & _ & _ & _ & _ & _ & _ & _ & _ & -> & _).
    apply py_round_cents, py_max_lower.
Qed.

Lemma range_cons (n : Z) : 0 < n -> exists rest, range n = 0 :: rest.
Proof.
  intros Hn. unfold range.
  destruct (Z.to_nat n) as [|m] eqn:E; [lia|].
  cbn [seq map]. eexists. reflexivity.
Qed.

Lemma flights_loop_extends (idx : list Z) :
  forall w w',
    for_each idx flight_iteration w = Ok w' ->
    exists l, flight_data w' = flight_data w ++ l.
Proof.
  induction idx as [|i idx IH]; intros w w' H.
  - injection H as <-. exists []. now rewrite List.app_nil_r.
  - cbn [for_each] in H.
    destruct (flight_iteration i w) as [w1|e] eqn:E; [|discriminate].
    apply flight_iteration_appends in E. destruct E as ((f & E) & _).
    destruct (IH _ _ H) as (l & Hl). exists (f :: l).
    rewrite Hl, E, <- List.app_assoc. reflexivity.
Qed.

(** The first row of the flights frame is the flight drawn from the state
    in which the pass starts. *)
Lemma first_flight (w0 w : World) :
  create_flights w0 = Ok w ->
  exists f s',
    new_flight 0 (rng w0) = Ok (f, s') /\ hd_error (flights_df w) = Some f.
Proof.
  unfold create_flights, and_then.
  destruct (range_cons n_flights n_flights_pos) as [rest ->].
  cbn [for_each].
  match goal with
  | |- context [flight_iteration 0 ?x] =>
    destruct (flight_iteration 0 x) as [w1|e] eqn:E; [|discriminate]
  end.
  destruct (for_each rest flight_iteration w1) as [w2|e] eqn:L;
    [|discriminate].
  open_to_csv. intros H. injection H as <-.
  apply draw_inv in E. destruct E as (f & r & G & ->).
  apply flights_loop_extends in L. destruct L as (l & Hl).
  exists f, r. split; [exact G|].
  cbn [flights_df print set_stdout write_file set_files set_flights_df].
  rewrite Hl. reflexivity.
Qed.

Lemma main_first_flight (init_by_seed : Z -> RandomState) (w0 : World) :
  exists w f s',
    main init_by_seed w0 = Ok w /\
    new_flight 0 (init_by_seed 42) = Ok (f, s') /\
    hd_error (flights_df w) = Some f.
Proof.
  destruct (main_passes init_by_seed w0)
    as (w1 & w2 & w3 & w & E1 & E2 & E3 & E4 & E & _).
  destruct (first_flight _ _ E1) as (f & s' & G & Hd).
  rewrite started_rng in G.
  pose proof (create_customers_frame _ _ E2) as F2.
  pose proof (create_bookings_frame _ _ E3) as F3.
  pose proof (show_summary_frame _ _ E4) as F4.
  injection F2 as _ A2 _ _.
  injection F3 as _ A3 _ _.
  injection F4 as _ A4 _ _ _ _.
  exists w, f, s'. split; [exact E|]. split; [exact G|].
  rewrite A4, A3, A2. exact Hd.
Qed.

Lemma nth_error_position {A : Type} (l : list A) (x : A) :
  In x l ->
  exists k, nth_error l k = Some x /\
            Z.to_nat (Z.of_nat k mod len l) = k.
Proof.
  intros H. apply List.In_nth_error in H. destruct H as (k & Hk).
  exists k. split; [exact Hk|].
  assert (Hlt : (k < List.length l)%nat)
    by (apply nth_error_Some; congruence).
  unfold len. rewrite Z.mod_small by lia. lia.
Qed.

(** X4. Lines 33-35: the route, the aircraft and the capacity are three
    separate draws: for any one route, aircraft and capacity of the pools,
    some run starts with a flight that has them, so that no capacity is tied
    to an aircraft. *)
Theorem any_route_aircraft_capacity (r p : string) (c : Z) (w0 : World) :
  In r routes -> In p aircraft -> In c capacities ->
  exists init_by_seed w f,
    main init_by_seed w0 = Ok w /\
    hd_error (flights_df w) = Some f /\
    route f = r /\ aircraft_type f = p /\ capacity f = c.
Proof.
  intros Hr Hp Hc.
  destruct (nth_error_position _ _ Hr) as (kr & Nr & Mr).
  destruct (nth_error_position _ _ Hp) as (kp & Np & Mp).
  destruct (nth_error_position _ _ Hc) as (kc & Nc & Mc).
  set (tape := three_words (Z.of_nat kr) (Z.of_nat kp) (Z.of_nat kc)).
  destruct (main_first_flight (fun _ => tape) w0) as (w & f & s' & E & G & Hd).
  exists (fun _ => tape), w, f. split; [exact E|]. split; [exact Hd|].
  apply new_flight_result in G.
  destruct G as (_ & _ & Gr & Gp & Gc & _).
  change (word_at tape) with (Z.of_nat kr) in Gr.
  change (word_at (advance tape)) with (Z.of_nat kp) in Gp.
  change (word_at (advance (advance tape))) with (Z.of_nat kc) in Gc.
  change 5 with (len routes) in Gr.
  change 3 with (len aircraft) in Gp.
  change 3 with (len capacities) in Gc.
  rewrite Mr, Nr in Gr. rewrite Mp, Np in Gp. rewrite Mc, Nc in Gc.
  injection Gr as <-. injection Gp as <-. injection Gc as <-.
  repeat split.
Qed.

Lemma any_route_aircraft_capacity_witness :
  In "NYC-BOS"%string routes /\ In "A320"%string aircraft /\
  In 220 capacities /\
  exists init_by_seed w f,
    main init_by_seed blank_world = Ok w /\
    hd_error (flights_df w) = Some f /\
    route f = "NYC-BOS"%string /\ aircraft_type f = "A320"%string /\
    capacity f = 220.
Proof.
  assert (Hr : In "NYC-BOS"%string routes)
    by (right; right; right; right; left; reflexivity).
  assert (Hp : In "A320"%string aircraft) by (left; reflexivity).
  assert (Hc : In 220 capacities) by (right; right; left; reflexivity).
  split; [exact Hr|]. split; [exact Hp|]. split; [exact Hc|].
  exact (any_route_aircraft_capacity "NYC-BOS" "A320" 220 blank_world
                                     Hr Hp Hc).
Defined.

(** ** Bookings: passengers *)

Lemma passengers_value_range (u : Q) : In (passengers_value u) [1; 2; 3].
Proof.
  unfold passengers_value.
  destruct (Qle_bool 0.7 u); [destruct (Qle_bool 0.9 u)|]; simpl; auto.
Qed.

Lemma constant_tape_passengers64 c z tape fl cu idx l :
  same_tape tape (constant_tape c z) ->
  generated tape (Binary64.new_booking fl cu) idx l ->
  Forall (fun b => Binary64.passengers b
                   = passengers_value (Qmake (c mod 2 ^ 53) (2 ^ 53))) l.
Proof.
  intros Ht. apply generated_Forall. intros i s b s' Hs H.
  apply new_booking_result64 in H.
  destruct H as (f & k & _ & _ & _ & _ & _ & _ & _ & _ & _ & Hp).
  rewrite Hp. unfold fraction_at.
  rewrite (constant_tape_word c z); [reflexivity|].
  eapply same_tape_trans; [|eapply same_tape_trans; eassumption].
  destruct (noise_state_same_tape k s) as [A B]. split; assumption.
Qed.

Lemma passengers_value_cases (u : Q) :
  ((u < 0.7)%Q -> passengers_value u = 1) /\
  ((0.7 <= u)%Q -> (u < 0.9)%Q -> passengers_value u = 2) /\
  ((0.9 <= u)%Q -> passengers_value u = 3).
Proof.
  unfold passengers_value.
  destruct (Qle_bool 0.7 u) eqn:E1.
  - apply Qle_bool_iff in E1.
    destruct (Qle_bool 0.9 u) eqn:E2.
    + apply Qle_bool_iff in E2.
      split; [intros H; exfalso; exact (Qlt_not_le _ _ H E1)|].
      split; [intros _ H; exfalso; exact (Qlt_not_le _ _ H E2)|].
      reflexivity.
    + split; [intros H; exfalso; exact (Qlt_not_le _ _ H E1)|].
      split; [reflexivity|].
      intros H. apply Qle_bool_iff in H. congruence.
  - split; [reflexivity|].
    split.
    + intros H. apply Qle_bool_iff in H. congruence.
    + intros H. exfalso.
      assert (H7 : (0.7 <= u)%Q).
      { eapply Qle_trans; [|exact H]. unfold Qle; simpl; lia. }
      apply Qle_bool_iff in H7. congruence.
Qed.

(** X5. Line 144: the three loops return on every tape, and every booking
    reads its number of passengers from the uniform fraction [u] drawn
    last in its iteration, after the noise deviate: 1 when [u < 0.7], 2
    when [0.7 <= u < 0.9], 3 when [0.9 <= u] (the cumulative weights that
    [choice] computes in binary64 from [0.7, 0.2, 0.1] cut the 53-bit
    fractions where 0.7 and 0.9 do); each of the three values occurs in
    some run. *)
Theorem passengers_from_the_draw :
  (forall s0 : RandomState,
     exists fl cu bk s1,
       Binary64.generate_tables s0 = Ok (fl, cu, bk, s1) /\
       Forall
         (fun b =>
            exists (s : RandomState) (c : Binary64.Customer) (u : Q),
              same_tape s s0 /\
              nth_error cu (Z.to_nat (word_at (advance s) mod len cu))
              = Some c /\
              Binary64.customer_id c = Binary64.booking_customer_id b /\
              u = fraction_at (advance (noise_state c s)) /\
              ((u < 0.7)%Q -> Binary64.passengers b = 1) /\
              ((0.7 <= u)%Q -> (u < 0.9)%Q -> Binary64.passengers b = 2) /\
              ((0.9 <= u)%Q -> Binary64.passengers b = 3) /\
              In (Binary64.passengers b) [1; 2; 3])
         bk) /\
  (exists s0 fl cu bk s1,
     Binary64.generate_tables s0 = Ok (fl, cu, bk, s1) /\
     Exists (fun b => Binary64.passengers b = 1) bk) /\
  (exists s0 fl cu bk s1,
     Binary64.generate_tables s0 = Ok (fl, cu, bk, s1) /\
     Exists (fun b => Binary64.passengers b = 2) bk) /\
  (exists s0 fl cu bk s1,
     Binary64.generate_tables s0 = Ok (fl, cu, bk, s1) /\
     Exists (fun b => Binary64.passengers b = 3) bk).
Proof.
  assert (R : forall c n,
             passengers_value (Qmake (c mod 2 ^ 53) (2 ^ 53)) = n ->
             exists s0 fl cu bk s1,
               Binary64.generate_tables s0 = Ok (fl, cu, bk, s1) /\
               Exists (fun b => Binary64.passengers b = n) bk).
  { intros c n Hn.
    destruct (generate_tables_spec (constant_tape c 0))
      as (fl & cu & bk & s1 & E & _ & _ & Gb).
    exists (constant_tape c 0), fl, cu, bk, s1. split; [exact E|].
    apply Forall_nonempty_Exists.
    - exact (generated_nonempty _ _ _ _ n_bookings_pos Gb).
    - pose proof (constant_tape_passengers64 c 0 _ _ _ _ _
                                             (same_tape_refl _) Gb) as H.
      revert H. apply Forall_impl. intros b Hb. now rewrite Hb. }
  split; [|split; [|split]].
  - intros s0.
    destruct (generate_tables_spec s0)
      as (fl & cu & bk & s1 & E & _ & _ & Gb).
    exists fl, cu, bk, s1. split; [exact E|].
    eapply generated_Forall; [|exact Gb].
    intros i s b s' Ht H. apply new_booking_result64 in H.
    destruct H as (f & c & _ & Hc & _ & _ & _ & Hcid & _ & _ & _ & Hp).
    exists s, c, (fraction_at (advance (noise_state c s))).
    split; [exact Ht|]. split; [exact Hc|].
    split; [symmetry; exact Hcid|]. split; [reflexivity|].
    rewrite Hp.
    destruct (passengers_value_cases
                (fraction_at (advance (noise_state c s))))
      as (P1 & P2 & P3).
    split; [exact P1|]. split; [exact P2|]. split; [exact P3|].
    apply passengers_value_range.
  - apply (R 0). vm_compute. reflexivity.
  - apply (R (3 * 2 ^ 51)). vm_compute. reflexivity.
  - apply (R (2 ^ 53 - 1)). vm_compute. reflexivity.
Qed.

(** ** The files *)

Lemma len_map {A B : Type} (f : A -> B) (l : list A) : len (map f l) = len l.
Proof. unfold len. now rewrite length_map. Qed.

Lemma table_column {A : Type} (columns : list string) (row : A -> list cell)
    (name : string) (k : nat) (field : A -> cell) (df : list A) :
  df <> [] ->
  index_of name columns = Some k ->
  (forall a, nth k (row a) (CStr "") = field a) ->
  csv_column name (to_table columns row df) = Some (map field df).
Proof.
  intros Hdf Hk Hrow. unfold csv_column, to_table. cbn [header rows].
  destruct df as [|a df]; [congruence|].
  rewrite Hk. f_equal. rewrite map_map. apply map_ext. exact Hrow.
Qed.

Lemma table_header {A : Type} (columns : list string) (row : A -> list cell)
    (df : list A) :
  df <> [] -> header (to_table columns row df) = columns.
Proof. intros H. destruct df; [congruence | reflexivity]. Qed.

(** X6. Lines 62-63, 96-97, 147-148: after a run each of the three files holds
    the header of its table and one row per record, in the order of
    generation; the rows are as wide as the header, there are 50,000,
    15,000 and 150,000 of them, and the identifier column of each file is
    the sequence of identifiers of its table. *)
Theorem csv_files_hold_the_tables (init_by_seed : Z -> RandomState)
    (w0 : World) :
  exists w cf cc cb,
    main init_by_seed w0 = Ok w /\
    (read_file "../data/flights.csv" w = Some cf /\
     read_file "../data/customers.csv" w = Some cc /\
     read_file "../data/bookings.csv" w = Some cb) /\
    (header cf = ["flight_id"; "route"; "date"; "aircraft"; "capacity";
                  "base_price"]%string /\
     header cc = ["customer_id"; "age"; "income"; "is_business";
                  "home_city"]%string /\
     header cb = ["booking_id"; "flight_id"; "customer_id"; "booking_date";
                  "price_paid"; "advance_days"; "passengers"]%string) /\
    (rows cf = map flight_row (flights_df w) /\
     rows cc = map customer_row (customers_df w) /\
     rows cb = map booking_row (bookings_df w)) /\
    (len (rows cf) = 50000 /\ len (rows cc) = 15000 /\
     len (rows cb) = 150000) /\
    (Forall (fun r => List.length r = 6%nat) (rows cf) /\
     Forall (fun r => List.length r = 5%nat) (rows cc) /\
     Forall (fun r => List.length r = 7%nat) (rows cb)) /\
    (csv_column "flight_id" cf
     = Some (map (fun k => CStr ("FL" ++ format_0d 5 k)) (ordinals 50000)) /\
     csv_column "customer_id" cc
     = Some (map (fun k => CStr ("CU" ++ format_0d 5 k)) (ordinals 15000)) /\
     csv_column "booking_id" cb
     = Some (map (fun k => CStr ("BK" ++ format_0d 6 k))
                 (ordinals 150000))).
Proof.
  destruct (main_files init_by_seed w0) as (w & E & Rf & Rc & Rb).
  destruct (main_tables init_by_seed w0) as (w' & E' & Gf & Gc & Gb).
  rewrite E in E'. injection E' as <-.
  pose proof (generated_nonempty _ _ _ _ n_flights_pos Gf) as Nf.
  pose proof (generated_nonempty _ _ _ _ n_customers_pos Gc) as Nc.
  pose proof (generated_nonempty _ _ _ _ n_bookings_pos Gb) as Nb.
  exists w, (flights_table (flights_df w)),
    (customers_table (customers_df w)), (bookings_table (bookings_df w)).
  split; [exact E|]. split; [auto|].
  split.
  { split; [|split]; apply table_header; assumption. }
  split; [repeat split|].
  split.
  { unfold flights_table, customers_table, bookings_table, to_table.
    cbn [rows]. rewrite !len_map.
    split; [|split].
    - exact (len_generated _ _ _ _ (Z.lt_le_incl _ _ n_flights_pos) Gf).
    - exact (len_generated _ _ _ _ (Z.lt_le_incl _ _ n_customers_pos) Gc).
    - exact (len_generated _ _ _ _ (Z.lt_le_incl _ _ n_bookings_pos) Gb). }
  split.
  { unfold flights_table, customers_table, bookings_table, to_table.
    cbn [rows].
    split; [|split]; apply Forall_forall; intros r Hr;
      apply in_map_iff in Hr; destruct Hr as (x & <- & _); reflexivity. }
  split; [|split].
  - unfold flights_table.
    rewrite (table_column _ flight_row "flight_id" 0
                          (fun f => CStr (flight_id f))) by
        (assumption || reflexivity).
    f_equal. rewrite <- (map_map flight_id CStr), (flight_ids _ _ _ Gf).
    rewrite (map_ordinals (fun k => ("FL" ++ format_0d 5 k)%string)).
    now rewrite map_map.
  - unfold customers_table.
    rewrite (table_column _ customer_row "customer_id" 0
                          (fun c => CStr (customer_id c))) by
        (assumption || reflexivity).
    f_equal. rewrite <- (map_map customer_id CStr), (customer_ids _ _ _ Gc).
    rewrite (map_ordinals (fun k => ("CU" ++ format_0d 5 k)%string)).
    now rewrite map_map.
  - unfold bookings_table.
    rewrite (table_column _ booking_row "booking_id" 0
                          (fun b => CStr (booking_id b))) by
        (assumption || reflexivity).
    f_equal. rewrite <- (map_map booking_id CStr),
               (booking_ids _ _ _ _ _ Gb).
    rewrite (map_ordinals (fun k => ("BK" ++ format_0d 6 k)%string)).
    now rewrite map_map.
Qed.

(** X7. Lines 139-140, 148: in bookings.csv every cell of the flight_id column
    occurs in the flight_id column of flights.csv, and every cell of the
    customer_id column occurs in the customer_id column of customers.csv. *)
Theorem bookings_file_joins_the_others (init_by_seed : Z -> RandomState)
    (w0 : World) :
  exists w cf cc cb flights_key customers_key booked_flights
         booked_customers,
    main init_by_seed w0 = Ok w /\
    (read_file "../data/flights.csv" w = Some cf /\
     read_file "../data/customers.csv" w = Some cc /\
     read_file "../data/bookings.csv" w = Some cb) /\
    (csv_column "flight_id" cf = Some flights_key /\
     csv_column "flight_id" cb = Some booked_flights /\
     incl booked_flights flights_key) /\
    (csv_column "customer_id" cc = Some customers_key /\
     csv_column "customer_id" cb = Some booked_customers /\
     incl booked_customers customers_key).
Proof.
  destruct (main_files init_by_seed w0) as (w & E & Rf & Rc & Rb).
  destruct (main_tables init_by_seed w0) as (w' & E' & Gf & Gc & Gb).
  rewrite E in E'. injection E' as <-.
  pose proof (generated_nonempty _ _ _ _ n_flights_pos Gf) as Nf.
  pose proof (generated_nonempty _ _ _ _ n_customers_pos Gc) as Nc.
  pose proof (generated_nonempty _ _ _ _ n_bookings_pos Gb) as Nb.
  pose proof (bookings_ok _ _ _ _ _ Gb) as Hok.
  rewrite Forall_forall in Hok.
  exists w, (flights_table (flights_df w)),
    (customers_table (customers_df w)), (bookings_table (bookings_df w)),
    (map (fun f => CStr (flight_id f)) (flights_df w)),
    (map (fun c => CStr (customer_id c)) (customers_df w)),
    (map (fun b => CStr (booking_flight_id b)) (bookings_df w)),
    (map (fun b => CStr (booking_customer_id b)) (bookings_df w)).
  split; [exact E|]. split; [auto|]. split; [|].
  - split; [|split].
    + apply (table_column _ flight_row "flight_id" 0);
        (assumption || reflexivity).
    + apply (table_column _ booking_row "flight_id" 1);
        (assumption || reflexivity).
    + intros x Hx. apply in_map_iff in Hx. destruct Hx as (b & <- & Hb).
      destruct (Hok b Hb) as (f & c & _ & _ & [Hin Hid] & _).
      rewrite <- Hid.
      exact (in_map (fun f => CStr (flight_id f)) _ _ Hin).
  - split; [|split].
    + apply (table_column _ customer_row "customer_id" 0);
        (assumption || reflexivity).
    + apply (table_column _ booking_row "customer_id" 2);
        (assumption || reflexivity).
    + intros x Hx. apply in_map_iff in Hx. destruct Hx as (b & <- & Hb).
      destruct (Hok b Hb) as (f & c & _ & _ & _ & [Hin Hid] & _).
      rewrite <- Hid.
      exact (in_map (fun c => CStr (customer_id c)) _ _ Hin).
Qed.

Lemma started_files (init_by_seed : Z -> RandomState) (w0 : World) :
  files (started init_by_seed w0) = files w0.
Proof.
  unfold started, makedirs. destruct (existsb _ _); reflexivity.
Qed.

(** X8. Lines 14, 63, 97, 148: where no regular file stands at the path of
    the data directory, [os.makedirs] returns, and a run creates that
    directory if it is not there, removes no directory and adds no other
    one, and writes the three CSV paths only: every other path reads as it
    did before the run. *)
Theorem run_touches_only_its_files (init_by_seed : Z -> RandomState)
    (w0 : World) :
  read_file "../data" w0 = None ->
  os_makedirs "../data" w0 = Ok (makedirs "../data" w0) /\
  exists w,
    main init_by_seed w0 = Ok w /\
    In "../data"%string (directories w) /\
    incl (directories w0) (directories w) /\
    incl (directories w) ("../data"%string :: directories w0) /\
    (forall p : string,
       p = "../data/flights.csv"%string \/
       p = "../data/customers.csv"%string \/
       p = "../data/bookings.csv"%string \/
       read_file p w = read_file p w0).
Proof.
  intros Hfile.
  split; [unfold os_makedirs; rewrite Hfile; reflexivity|].
  destruct (main_passes init_by_seed w0)
    as (w1 & w2 & w3 & w & E1 & E2 & E3 & E4 & E & P1 & P2 & P3 & P4).
  exists w. split; [exact E|].
  assert (D : directories w = directories (started init_by_seed w0)).
  { rewrite (show_summary_directories _ _ E4),
      (create_bookings_directories _ _ E3),
      (create_customers_directories _ _ E2).
    exact (create_flights_directories _ _ E1). }
  assert (D0 : directories (started init_by_seed w0)
               = directories (makedirs "../data" w0)).
  { unfold started, makedirs. cbn [directories random_seed set_rng print
                                   set_stdout].
    destruct (existsb _ _); reflexivity. }
  rewrite D, D0.
  destruct (makedirs_directories "../data" w0) as (A & B & C).
  split; [exact A|]. split; [exact B|]. split; [exact C|].
  intros p.
  destruct (String.eqb_spec p "../data/flights.csv") as [|N1]; [now left|].
  destruct (String.eqb_spec p "../data/customers.csv") as [|N2];
    [now right; left|].
  destruct (String.eqb_spec p "../data/bookings.csv") as [|N3];
    [now right; right; left|].
  right. right. right.
  destruct P1 as (_ & _ & _ & _ & _ & _ & O1 & _).
  destruct P2 as (_ & _ & _ & _ & _ & _ & O2 & _).
  destruct P3 as (_ & _ & _ & _ & _ & _ & O3 & _).
  destruct P4 as (_ & _ & _ & _ & F4 & _).
  transitivity (read_file p w3); [unfold read_file; now rewrite F4|].
  rewrite (O3 p N3), (O2 p N2), (O1 p N1).
  unfold read_file. now rewrite started_files.
Qed.

(** ** The summary *)

Lemma fold_Qplus_lower (c : Q) (l : list Q) :
  Forall (fun x => (c <= x)%Q) l ->
  forall a : Q, (a + c * inject_Z (len l) <= fold_left Qplus l a)%Q.
Proof.
  induction 1 as [|x l Hx _ IH]; intros a.
  - cbn [fold_left]. unfold len. cbn [List.length Z.of_nat].
    change (inject_Z 0) with 0%Q. lra.
  - cbn [fold_left]. specialize (IH (a + x)%Q).
    assert (E : (inject_Z (len (x :: l)) == inject_Z (len l) + 1)%Q).
    { unfold len. cbn [List.length]. rewrite Nat2Z.inj_succ.
      unfold Z.succ. rewrite inject_Z_plus. reflexivity. }
    rewrite E. lra.
Qed.

Lemma Qsum_lower (c : Q) (l : list Q) :
  Forall (fun x => (c <= x)%Q) l -> (c * inject_Z (len l) <= Qsum l)%Q.
Proof.
  intros H. pose proof (fold_Qplus_lower c l H 0) as B.
  unfold Qsum. lra.
Qed.

Lemma minimum_spec (l : list Z) :
  forall x, In (minimum x l) (x :: l) /\
            Forall (fun y => minimum x l <= y) (x :: l).
Proof.
  induction l as [|y l IH]; intros x.
  - cbn [minimum]. split; [now left|]. constructor; [lia | constructor].
  - cbn [minimum]. destruct (IH (Z.min x y)) as [Hin Hall].
    apply Forall_cons_iff in Hall. destruct Hall as [Hm Hall].
    split.
    + destruct Hin as [Hin|Hin]; [|now right; right].
      destruct (Z.min_spec x y) as [[_ E]|[_ E]]; rewrite E in *.
      * now left.
      * right. now left.
    + constructor; [lia|]. constructor; [lia | exact Hall].
Qed.

Lemma maximum_spec (l : list Z) :
  forall x, In (maximum x l) (x :: l) /\
            Forall (fun y => y <= maximum x l) (x :: l).
Proof.
  induction l as [|y l IH]; intros x.
  - cbn [maximum]. split; [now left|]. constructor; [lia | constructor].
  - cbn [maximum]. destruct (IH (Z.max x y)) as [Hin Hall].
    apply Forall_cons_iff in Hall. destruct Hall as [Hm Hall].
    split.
    + destruct Hin as [Hin|Hin]; [|now right; right].
      destruct (Z.max_spec x y) as [[_ E]|[_ E]]; rewrite E in *.
      * right. now left.
      * now left.
    + constructor; [lia|]. constructor; [lia | exact Hall].
Qed.

Lemma extends_output_chain w1 w2 w3 :
  extends_output w1 w2 -> extends_output w2 w3 -> extends_output w1 w3.
Proof.
  intros [l1 H1] [l2 H2]. exists (l1 ++ l2).
  now rewrite H2, H1, List.app_assoc.
Qed.

Lemma started_output (init_by_seed : Z -> RandomState) (w0 : World) :
  extends_output w0 (started init_by_seed w0).
Proof.
  exists [[Text "Creating airline dataset..."]].
  unfold started, makedirs. destruct (existsb _ _); reflexivity.
Qed.

(** The lines that the summary adds to the output. *)
Lemma show_summary_output (w3 w : World) :
  show_summary w3 = Ok w ->
  exists d ds summary,
    map date (flights_df w3) = d :: ds /\
    stdout w = stdout w3 ++ summary /\
    In [Text "Flights:  "; Thousands (len (flights_df w3))] summary /\
    In [Text "Customers: "; Thousands (len (customers_df w3))] summary /\
    In [Text "Bookings: "; Thousands (len (bookings_df w3))] summary /\
    In [Text "Total Revenue: $";
        Money (Qsum (map price_paid (bookings_df w3)))] summary /\
    In [Text "Average Ticket: $";
        Money (Qsum (map price_paid (bookings_df w3))
               / inject_Z (len (map price_paid (bookings_df w3))))]
       summary /\
    In [Text "Date Range: "; DateOf (ord2ymd (minimum d ds));
        Text " to "; DateOf (ord2ymd (maximum d ds))] summary.
Proof.
  unfold show_summary. cbn [bookings_df flights_df customers_df print
                            set_stdout].
  destruct (bookings_df w3) as [|b bs] eqn:Eb; [discriminate|].
  destruct (map date (flights_df w3)) as [|d ds] eqn:Ed; [discriminate|].
  intros H. injection H as <-.
  exists d, ds. eexists. split; [reflexivity|].
  cbn [stdout print set_stdout bookings_df flights_df customers_df].
  repeat rewrite <- List.app_assoc. cbn [app].
  split; [reflexivity|].
  cbn [In].
  repeat split; repeat (first [left; reflexivity | right]).
Qed.

(** X9. Lines 155-163: the summary of a run is appended to what was printed
    before; it reports 50,000 flights, 15,000 customers and 150,000
    bookings, a total revenue that is the sum of [price_paid] and at least
    15,000,000, an average ticket of at least 100 that is the total divided
    by 150,000, and as date range the earliest and the latest flight date,
    both in 2023. *)
Theorem summary_reports_the_tables (init_by_seed : Z -> RandomState)
    (w0 : World) :
  exists w lines revenue average first_day last_day,
    main init_by_seed w0 = Ok w /\
    stdout w = stdout w0 ++ lines /\
    (In [Text "Flights:  "; Thousands 50000] lines /\
     In [Text "Customers: "; Thousands 15000] lines /\
     In [Text "Bookings: "; Thousands 150000] lines /\
     In [Text "Total Revenue: $"; Money revenue] lines /\
     In [Text "Average Ticket: $"; Money average] lines /\
     In [Text "Date Range: "; DateOf (ord2ymd first_day);
         Text " to "; DateOf (ord2ymd last_day)] lines) /\
    (revenue = Qsum (map price_paid (bookings_df w)) /\
     (15000000 <= revenue)%Q /\
     (100 <= average)%Q /\
     (average * 150000 == revenue)%Q) /\
    (In first_day (map date (flights_df w)) /\
     In last_day (map date (flights_df w)) /\
     Forall (fun f => first_day <= date f <= last_day) (flights_df w) /\
     year_of first_day = 2023 /\ year_of last_day = 2023).
Proof.
  destruct (main_passes init_by_seed w0)
    as (w1 & w2 & w3 & w & E1 & E2 & E3 & E4 & E & P1 & P2 & P3 & P4).
  destruct (main_tables init_by_seed w0) as (w' & E' & Gf & Gc & Gb).
  rewrite E in E'. injection E' as <-.
  destruct (show_summary_output _ _ E4)
    as (d & ds & summary & Ed & Hout & L1 & L2 & L3 & L4 & L5 & L6).
  destruct P4 as (_ & F4 & C4 & B4 & _).
  rewrite <- F4 in Ed, L1. rewrite <- C4 in L2. rewrite <- B4 in L3, L4, L5.
  rewrite (len_generated _ _ _ _ (Z.lt_le_incl _ _ n_flights_pos) Gf) in L1.
  rewrite (len_generated _ _ _ _ (Z.lt_le_incl _ _ n_customers_pos) Gc)
    in L2.
  rewrite (len_generated _ _ _ _ (Z.lt_le_incl _ _ n_bookings_pos) Gb) in L3.
  rewrite len_map in L5.
  rewrite (len_generated _ _ _ _ (Z.lt_le_incl _ _ n_bookings_pos) Gb) in L5.
  assert (Hpre : extends_output w0 w3).
  { eapply extends_output_chain; [apply started_output|].
    eapply extends_output_chain; [apply P1|].
    eapply extends_output_chain; [apply P2 | apply P3]. }
  destruct Hpre as (pre & Hpre).
  set (revenue := Qsum (map price_paid (bookings_df w))) in *.
  assert (Hrev : (100 * inject_Z n_bookings <= revenue)%Q).
  { rewrite <- (len_generated _ _ _ _ (Z.lt_le_incl _ _ n_bookings_pos) Gb).
    rewrite <- (len_map price_paid). apply Qsum_lower.
    apply Forall_forall. intros x Hx. apply in_map_iff in Hx.
    destruct Hx as (b & <- & Hb).
    assert (Hall : Forall (fun b => (100 <= price_paid b)%Q) (bookings_df w)).
    { eapply generated_Forall; [|exact Gb].
      intros i s a s' _. apply price_paid_floor. }
    rewrite Forall_forall in Hall. exact (Hall b Hb). }
  change (inject_Z n_bookings) with 150000%Q in Hrev.
  change (inject_Z n_bookings) with 150000%Q in L5.
  exists w, (pre ++ summary), revenue, (revenue / 150000)%Q,
    (minimum d ds), (maximum d ds).
  split; [exact E|].
  split; [rewrite Hout, Hpre, List.app_assoc; reflexivity|].
  split.
  { repeat split; apply in_or_app; right; assumption. }
  split.
  { split; [reflexivity|]. split; [lra|]. split.
    - apply Qle_shift_div_l; [reflexivity | lra].
    - field. }
  destruct (minimum_spec ds d) as [Imin Amin].
  destruct (maximum_spec ds d) as [Imax Amax].
  rewrite <- Ed in Imin, Imax, Amin, Amax.
  rewrite Forall_forall in Amin, Amax.
  assert (Hfl : Forall flight_date_ok (flights_df w)).
  { eapply generated_Forall; [|exact Gf].
    intros i s a s' _. apply new_flight_date. }
  rewrite Forall_forall in Hfl.
  assert (Hyear : forall x, In x (map date (flights_df w)) ->
                            year_of x = 2023).
  { intros x Hx. apply in_map_iff in Hx. destruct Hx as (f & <- & Hf).
    destruct (Hfl f Hf) as (off & _ & _ & _ & Hy). exact Hy. }
  split; [exact Imin|]. split; [exact Imax|].
  split; [|split; [exact (Hyear _ Imin) | exact (Hyear _ Imax)]].
  apply Forall_forall. intros f Hf.
  pose proof (in_map date _ _ Hf) as Hd.
  split; [exact (Amin _ Hd) | exact (Amax _ Hd)].
Qed.

(** ** Formatting the identifiers *)

Lemma zeros_length (k : nat) : String.length (zeros k) = k.
Proof. induction k as [|k IH]; [reflexivity|]. cbn. now rewrite IH. Qed.

(** X10. Lines 53, 89, 138: a non-negative number formatted with zero padding
    reads back as itself, and the padding never cuts digits: the result has
    at least the pad width and at least the digits of the number. *)
Theorem zero_padded_number_reads_back (width : nat) (n : Z) :
  0 <= n ->
  parse_decimal (format_0d width n) = Some (Z.to_N n) /\
  (width <= String.length (format_0d width n))%nat /\
  (String.length (digits n) <= String.length (format_0d width n))%nat.
Proof.
  intros Hn. split; [exact (parse_format_0d width n Hn)|].
  unfold format_0d, zfill.
  destruct (n <? 0) eqn:E; [apply Z.ltb_lt in E; lia|].
  rewrite length_append, zeros_length. lia.
Qed.

Lemma zero_padded_number_reads_back_witness :
  0 <= 123456 /\
  parse_decimal (format_0d 5 123456) = Some (Z.to_N 123456) /\
  (5 <= String.length (format_0d 5 123456))%nat /\
  (String.length (digits 123456)
   <= String.length (format_0d 5 123456))%nat.
Proof.
  assert (H : 0 <= 123456) by lia.
  split; [exact H|].
  exact (zero_padded_number_reads_back 5 123456 H).
Defined.

(** ** The passes on any state of the process *)

Lemma new_booking_without_customers fl i s :
  new_booking fl [] i s = Raise ValueError.
Proof.
  destruct fl as [|f fl]; [reflexivity|].
  unfold new_booking, bind.
  destruct (wp_sample1 (f :: fl) (fun _ _ => True) s) as (a & s1 & E & _);
    [discriminate | auto |].
  rewrite E. reflexivity.
Qed.

(** X11. Lines 110-113: the booking pass raises [ValueError], at its first
    iteration, when the flights frame or the customers frame has no row. *)
Theorem bookings_pass_needs_rows (w : World) :
  flights_df w = [] \/ customers_df w = [] ->
  create_bookings w = Raise ValueError.
Proof.
  intros H. unfold create_bookings, and_then.
  destruct (range_cons n_bookings n_bookings_pos) as [rest ->].
  cbn [for_each]. unfold booking_iteration at 1, draw.
  cbn [flights_df customers_df rng set_booking_data print set_stdout].
  destruct H as [H|H]; rewrite H.
  - reflexivity.
  - now rewrite new_booking_without_customers.
Qed.

Lemma bookings_pass_needs_rows_witness :
  (flights_df blank_world = [] \/ customers_df blank_world = []) /\
  create_bookings blank_world = Raise ValueError.
Proof.
  assert (H : flights_df blank_world = [] \/ customers_df blank_world = [])
    by (left; reflexivity).
  split; [exact H|].
  exact (bookings_pass_needs_rows blank_world H).
Defined.








Lemma run_touches_only_its_files_witness :
  read_file "../data" blank_world = None /\
  os_makedirs "../data" blank_world = Ok (makedirs "../data" blank_world) /\
  exists w,
    main (fun _ => constant_tape 0 0) blank_world = Ok w /\
    In "../data"%string (directories w) /\
    incl (directories blank_world) (directories w) /\
    incl (directories w) ("../data"%string :: directories blank_world) /\
    (forall p : string,
       p = "../data/flights.csv"%string \/
       p = "../data/customers.csv"%string \/
       p = "../data/bookings.csv"%string \/
       read_file p w = read_file p blank_world).
Proof.
  assert (H : read_file "../data" blank_world = None) by reflexivity.
  split; [exact H|].
  exact (run_touches_only_its_files (fun _ => constant_tape 0 0)
                                    blank_world H).
Defined.
